(** * Event-impact correlation (correlacion_eventos.py): a shallow embedding

    The development follows 2.SCRIPTS/procesamiento/correlacion_eventos.py
    function by function: the daily aggregations, the event normalizer
    (date parsing, identifier, deduplication), the baseline mask, the
    per-event impact rows and the orchestration in [main].

    Conventions of the embedding.
    - A pandas [Timestamp] is an integer number of nanoseconds since
      1970-01-01T00:00:00; a calendar date is a day number since the same
      epoch.  Month and weekday come from the proleptic Gregorian calendar.
    - A float64 is Rocq's primitive binary64 [float]; [np.nan] is [nan] and
      [np.isnan] is [is_nan].  The order in which pandas adds the values of
      a mean is not fixed here: the two summations are parameters.
    - A Python [str] is the [string] of its UTF-8 bytes, so
      [encode("utf-8")] is the identity.  A [str] holding a lone surrogate
      has no such bytes and is not represented.
    - A DataFrame is the list of its rows; [None] / a DataFrame is an
      [option]; a boolean mask is a [list bool] aligned with the rows.
    - Python exceptions are the [Raise] results of the monad [res].
    - Logging is not modelled, except where evaluating the logged expression
      can itself raise. *)

From Stdlib Require Import ZArith List Bool Floats Uint63 Ascii String.
From Stdlib Require Import DecimalString Sorted.
From stdpp Require Import base option list gmap sets strings.
Import ListNotations.

Local Open Scope Z_scope.

(* ====================================================================== *)
(** ** Exceptions *)
(* ====================================================================== *)

Inductive exn : Type :=
  | TypeError
  | AttributeError
  | InvalidIndexError.

Inductive res (A : Type) : Type :=
  | Ok (a : A)
  | Raise (e : exn).
Arguments Ok {A} a.
Arguments Raise {A} e.

Definition rbind {A B} (m : res A) (k : A -> res B) : res B :=
  match m with
  | Ok a => k a
  | Raise e => Raise e
  end.

Notation "'let*' x ':=' m 'in' k" := (rbind m (fun x => k))
  (at level 10, x name, m at level 100, k at level 200).
Notation "'let*' ' pat ':=' m 'in' k" :=
  (rbind m (fun x => match x with pat => k end))
  (at level 10, pat pattern, m at level 100, k at level 200).

(** A [for] loop whose body may raise: the first exception ends the loop. *)
Fixpoint for_each {A B} (f : A -> res B) (l : list A) : res (list B) :=
  match l with
  | [] => Ok []
  | x :: l' =>
      let* y := f x in
      let* ys := for_each f l' in
      Ok (y :: ys)
  end.

(* ====================================================================== *)
(** ** Calendar: what pandas computes for [.date()], [.month], [.dayofweek] *)
(* ====================================================================== *)

Module Calendar.

Definition Timestamp := Z.
Definition date := Z.

Definition NS_PER_DAY : Z := 86400000000000.

(** [ts.date()] / [series.dt.date]: the day the instant falls in. *)
Definition dt_date (ts : Timestamp) : date := ts / NS_PER_DAY.

(** [pd.to_datetime(d)] for a [datetime.date]: midnight of that day. *)
Definition midnight (d : date) : Timestamp := d * NS_PER_DAY.

(** Day number to (year, month, day), proleptic Gregorian. *)
Definition civil_from_days (days : date) : Z * Z * Z :=
  let z := days + 719468 in
  let era := z / 146097 in
  let doe := z - era * 146097 in
  let yoe := (doe - doe / 1460 + doe / 36524 - doe / 146096) / 365 in
  let y := yoe + era * 400 in
  let doy := doe - (365 * yoe + yoe / 4 - yoe / 100) in
  let mp := (5 * doy + 2) / 153 in
  let d := doy - (153 * mp + 2) / 5 + 1 in
  let m := if mp <? 10 then mp + 3 else mp - 9 in
  (if m <=? 2 then y + 1 else y, m, d).

Definition days_from_civil (y m d : Z) : date :=
  let y' := if m <=? 2 then y - 1 else y in
  let era := y' / 400 in
  let yoe := y' - era * 400 in
  let doy := (153 * (if 2 <? m then m - 3 else m + 9) + 2) / 5 + d - 1 in
  let doe := yoe * 365 + yoe / 4 - yoe / 100 + doy in
  era * 146097 + doe - 719468.

(** [ts.month], 1..12. *)
Definition month (ts : Timestamp) : Z :=
  let '(_, m, _) := civil_from_days (dt_date ts) in m.

(** [ts.dayofweek], Monday = 0 .. Sunday = 6 (1970-01-01 was a Thursday). *)
Definition dayofweek (ts : Timestamp) : Z := (dt_date ts + 3) mod 7.

(** [pd.date_range(start, end, freq="D")]: [start], [start + 1 day], ...
    up to the last one that is not after [end]; empty when [end < start]. *)
Definition date_range (start end_ : Timestamp) : list Timestamp :=
  if end_ <? start then []
  else
    map (fun k => start + Z.of_nat k * NS_PER_DAY)
        (seq 0 (S (Z.to_nat ((end_ - start) / NS_PER_DAY)))).

(** Decimal digits of a non-negative number, left-padded with zeros to
    [width] digits. *)
Definition digit (n : Z) : ascii := ascii_of_nat (48 + Z.to_nat (n mod 10)).

Fixpoint zero_padded (width : nat) (n : Z) : string :=
  match width with
  | O => EmptyString
  | S w => (zero_padded w (n / 10) ++ String (digit n) EmptyString)%string
  end.

(** [ts.strftime("%Y-%m-%d")]: the C library prints the year without
    padding, so a year below 1000 has fewer than four digits. *)
Definition strftime_ymd (ts : Timestamp) : string :=
  let '(y, m, d) := civil_from_days (dt_date ts) in
  (DecimalString.NilZero.string_of_int (Z.to_int y)
   ++ "-" ++ zero_padded 2 m ++ "-" ++ zero_padded 2 d)%string.

(** The instant at midnight of a civil date: a way to write timestamps. *)
Definition ymd (y m d : Z) : Timestamp := midnight (days_from_civil y m d).

End Calendar.
Import Calendar.

(* ====================================================================== *)
(** ** float64 helpers: what numpy and pandas compute *)
(* ====================================================================== *)

Module F64.

Local Open Scope float_scope.

Definition isnan (x : float) : bool := PrimFloat.is_nan x.

(** An integer count as a float64. *)
Definition of_Z (z : Z) : float := PrimFloat.of_uint63 (Uint63.of_Z z).
Definition of_nat (n : nat) : float := of_Z (Z.of_nat n).

(** The values that are not NaN, and [Series.count()] / the ["count"]
    aggregation: their number. *)
Definition notna (l : list float) : list float :=
  List.filter (fun x => negb (isnan x)) l.

Definition count (l : list float) : nat := length (notna l).

(** A mean is a sum divided by a count, and pandas does not accumulate the
    sum in one fixed way: [Series.mean] leaves it to numpy, which adds
    pairwise, and the groupby [mean] adds with a compensation term, so the
    last digits differ from those of a left-to-right loop.  The two
    summations are therefore taken as given: each maps the values of a
    column, in their order, to the sum pandas accumulates over those that
    are not NaN. *)
Class Summation : Type := {
  series_sum : list float -> float;
  groupby_sum : list float -> float;
}.

(** [Series.mean()] (skipna): the sum over the count of the values that
    are not NaN; NaN when there is none. *)
Definition mean `{Summation} (l : list float) : float :=
  match count l with
  | O => nan
  | n => series_sum l / of_nat n
  end.

(** The ["mean"] aggregation of a group. *)
Definition groupby_mean `{Summation} (l : list float) : float :=
  match count l with
  | O => nan
  | n => groupby_sum l / of_nat n
  end.

(** The left-to-right loop, and the summation that uses it for both
    operations.  It serves to run the definitions on the sample tables:
    their groups and windows hold at most two values, whose sum is the
    same float in whatever way it is accumulated. *)
Definition fsum (l : list float) : float := fold_left PrimFloat.add l 0.

Definition plain_sums : Summation :=
  {| series_sum l := fsum (notna l);
     groupby_sum l := fsum (notna l) |}.

(** [np.rint]: the nearest integer, ties to even. *)
Definition two52 : float := 4503599627370496.

Definition rint (x : float) : float :=
  if PrimFloat.abs x <? two52 then
    let r := (PrimFloat.abs x + two52) - two52 in
    if PrimFloat.get_sign x then - r else r
  else x.

(** [round(x, 1)] and [round(x, 2)] on a numpy float64: scale, [rint],
    scale back. *)
Definition round1 (x : float) : float := rint (x * 10) / 10.
Definition round2 (x : float) : float := rint (x * 100) / 100.

End F64.

(* ====================================================================== *)
(** ** MD5 (RFC 1321), as [hashlib.md5(b).hexdigest()] computes it *)
(* ====================================================================== *)

Module MD5.

Definition w32 (x : Z) : Z := Z.land x 0xFFFFFFFF.
Definition not32 (x : Z) : Z := Z.lxor x 0xFFFFFFFF.
Definition add32 (x y : Z) : Z := w32 (x + y).
Definition rotl32 (x c : Z) : Z :=
  w32 (Z.lor (Z.shiftl x c) (Z.shiftr x (32 - c))).

(** Per-round shift amounts. *)
Definition shifts : list Z :=
  [ 7; 12; 17; 22;  7; 12; 17; 22;  7; 12; 17; 22;  7; 12; 17; 22;
    5;  9; 14; 20;  5;  9; 14; 20;  5;  9; 14; 20;  5;  9; 14; 20;
    4; 11; 16; 23;  4; 11; 16; 23;  4; 11; 16; 23;  4; 11; 16; 23;
    6; 10; 15; 21;  6; 10; 15; 21;  6; 10; 15; 21;  6; 10; 15; 21 ].

(** [floor(2^32 * abs(sin(i + 1)))] for i = 0..63. *)
Definition sines : list Z :=
  [ 0xd76aa478; 0xe8c7b756; 0x242070db; 0xc1bdceee;
    0xf57c0faf; 0x4787c62a; 0xa8304613; 0xfd469501;
    0x698098d8; 0x8b44f7af; 0xffff5bb1; 0x895cd7be;
    0x6b901122; 0xfd987193; 0xa679438e; 0x49b40821;
    0xf61e2562; 0xc040b340; 0x265e5a51; 0xe9b6c7aa;
    0xd62f105d; 0x02441453; 0xd8a1e681; 0xe7d3fbc8;
    0x21e1cde6; 0xc33707d6; 0xf4d50d87; 0x455a14ed;
    0xa9e3e905; 0xfcefa3f8; 0x676f02d9; 0x8d2a4c8a;
    0xfffa3942; 0x8771f681; 0x6d9d6122; 0xfde5380c;
    0xa4beea44; 0x4bdecfa9; 0xf6bb4b60; 0xbebfbc70;
    0x289b7ec6; 0xeaa127fa; 0xd4ef3085; 0x04881d05;
    0xd9d4d039; 0xe6db99e5; 0x1fa27cf8; 0xc4ac5665;
    0xf4292244; 0x432aff97; 0xab9423a7; 0xfc93a039;
    0x655b59c3; 0x8f0ccc92; 0xffeff47d; 0x85845dd1;
    0x6fa87e4f; 0xfe2ce6e0; 0xa3014314; 0x4e0811a1;
    0xf7537e82; 0xbd3af235; 0x2ad7d2bb; 0xeb86d391 ].

Definition bytes_of_string (s : string) : list Z :=
  map (fun c => Z.of_nat (nat_of_ascii c)) (list_ascii_of_string s).

(** Little-endian bytes of a number, [n] of them. *)
Fixpoint le_bytes (n : nat) (x : Z) : list Z :=
  match n with
  | O => []
  | S n' => Z.land x 0xFF :: le_bytes n' (Z.shiftr x 8)
  end.

(** The message followed by 0x80, zeros up to 56 mod 64, and its length
    in bits as 8 little-endian bytes. *)
Definition pad (msg : list Z) : list Z :=
  let len := Z.of_nat (length msg) in
  let zeros := Z.to_nat ((55 - len) mod 64) in
  msg ++ [0x80] ++ repeat 0 zeros ++ le_bytes 8 (8 * len).

Definition word_of_bytes (b : list Z) : Z :=
  fold_right (fun x acc => x + Z.shiftl acc 8) 0 b.

Fixpoint words (n : nat) (b : list Z) : list Z :=
  match n with
  | O => []
  | S n' => word_of_bytes (firstn 4 b) :: words n' (skipn 4 b)
  end.

Fixpoint blocks (n : nat) (b : list Z) : list (list Z) :=
  match n with
  | O => []
  | S n' => words 16 (firstn 64 b) :: blocks n' (skipn 64 b)
  end.

Definition state : Type := Z * Z * Z * Z.

Definition step (m : list Z) (st : state) (i : nat) : state :=
  let '(a, b, c, d) := st in
  let iz := Z.of_nat i in
  let '(f, g) :=
    if iz <? 16 then (Z.lor (Z.land b c) (Z.land (not32 b) d), iz)
    else if iz <? 32 then
      (Z.lor (Z.land d b) (Z.land (not32 d) c), (5 * iz + 1) mod 16)
    else if iz <? 48 then (Z.lxor b (Z.lxor c d), (3 * iz + 5) mod 16)
    else (Z.lxor c (Z.lor b (not32 d)), (7 * iz) mod 16) in
  let f' := add32 (add32 (add32 f a) (nth i sines 0)) (nth (Z.to_nat g) m 0) in
  (d, add32 b (rotl32 f' (nth i shifts 0)), b, c).

Definition process_block (st : state) (m : list Z) : state :=
  let '(a0, b0, c0, d0) := st in
  let '(a, b, c, d) := fold_left (step m) (seq 0 64) st in
  (add32 a0 a, add32 b0 b, add32 c0 c, add32 d0 d).

Definition init : state := (0x67452301, 0xefcdab89, 0x98badcfe, 0x10325476).

Definition digest (msg : list Z) : list Z :=
  let p := pad msg in
  let '(a, b, c, d) :=
    fold_left process_block (blocks (length p / 64) p) init in
  le_bytes 4 a ++ le_bytes 4 b ++ le_bytes 4 c ++ le_bytes 4 d.

Definition hex_digit (n : Z) : ascii :=
  ascii_of_nat (Z.to_nat (if n <? 10 then 48 + n else 87 + n)).

Definition hex_of_bytes (b : list Z) : string :=
  string_of_list_ascii
    (flat_map (fun x => [hex_digit (Z.shiftr x 4); hex_digit (Z.land x 0xF)]) b).

Definition hexdigest (s : string) : string :=
  hex_of_bytes (digest (bytes_of_string s)).

End MD5.

(* ====================================================================== *)
(** ** Python values of the events file *)
(* ====================================================================== *)

(** The values of the fields this module reads, as the writer of the
    events file (clasificar_eventos.py) produces them: strings, and the
    other JSON scalars.  Numbers with a fraction, arrays and nested objects
    are not represented, nor is a string with a lone surrogate; what the
    module does with such a field is outside this model. *)
Inductive pyval : Type :=
  | PNone
  | PBool (b : bool)
  | PInt (z : Z)
  | PStr (s : string).

#[global] Instance pyval_eq_dec : EqDecision pyval.
Proof. solve_decision. Defined.

(** [str(v)], which is what an f-string field [{v}] inserts. *)
Definition py_str (v : pyval) : string :=
  match v with
  | PNone => "None"
  | PBool true => "True"
  | PBool false => "False"
  | PInt z => DecimalString.NilZero.string_of_int (Z.to_int z)
  | PStr s => s
  end.

(** Truthiness: [not v] is [negb (py_truthy v)]. *)
Definition py_truthy (v : pyval) : bool :=
  match v with
  | PNone => false
  | PBool b => b
  | PInt z => negb (z =? 0)
  | PStr s => negb (String.eqb s "")
  end.

(** The first [n] characters of a [str]: in UTF-8 a character starts at
    every byte that is not a continuation byte (10xxxxxx). *)
Definition is_continuation (c : ascii) : bool :=
  let b := nat_of_ascii c in ((128 <=? b) && (b <? 192))%nat.

Fixpoint take_chars (n : nat) (s : string) : string :=
  match s with
  | EmptyString => EmptyString
  | String c s' =>
      if is_continuation c then String c (take_chars n s')
      else match n with
           | O => EmptyString
           | S n' => String c (take_chars n' s')
           end
  end.

(** [v[:50]]: defined on strings; the other values are not subscriptable. *)
Definition py_slice_50 (v : pyval) : res pyval :=
  match v with
  | PStr s => Ok (PStr (take_chars 50 s))
  | _ => Raise TypeError
  end.

(** The characters [str.strip()] removes, each as its UTF-8 bytes: U+0009
    to U+000D, U+001C to U+0020, U+0085, U+00A0, U+1680, U+2000 to U+200A,
    U+2028, U+2029, U+202F, U+205F and U+3000. *)
Definition whitespace : list (list nat) :=
  (map (fun b => [b]) [9; 10; 11; 12; 13; 28; 29; 30; 31; 32]
   ++ [[194; 133]; [194; 160]; [225; 154; 128]]
   ++ map (fun b => [226; 128; b])
          [128; 129; 130; 131; 132; 133; 134; 135; 136; 137; 138;
           168; 169; 175]
   ++ [[226; 129; 159]; [227; 128; 128]])%nat.

(** [l] without the prefix [p], when it starts with it. *)
Fixpoint drop_prefix (p l : list nat) : option (list nat) :=
  match p, l with
  | [], _ => Some l
  | a :: p', b :: l' => if (a =? b)%nat then drop_prefix p' l' else None
  | _ :: _, [] => None
  end.

(** [l] without its first character, when that is one of [spaces]. *)
Fixpoint drop_space (spaces : list (list nat)) (l : list nat)
  : option (list nat) :=
  match spaces with
  | [] => None
  | p :: spaces' =>
      match drop_prefix p l with
      | Some l' => Some l'
      | None => drop_space spaces' l
      end
  end.

Fixpoint lstrip_bytes (spaces : list (list nat)) (fuel : nat) (l : list nat)
  : list nat :=
  match fuel with
  | O => l
  | S fuel' =>
      match drop_space spaces l with
      | Some l' => lstrip_bytes spaces fuel' l'
      | None => l
      end
  end.

Definition bytes_of (s : string) : list nat :=
  map nat_of_ascii (list_ascii_of_string s).

Definition str_of (l : list nat) : string :=
  string_of_list_ascii (map ascii_of_nat l).

(** [s.lstrip()], [s.rstrip()] (the same from the other end) and
    [s.strip()]. *)
Definition lstrip (s : string) : string :=
  str_of (lstrip_bytes whitespace (String.length s) (bytes_of s)).

Definition rstrip (s : string) : string :=
  str_of (rev (lstrip_bytes (map (@rev nat) whitespace) (String.length s)
                            (rev (bytes_of s)))).

Definition strip (s : string) : string := rstrip (lstrip s).

(** An element of the ["eventos"] array: a JSON object, or anything else. *)
Inductive raw_event : Type :=
  | RDict (d : gmap string pyval)
  | RNotDict (v : pyval).

(** [evento.get(key, default)]; only a dict has [get]. *)
Definition py_get (evento : raw_event) (key : string) (dflt : pyval)
  : res pyval :=
  match evento with
  | RDict d => Ok (default dflt (d !! key))
  | RNotDict _ => Raise AttributeError
  end.

(* ====================================================================== *)
(** ** Event normalizer *)
(* ====================================================================== *)

(** What [pd.to_datetime(s, dayfirst=True)] returns for a scalar string: the
    wall-clock instant and, for a timezone-aware result, its UTC offset in
    nanoseconds. *)
Record ParsedTimestamp : Type := {
  wall_clock : Timestamp;
  utcoffset : option Z;
}.

(** pandas' tolerant date parser is taken as given: [None] stands for any
    exception it raises.  Its result is a proper timestamp: the few
    strings pandas reads as the missing timestamp [NaT] are outside the
    model. *)
Class DateParser : Type :=
  pd_to_datetime : string -> option ParsedTimestamp.

Record Event : Type := {
  evento_id : string;
  nombre : pyval;
  tipo_evento : pyval;
  impacto_esperado : pyval;
  fuente_evento : pyval;
  fecha_inicio : Timestamp;
  fecha_fin : Timestamp;
}.

Section EventNormalizer.

Context {parser : DateParser}.

Definition _parse_event_date (date_str : pyval) : option Timestamp :=
  match date_str with
  | PStr s =>
      if String.eqb s "" then None
      else
        let s := strip s in
        if String.eqb s "" then None
        else
          match pd_to_datetime s with
          | Some ts =>
              match utcoffset ts with
              | Some off => Some (wall_clock ts - off)
              | None => Some (wall_clock ts)
              end
          | None => None
          end
  | _ => None
  end.

(** The identifier: the first twelve hexadecimal digits of the MD5 of the
    UTF-8 bytes of ["{nombre}|{fecha_inicio}|{fuente}"].  The strings of
    the model being UTF-8 bytes, [encode] does not fail here. *)
Definition _generate_event_id (evento : raw_event) : res string :=
  let* rival := py_get evento "rival" (PStr "desconocido") in
  let* nombre := py_get evento "nombre" rival in
  let* fecha_ini := py_get evento "fecha_inicio" (PStr "") in
  let* fuente := py_get evento "fuente" (PStr "") in
  let raw := (py_str nombre ++ "|" ++ py_str fecha_ini ++ "|" ++ py_str fuente)%string in
  Ok (substring 0 12 (MD5.hexdigest raw)).

(** The body of the [try] of the parsing loop for one record: [Ok None] is
    the [continue] of a record without a start date. *)
Definition parse_event (evento : raw_event) : res (option Event) :=
  let* rival := py_get evento "rival" (PStr "Evento desconocido") in
  let* nombre := py_get evento "nombre" rival in
  let* fecha_inicio_raw := py_get evento "fecha_inicio" (PStr "") in
  match _parse_event_date fecha_inicio_raw with
  | None => Ok None
  | Some fecha_inicio =>
      let* fecha_fin_raw := py_get evento "fecha_fin" (PStr "") in
      let fecha_fin :=
        match _parse_event_date fecha_fin_raw with
        | None => fecha_inicio
        | Some fecha_fin => fecha_fin
        end in
      let '(fecha_inicio, fecha_fin) :=
        if fecha_fin <? fecha_inicio then (fecha_fin, fecha_inicio)
        else (fecha_inicio, fecha_fin) in
      let* evento_id := _generate_event_id evento in
      let* tipo := py_get evento "tipo" (PStr "desconocido") in
      let* impacto := py_get evento "impacto_esperado" (PStr "desconocido") in
      let* fuente := py_get evento "fuente" (PStr "desconocida") in
      Ok (Some {| evento_id := evento_id;
                  nombre := nombre;
                  tipo_evento := tipo;
                  impacto_esperado := impacto;
                  fuente_evento := fuente;
                  fecha_inicio := fecha_inicio;
                  fecha_fin := fecha_fin |})
  end.

(** The state of the parsing loop. *)
Record ParseState : Type := {
  parsed : list Event;
  skipped_no_date : nat;
  skipped_malformed : nat;
}.

Definition parse_step (st : ParseState) (evento : raw_event) : ParseState :=
  match parse_event evento with
  | Ok (Some ev) =>
      {| parsed := parsed st ++ [ev];
         skipped_no_date := skipped_no_date st;
         skipped_malformed := skipped_malformed st |}
  | Ok None =>
      {| parsed := parsed st;
         skipped_no_date := S (skipped_no_date st);
         skipped_malformed := skipped_malformed st |}
  | Raise _ =>
      {| parsed := parsed st;
         skipped_no_date := skipped_no_date st;
         skipped_malformed := S (skipped_malformed st) |}
  end.

Definition parse_all (eventos_raw : list raw_event) : ParseState :=
  fold_left parse_step eventos_raw
    {| parsed := []; skipped_no_date := 0; skipped_malformed := 0 |}.

(** The deduplication loop: [seen_ids] and [deduped]. *)
Definition dedup_step (st : gset string * list Event) (ev : Event)
  : gset string * list Event :=
  let '(seen_ids, deduped) := st in
  if decide (evento_id ev ∈ seen_ids) then st
  else ({[ evento_id ev ]} ∪ seen_ids, deduped ++ [ev]).

Definition deduplicate (parsed : list Event) : list Event :=
  snd (fold_left dedup_step parsed (∅, [])).

Definition parse_and_deduplicate_events (eventos_raw : list raw_event)
  : list Event :=
  deduplicate (parsed (parse_all eventos_raw)).

(** The number logged as [Duplicados eliminados]. *)
Definition duplicados (eventos_raw : list raw_event) : nat :=
  (length (parsed (parse_all eventos_raw))
   - length (parse_and_deduplicate_events eventos_raw))%nat.

End EventNormalizer.

(* ====================================================================== *)
(** ** DataFrames of the module *)
(* ====================================================================== *)

(** contaminacion_normalizada.parquet: [fecha_utc, variable, valor,
    calidad_dato]. *)
Module Contam.
Record row : Type := {
  fecha_utc : Timestamp;
  variable : string;
  valor : float;
  calidad_dato : string;
}.
End Contam.

(** [contam_diaria]: [fecha | variable | valor_medio | n_registros]. *)
Module ContamDiaria.
Record row : Type := {
  fecha : Timestamp;
  variable : string;
  valor_medio : float;
  n_registros : nat;
}.
End ContamDiaria.

(** trafico_limpio.csv: one incident per row; only [fecha] is read. *)
Module Trafico.
Record row : Type := {
  fecha : Timestamp;
  calidad_dato : string;
}.
End Trafico.

(** [trafico_diario]: [fecha | n_incidencias]. *)
Module TraficoDiario.
Record row : Type := {
  fecha : Timestamp;
  n_incidencias : nat;
}.
End TraficoDiario.

(** meteorologia_limpio.csv: [fecha, precipitacion_mm, temp_c]. *)
Module Meteo.
Record row : Type := {
  fecha : Timestamp;
  precipitacion_mm : float;
  temp_c : float;
}.
End Meteo.

(** [meteo_diaria]: [fecha | precip_media | temp_media]. *)
Module MeteoDiaria.
Record row : Type := {
  fecha : Timestamp;
  precip_media : float;
  temp_media : float;
}.
End MeteoDiaria.

(** One row of impacto_eventos.csv, in the order of [columnas_output]. *)
Module Result.
Record row : Type := {
  evento_id : string;
  nombre_evento : pyval;
  tipo_evento : pyval;
  impacto_esperado : pyval;
  fecha_inicio : string;
  fecha_fin : string;
  variable : string;
  media_evento : float;
  media_baseline : float;
  impacto_pct : float;
  n_dias_evento : nat;
  n_dias_baseline : nat;
  media_temp_evento : float;
  media_temp_baseline : float;
  media_precip_evento : float;
  media_precip_baseline : float;
  impacto_trafico_pct : float;
}.
End Result.

(** [df.empty] on an optional DataFrame: [df is not None and not df.empty]
    is [available df = true]. *)
Definition available {A} (df : option (list A)) : bool :=
  match df with
  | Some (_ :: _) => true
  | _ => false
  end.

(** [df[mask]]: the rows whose mask entry is [True]. *)
Definition select {A} (mask : list bool) (df : list A) : list A :=
  map snd (List.filter fst (combine mask df)).

(** [sorted(xs)] for a total order given as a boolean [leb]. *)
Fixpoint insert_sorted {A} (leb : A -> A -> bool) (x : A) (l : list A) : list A :=
  match l with
  | [] => [x]
  | y :: l' => if leb x y then x :: l else y :: insert_sorted leb x l'
  end.

Definition sorted {A} (leb : A -> A -> bool) (l : list A) : list A :=
  fold_right (insert_sorted leb) [] l.

(** [series.unique()] up to order, and [series.nunique()]. *)
Definition unique `{EqDecision A} (l : list A) : list A := remove_dups l.
Definition nunique `{EqDecision A} (l : list A) : nat := length (unique l).

(* ====================================================================== *)
(** ** Daily aggregations *)
(* ====================================================================== *)

Section DailyAggregations.

Import F64.

Context {sums : Summation}.

(** Order of the group keys [(fecha, variable)] in the groupby output. *)
Definition key_leb (k1 k2 : date * string) : bool :=
  (fst k1 <? fst k2) || ((fst k1 =? fst k2) && String.leb (snd k1) (snd k2)).

(** 2A. [df_contam[df_contam["calidad_dato"] == "ok"]]. *)
Definition df_ok (df_contam : list Contam.row) : list Contam.row :=
  List.filter (fun r => String.eqb (Contam.calidad_dato r) "ok") df_contam.

Definition contam_key (r : Contam.row) : date * string :=
  (dt_date (Contam.fecha_utc r), Contam.variable r).

Definition contam_group (k : date * string) (df : list Contam.row)
  : list Contam.row :=
  List.filter (fun r => bool_decide (contam_key r = k)) df.

(** [groupby(["fecha", "variable"]).agg(valor_medio=("valor", "mean"),
    n_registros=("valor", "count"))]. *)
Definition aggregate_contam (df : list Contam.row) : list ContamDiaria.row :=
  map (fun k =>
         let valores := map Contam.valor (contam_group k df) in
         {| ContamDiaria.fecha := midnight (fst k);
            ContamDiaria.variable := snd k;
            ContamDiaria.valor_medio := groupby_mean valores;
            ContamDiaria.n_registros := count valores |})
      (sorted key_leb (unique (map contam_key df))).

(** 2B. [groupby("fecha_dia").agg(n_incidencias=("fecha", "count"))]. *)
Definition trafico_group (d : date) (df : list Trafico.row) : list Trafico.row :=
  List.filter (fun r => bool_decide (dt_date (Trafico.fecha r) = d)) df.

Definition aggregate_trafico (df : list Trafico.row) : list TraficoDiario.row :=
  map (fun d =>
         {| TraficoDiario.fecha := midnight d;
            TraficoDiario.n_incidencias := length (trafico_group d df) |})
      (sorted Z.leb (unique (map (fun r => dt_date (Trafico.fecha r)) df))).

(** 2C. [groupby("fecha_dia").agg(precip_media=..., temp_media=...)]. *)
Definition meteo_group (d : date) (df : list Meteo.row) : list Meteo.row :=
  List.filter (fun r => bool_decide (dt_date (Meteo.fecha r) = d)) df.

Definition aggregate_meteo (df : list Meteo.row) : list MeteoDiaria.row :=
  map (fun d =>
         let g := meteo_group d df in
         {| MeteoDiaria.fecha := midnight d;
            MeteoDiaria.precip_media :=
              groupby_mean (map Meteo.precipitacion_mm g);
            MeteoDiaria.temp_media := groupby_mean (map Meteo.temp_c g) |})
      (sorted Z.leb (unique (map (fun r => dt_date (Meteo.fecha r)) df))).

Definition build_daily_aggregations
    (df_contam : option (list Contam.row))
    (df_trafico : option (list Trafico.row))
    (df_meteo : option (list Meteo.row))
  : option (list ContamDiaria.row)
    * option (list TraficoDiario.row)
    * option (list MeteoDiaria.row) :=
  let contam_diaria :=
    match df_contam with
    | Some ((_ :: _) as df) => Some (aggregate_contam (df_ok df))
    | _ => None
    end in
  let trafico_diario :=
    match df_trafico with
    | Some ((_ :: _) as df) => Some (aggregate_trafico df)
    | _ => None
    end in
  let meteo_diaria :=
    match df_meteo with
    | Some ((_ :: _) as df) => Some (aggregate_meteo df)
    | _ => None
    end in
  (contam_diaria, trafico_diario, meteo_diaria).

End DailyAggregations.

(* ====================================================================== *)
(** ** Baseline construction *)
(* ====================================================================== *)

Definition PRECIPITACION_UMBRAL_MM : float := 5%float.

Definition _get_all_event_dates (events : list Event) : gset date :=
  fold_left
    (fun all_dates ev =>
       fold_left (fun acc d => {[ dt_date d ]} ∪ acc)
                 (date_range (fecha_inicio ev) (fecha_fin ev)) all_dates)
    events ∅.

(** [keys.map(lookup)] for a lookup Series given by its index and values:
    the value at each key, NaN for a key that is not in the index.  pandas
    refuses an index with repeated labels. *)
Definition lookup_value (index : list date) (values : list float) (k : date)
  : float :=
  match List.find (fun iv => fst iv =? k) (combine index values) with
  | Some iv => snd iv
  | None => nan
  end.

Definition series_map (keys index : list date) (values : list float)
  : res (list float) :=
  if decide (NoDup index) then Ok (map (lookup_value index values) keys)
  else Raise InvalidIndexError.

(** The rain criterion on one looked-up precipitation value. *)
Definition no_rain (p : float) : bool :=
  F64.isnan p || (p <=? PRECIPITACION_UMBRAL_MM)%float.

Definition _build_baseline_mask
    (fechas_serie : list Timestamp)
    (evento : Event)
    (all_event_dates : gset date)
    (meteo_diaria : option (list MeteoDiaria.row))
  : res (list bool) :=
  let start := fecha_inicio evento in
  let end_ := fecha_fin evento in
  let event_range := date_range start end_ in
  let event_months : gset Z := list_to_set (map month event_range) in
  let event_weekdays : gset Z := list_to_set (map dayofweek event_range) in
  let mask_month :=
    map (fun t => bool_decide (month t ∈ event_months)) fechas_serie in
  let mask_weekday :=
    map (fun t => bool_decide (dayofweek t ∈ event_weekdays)) fechas_serie in
  let mask_no_event :=
    map (fun t => negb (bool_decide (dt_date t ∈ all_event_dates))) fechas_serie in
  let* mask_no_rain :=
    match meteo_diaria with
    | Some ((_ :: _) as meteo) =>
        let* precip_values :=
          series_map (map dt_date fechas_serie)
                     (map (fun r => dt_date (MeteoDiaria.fecha r)) meteo)
                     (map MeteoDiaria.precip_media meteo) in
        Ok (map no_rain precip_values)
    | _ => Ok (map (fun _ => true) fechas_serie)
    end in
  Ok (zip_with andb
        (zip_with andb (zip_with andb mask_month mask_weekday) mask_no_event)
        mask_no_rain).

(* ====================================================================== *)
(** ** Impact per event *)
(* ====================================================================== *)

Section Impact.

Import F64.
Local Open Scope float_scope.

Context {sums : Summation}.

(** [(media_evento - media_baseline) / media_baseline * 100] under its
    guard, NaN otherwise. *)
Definition impact_pct (media_evento media_baseline : float) : float :=
  if negb (isnan media_evento) && negb (isnan media_baseline)
     && (0 <? media_baseline)
  then (media_evento - media_baseline) / media_baseline * 100
  else nan.

(** [round(x, n) if not np.isnan(x) else np.nan]. *)
Definition rounded1 (x : float) : float :=
  if negb (isnan x) then round1 x else nan.
Definition rounded2 (x : float) : float :=
  if negb (isnan x) then round2 x else nan.

(** [s.mean() if not df.empty else np.nan]. *)
Definition mean_or_nan (l : list float) : float :=
  match l with
  | [] => nan
  | _ => mean l
  end.

(** [df["fecha"].nunique() if not df.empty else 0]. *)
Definition nunique_or_0 (fechas : list Timestamp) : nat :=
  match fechas with
  | [] => 0%nat
  | _ => nunique fechas
  end.

Section PerEvent.

Variable all_event_dates : gset date.
Variable variables_contam : list string.
Variable contam_diaria : option (list ContamDiaria.row).
Variable trafico_diario : option (list TraficoDiario.row).
Variable meteo_diaria : option (list MeteoDiaria.row).
Variable evento : Event.

Definition event_dates : gset date :=
  list_to_set (map dt_date (date_range (fecha_inicio evento) (fecha_fin evento))).

(** Weather context: (temp_evento, precip_evento, temp_baseline,
    precip_baseline). *)
Definition meteo_context : res (float * float * float * float) :=
  match meteo_diaria with
  | Some ((_ :: _) as meteo) =>
      let meteo_ev :=
        List.filter
          (fun r => bool_decide (dt_date (MeteoDiaria.fecha r) ∈ event_dates))
          meteo in
      let '(media_temp_evento, media_precip_evento) :=
        match meteo_ev with
        | [] => (nan, nan)
        | _ => (mean (map MeteoDiaria.temp_media meteo_ev),
                mean (map MeteoDiaria.precip_media meteo_ev))
        end in
      let* mask_bl_meteo :=
        _build_baseline_mask (map MeteoDiaria.fecha meteo) evento
                             all_event_dates meteo_diaria in
      let meteo_bl := select mask_bl_meteo meteo in
      let '(media_temp_baseline, media_precip_baseline) :=
        match meteo_bl with
        | [] => (nan, nan)
        | _ => (mean (map MeteoDiaria.temp_media meteo_bl),
                mean (map MeteoDiaria.precip_media meteo_bl))
        end in
      Ok (media_temp_evento, media_precip_evento,
          media_temp_baseline, media_precip_baseline)
  | _ => Ok (nan, nan, nan, nan)
  end.

(** Traffic: the mean of the daily incident counts (as float64). *)
Definition incidencias (df : list TraficoDiario.row) : list float :=
  map (fun r => of_nat (TraficoDiario.n_incidencias r)) df.

Definition traffic_impact : res float :=
  match trafico_diario with
  | Some ((_ :: _) as trafico) =>
      let traf_ev :=
        List.filter
          (fun r => bool_decide (dt_date (TraficoDiario.fecha r) ∈ event_dates))
          trafico in
      let media_traf_evento := mean_or_nan (incidencias traf_ev) in
      let* mask_bl_traf :=
        _build_baseline_mask (map TraficoDiario.fecha trafico) evento
                             all_event_dates meteo_diaria in
      let traf_bl := select mask_bl_traf trafico in
      let media_traf_baseline := mean_or_nan (incidencias traf_bl) in
      Ok (impact_pct media_traf_evento media_traf_baseline)
  | _ => Ok nan
  end.

(** The unrounded figures of one pollutant: (media_evento_val,
    n_dias_ev_real, media_baseline_val, n_dias_bl). *)
Definition variable_figures (df_var : list ContamDiaria.row)
  : res (float * nat * float * nat) :=
  let datos_ev :=
    List.filter
      (fun r => bool_decide (dt_date (ContamDiaria.fecha r) ∈ event_dates))
      df_var in
  let media_evento_val :=
    mean_or_nan (map ContamDiaria.valor_medio datos_ev) in
  let n_dias_ev_real := nunique_or_0 (map ContamDiaria.fecha datos_ev) in
  let* mask_bl :=
    _build_baseline_mask (map ContamDiaria.fecha df_var) evento
                         all_event_dates meteo_diaria in
  let datos_bl := select mask_bl df_var in
  let media_baseline_val :=
    mean_or_nan (map ContamDiaria.valor_medio datos_bl) in
  let n_dias_bl := nunique_or_0 (map ContamDiaria.fecha datos_bl) in
  Ok (media_evento_val, n_dias_ev_real, media_baseline_val, n_dias_bl).

(** The dict appended to [results] for one pollutant. *)
Definition contam_row
    (meteo : float * float * float * float) (impacto_trafico_pct : float)
    (variable : string) (figures : float * nat * float * nat)
  : Result.row :=
  let '(media_temp_evento, media_precip_evento,
        media_temp_baseline, media_precip_baseline) := meteo in
  let '(media_evento_val, n_dias_ev_real, media_baseline_val, n_dias_bl) :=
    figures in
  let impacto_pct := impact_pct media_evento_val media_baseline_val in
  {| Result.evento_id := evento_id evento;
     Result.nombre_evento := nombre evento;
     Result.tipo_evento := tipo_evento evento;
     Result.impacto_esperado := impacto_esperado evento;
     Result.fecha_inicio := strftime_ymd (fecha_inicio evento);
     Result.fecha_fin := strftime_ymd (fecha_fin evento);
     Result.variable := variable;
     Result.media_evento := rounded2 media_evento_val;
     Result.media_baseline := rounded2 media_baseline_val;
     Result.impacto_pct := rounded2 impacto_pct;
     Result.n_dias_evento := n_dias_ev_real;
     Result.n_dias_baseline := n_dias_bl;
     Result.media_temp_evento := rounded1 media_temp_evento;
     Result.media_temp_baseline := rounded1 media_temp_baseline;
     Result.media_precip_evento := rounded2 media_precip_evento;
     Result.media_precip_baseline := rounded2 media_precip_baseline;
     Result.impacto_trafico_pct := rounded2 impacto_trafico_pct |}.

(** [contam_diaria[contam_diaria["variable"] == variable]]. *)
Definition df_var_of (variable : string) : list ContamDiaria.row :=
  List.filter (fun r => String.eqb (ContamDiaria.variable r) variable)
              (default [] contam_diaria).

(** The body of [for variable in variables_contam]: no row when the
    pollutant has no daily row at all ([continue]). *)
Definition variable_row
    (meteo : float * float * float * float) (impacto_trafico_pct : float)
    (variable : string) : res (list Result.row) :=
  match df_var_of variable with
  | [] => Ok []
  | df_var =>
      let* figures := variable_figures df_var in
      Ok [contam_row meteo impacto_trafico_pct variable figures]
  end.

(** The row of an event when there is no pollution variable. *)
Definition sin_datos_row
    (meteo : float * float * float * float) (impacto_trafico_pct : float)
  : Result.row :=
  let '(media_temp_evento, media_precip_evento,
        media_temp_baseline, media_precip_baseline) := meteo in
  {| Result.evento_id := evento_id evento;
     Result.nombre_evento := nombre evento;
     Result.tipo_evento := tipo_evento evento;
     Result.impacto_esperado := impacto_esperado evento;
     Result.fecha_inicio := strftime_ymd (fecha_inicio evento);
     Result.fecha_fin := strftime_ymd (fecha_fin evento);
     Result.variable := "sin_datos";
     Result.media_evento := nan;
     Result.media_baseline := nan;
     Result.impacto_pct := nan;
     Result.n_dias_evento := size event_dates;
     Result.n_dias_baseline := 0;
     Result.media_temp_evento := rounded1 media_temp_evento;
     Result.media_temp_baseline := rounded1 media_temp_baseline;
     Result.media_precip_evento := rounded2 media_precip_evento;
     Result.media_precip_baseline := rounded2 media_precip_baseline;
     Result.impacto_trafico_pct := rounded2 impacto_trafico_pct |}.

(** The body of [for i, evento in enumerate(events)]: the rows appended
    to [results] for this event. *)
Definition event_rows : res (list Result.row) :=
  let* _nombre := py_slice_50 (nombre evento) in
  let* meteo := meteo_context in
  let* impacto_trafico_pct := traffic_impact in
  match variables_contam with
  | _ :: _ =>
      let* filas :=
        for_each (variable_row meteo impacto_trafico_pct) variables_contam in
      Ok (concat filas)
  | [] => Ok [sin_datos_row meteo impacto_trafico_pct]
  end.

End PerEvent.

Definition variables_of (contam_diaria : option (list ContamDiaria.row))
  : list string :=
  match contam_diaria with
  | Some ((_ :: _) as contam) =>
      sorted String.leb (unique (map ContamDiaria.variable contam))
  | _ => []
  end.

Definition compute_event_impact
    (events : list Event)
    (contam_diaria : option (list ContamDiaria.row))
    (trafico_diario : option (list TraficoDiario.row))
    (meteo_diaria : option (list MeteoDiaria.row))
  : res (list Result.row) :=
  match events with
  | [] => Ok []
  | _ =>
      let all_event_dates := _get_all_event_dates events in
      let variables_contam := variables_of contam_diaria in
      let* results :=
        for_each (event_rows all_event_dates variables_contam
                             contam_diaria trafico_diario meteo_diaria)
                 events in
      Ok (concat results)
  end.

End Impact.

(* ====================================================================== *)
(** ** Orchestration *)
(* ====================================================================== *)

(** What [load_data] returns. *)
Record Loaded : Type := {
  df_contam : option (list Contam.row);
  df_trafico : option (list Trafico.row);
  df_meteo : option (list Meteo.row);
  eventos_raw : option (list raw_event);
}.

(** The last message [main] prints. *)
Inductive message : Type :=
  | ErrorNoEventsFound      (* ERROR: No se encontraron eventos. *)
  | ErrorNoSource           (* ERROR: Se necesita al menos contaminación o tráfico. *)
  | ErrorNoEventParsed      (* ERROR: Ningún evento pudo ser parseado correctamente. *)
  | CorrelationComplete (comparaciones : nat) (eventos : nat)
  | CompletedWithoutResults.

(** What a run of [main] leaves behind: the message and, when
    [save_results] writes it, the table of impacto_eventos.csv. *)
Record Outcome : Type := {
  printed : message;
  written : option (list Result.row);
}.

Definition save_results (df : list Result.row) : option (list Result.row) :=
  match df with
  | [] => None
  | _ => Some df
  end.

Section Main.

Context {parser : DateParser} {sums : F64.Summation}.

Definition main (loaded : Loaded) : res Outcome :=
  match eventos_raw loaded with
  | None | Some [] =>
      Ok {| printed := ErrorNoEventsFound; written := None |}
  | Some eventos_raw =>
      match df_contam loaded, df_trafico loaded with
      | None, None => Ok {| printed := ErrorNoSource; written := None |}
      | _, _ =>
          let '(contam_diaria, trafico_diario, meteo_diaria) :=
            build_daily_aggregations
              (df_contam loaded) (df_trafico loaded) (df_meteo loaded) in
          let events := parse_and_deduplicate_events eventos_raw in
          match events with
          | [] => Ok {| printed := ErrorNoEventParsed; written := None |}
          | _ =>
              let* df_results :=
                compute_event_impact events contam_diaria trafico_diario
                                     meteo_diaria in
              match save_results df_results with
              | Some df =>
                  Ok {| printed :=
                          CorrelationComplete
                            (length df)
                            (nunique (map Result.evento_id df));
                        written := Some df |}
              | None =>
                  Ok {| printed := CompletedWithoutResults; written := None |}
              end
          end
      end
  end.

End Main.

(* ====================================================================== *)
(** ** A concrete date parser *)
(* ====================================================================== *)

(** [pd.to_datetime(s, dayfirst=True)] on the numeric forms the events
    carry, enough to run the normalizer on concrete records: a date
    [YYYY-aa-bb], [aa/bb/YYYY] or [aa-bb-YYYY] (the separator [-] or [/]),
    alone or followed by a time of day [HH:MM] or [HH:MM:SS] after a blank
    or, when the year comes first, a [T].  Which of the two short numbers is the day follows the
    day-first rule of the parser: after the year the first one is the day
    when the second can be a month, [2026-03-07] being the 3rd of July;
    before the year the first one is the day unless only the second can be
    one.  A date that does not exist is refused.  The results are
    timezone-naive.  Strings of other shapes, and years outside 1678 to
    2261 (the years wholly within the range of a nanosecond timestamp),
    are not covered: the instance answers [None] for them, pandas may
    not. *)
Module SimpleDates.

Definition digit_value (c : ascii) : option Z :=
  let n := nat_of_ascii c in
  if ((48 <=? n) && (n <=? 57))%nat then Some (Z.of_nat n - 48) else None.

Definition number (cs : list ascii) : option Z :=
  fold_left
    (fun acc c =>
       match acc, digit_value c with
       | Some a, Some d => Some (10 * a + d)
       | _, _ => None
       end)
    cs (Some 0).

Definition same_civil (a b : Z * Z * Z) : bool :=
  let '(y1, m1, d1) := a in
  let '(y2, m2, d2) := b in
  (y1 =? y2) && (m1 =? m2) && (d1 =? d2).

(** Midnight of a civil date that exists. *)
Definition civil (y m d : Z) : option Timestamp :=
  if (1678 <=? y) && (y <=? 2261)
     && same_civil (civil_from_days (days_from_civil y m d)) (y, m, d)
  then Some (ymd y m d)
  else None.

(** The two separators of a date are the same, [-] or [/]. *)
Definition is_sep (c c' : ascii) : bool :=
  Ascii.eqb c c' && (Ascii.eqb c "-" || Ascii.eqb c "/").

(** The year first: [y], then [a] and [b]. *)
Definition year_first (y a b : option Z) : option Timestamp :=
  match y, a, b with
  | Some y, Some a, Some b =>
      if b <=? 12 then civil y b a else civil y a b
  | _, _, _ => None
  end.

(** The year last: [a] and [b], then [y]. *)
Definition year_last (a b y : option Z) : option Timestamp :=
  match a, b, y with
  | Some a, Some b, Some y =>
      if (12 <? a) || (b <=? 12) then civil y b a else civil y a b
  | _, _, _ => None
  end.

Definition NS_PER_SECOND : Z := 1000000000.

(** The time of day after the date, in nanoseconds; [iso] tells whether a
    [T] may introduce it. *)
Definition time_of_day (iso : bool) (cs : list ascii) : option Z :=
  let intro (sep : ascii) := Ascii.eqb sep " " || (iso && Ascii.eqb sep "T") in
  let hms (h m sec : option Z) :=
    match h, m, sec with
    | Some h, Some m, Some sec =>
        if (h <? 24) && (m <? 60) && (sec <? 60)
        then Some (((h * 60 + m) * 60 + sec) * NS_PER_SECOND)
        else None
    | _, _, _ => None
    end in
  match cs with
  | [] => Some 0
  | sep :: [h1; h2; c1; m1; m2] =>
      if intro sep && Ascii.eqb c1 ":"
      then hms (number [h1; h2]) (number [m1; m2]) (Some 0)
      else None
  | sep :: [h1; h2; c1; m1; m2; c2; s1; s2] =>
      if intro sep && Ascii.eqb c1 ":" && Ascii.eqb c2 ":"
      then hms (number [h1; h2]) (number [m1; m2]) (number [s1; s2])
      else None
  | _ => None
  end.

Definition parse (s : string) : option ParsedTimestamp :=
  match list_ascii_of_string s with
  | c0 :: c1 :: c2 :: c3 :: c4 :: c5 :: c6 :: c7 :: c8 :: c9 :: rest =>
      let '(day, iso) :=
        if is_sep c4 c7 then
          (year_first (number [c0; c1; c2; c3])
                      (number [c5; c6]) (number [c8; c9]), true)
        else if is_sep c2 c5 then
          (year_last (number [c0; c1]) (number [c3; c4])
                     (number [c6; c7; c8; c9]), false)
        else (None, false) in
      match day, time_of_day iso rest with
      | Some d, Some t => Some {| wall_clock := d + t; utcoffset := None |}
      | _, _ => None
      end
  | _ => None
  end.

Definition parser : DateParser := parse.

End SimpleDates.

(* ====================================================================== *)
(** ** The ETL pipeline that runs the module (pipeline_etl.py) *)
(* ====================================================================== *)

(** [run_module] imports a module by name and calls its [main]; the
    pipeline's [main] does so for every module of [ETL_MODULES] and turns
    the results into the exit status.  Durations and logging are not
    modelled, nor is the validation of the output files, which only logs
    warnings and has no part in the exit status; of an exception only its
    kind is kept, not its message.  The exceptions are those that
    [except Exception] catches. *)
Module Pipeline.

(** An entry of [ETL_MODULES]. *)
Record ModuleInfo : Type := {
  mod_name : string;
  mod_display : string;
  mod_fase : string;
}.

(** What importing the module and calling its [main] does. *)
Inductive Behaviour : Type :=
| ImportRaisesImportError
| ImportRaisesOther
| HasNoMain
| MainReturns
| MainRaises (e : exn).

(** The behaviour of a module whose [main] is the given computation. *)
Definition of_main {A} (run : res A) : Behaviour :=
  match run with
  | Ok _ => MainReturns
  | Raise e => MainRaises e
  end.

Inductive Estado : Type := pending | success | failed | import_error.

Inductive ErrorText : Type :=
| ImportErrorText        (* "ImportError: ..." *)
| ImportOtherText        (* "<exception type>: ..." while importing *)
| SinMainText            (* "Modulo sin funcion main()" *)
| RaisedText (e : exn).  (* "<exception type>: ..." raised by main *)

Record Result : Type := {
  modulo : string;
  nombre : string;
  fase : string;
  estado : Estado;
  error : option ErrorText;
}.

Definition run_module (module_info : ModuleInfo) (b : Behaviour) : Result :=
  let result estado error :=
    {| modulo := mod_name module_info;
       nombre := mod_display module_info;
       fase := mod_fase module_info;
       estado := estado;
       error := error |} in
  match b with
  | ImportRaisesImportError => result import_error (Some ImportErrorText)
  | ImportRaisesOther => result import_error (Some ImportOtherText)
  | HasNoMain => result import_error (Some SinMainText)
  | MainReturns => result success None
  | MainRaises e => result failed (Some (RaisedText e))
  end.

(** The loop of [main] over the modules. *)
Definition run_all (modules : list (ModuleInfo * Behaviour)) : list Result :=
  map (fun m => run_module (fst m) (snd m)) modules.

(** [sum(1 for r in results if r["estado"] == e)]. *)
Definition count_estado (p : Estado -> bool) (results : list Result) : nat :=
  length (List.filter (fun r => p (estado r)) results).

Definition is_success (e : Estado) : bool :=
  match e with success => true | _ => false end.
Definition is_failed (e : Estado) : bool :=
  match e with failed => true | _ => false end.
Definition is_import_error (e : Estado) : bool :=
  match e with import_error => true | _ => false end.

(** The exit status of the pipeline: [sys.exit(1)] when a module failed or
    could not be imported, a normal return (status 0) otherwise. *)
Definition exit_status (results : list Result) : Z :=
  let n_failed :=
    count_estado (fun e => is_failed e || is_import_error e) results in
  if (0 <? n_failed)%nat then 1 else 0.

End Pipeline.

(* ====================================================================== *)
(** ** Sample inputs *)
(* ====================================================================== *)

(** Records and tables on which the results below are run. *)
Module Sample.

Definition festival : gmap string pyval :=
  list_to_map [ ("nombre", PStr "Local Festival");
                ("fecha_inicio", PStr "01/03/2026");
                ("fecha_fin", PStr "03/03/2026");
                ("fuente", PStr "muni");
                ("tipo", PStr "dilatado") ].

(** The same festival from a second export, classified differently. *)
Definition festival_again : gmap string pyval :=
  list_to_map [ ("nombre", PStr "Local Festival");
                ("fecha_inicio", PStr "01/03/2026");
                ("fecha_fin", PStr "03/03/2026");
                ("fuente", PStr "muni");
                ("tipo", PStr "puntual") ].

(** End date before start date. *)
Definition inverted : gmap string pyval :=
  list_to_map [ ("nombre", PStr "Fira");
                ("fecha_inicio", PStr "07/03/2026");
                ("fecha_fin", PStr "05/03/2026") ].

(** A football match on Saturday 2026-03-07. *)
Definition match_day : gmap string pyval :=
  list_to_map [ ("rival", PStr "Levante UD");
                ("fecha_inicio", PStr "07/03/2026");
                ("fuente", PStr "valenciacf") ].

(** A concert from the evening of Sunday 2026-03-15 to the morning of
    Sunday 2026-03-22, with its dates in the ISO form of the docstring of
    [_parse_event_date]. *)
Definition concert : gmap string pyval :=
  list_to_map [ ("nombre", PStr "Night concert");
                ("fecha_inicio", PStr "2026-03-15T20:00:00");
                ("fecha_fin", PStr "2026-03-22T10:00:00");
                ("fuente", PStr "ayuntamiento") ].

(** The event the normalizer makes of [concert]. *)
Definition concert_event : Event :=
  {| evento_id := "f26d53a42dce";
     nombre := PStr "Night concert";
     tipo_evento := PStr "desconocido";
     impacto_esperado := PStr "desconocido";
     fuente_evento := PStr "ayuntamiento";
     fecha_inicio := ymd 2026 3 15 + 20 * 3600000000000;
     fecha_fin := ymd 2026 3 22 + 10 * 3600000000000 |}.

Definition events : list Event :=
  @parse_and_deduplicate_events SimpleDates.parser [RDict match_day].

(** The event the normalizer makes of [match_day]. *)
Definition match_event : Event :=
  {| evento_id := "b9edffd123fd";
     nombre := PStr "Levante UD";
     tipo_evento := PStr "desconocido";
     impacto_esperado := PStr "desconocido";
     fuente_evento := PStr "valenciacf";
     fecha_inicio := ymd 2026 3 7;
     fecha_fin := ymd 2026 3 7 |}.

(** Saturdays of March 2026: the match day, a rainy one and a dry one. *)
Definition contam_diaria : list ContamDiaria.row :=
  [ {| ContamDiaria.fecha := ymd 2026 3 7; ContamDiaria.variable := "NO2";
       ContamDiaria.valor_medio := 1; ContamDiaria.n_registros := 24 |};
    {| ContamDiaria.fecha := ymd 2026 3 14; ContamDiaria.variable := "NO2";
       ContamDiaria.valor_medio := 25; ContamDiaria.n_registros := 24 |};
    {| ContamDiaria.fecha := ymd 2026 3 21; ContamDiaria.variable := "NO2";
       ContamDiaria.valor_medio := 3; ContamDiaria.n_registros := 24 |} ].

Definition meteo_diaria : list MeteoDiaria.row :=
  [ {| MeteoDiaria.fecha := ymd 2026 3 14; MeteoDiaria.precip_media := 8;
       MeteoDiaria.temp_media := 12 |};
    {| MeteoDiaria.fecha := ymd 2026 3 21; MeteoDiaria.precip_media := 2;
       MeteoDiaria.temp_media := 14 |} ].

(** The same days and rain with other temperatures. *)
Definition meteo_diaria_warmer : list MeteoDiaria.row :=
  [ {| MeteoDiaria.fecha := ymd 2026 3 14; MeteoDiaria.precip_media := 8;
       MeteoDiaria.temp_media := 21 |};
    {| MeteoDiaria.fecha := ymd 2026 3 21; MeteoDiaria.precip_media := 2;
       MeteoDiaria.temp_media := 23 |} ].

Definition trafico_diario : list TraficoDiario.row :=
  [ {| TraficoDiario.fecha := ymd 2026 3 7; TraficoDiario.n_incidencias := 6 |};
    {| TraficoDiario.fecha := ymd 2026 3 21; TraficoDiario.n_incidencias := 4 |} ].

(** The row of the match day for NO2. *)
Definition no2_row : Result.row :=
  {| Result.evento_id := "b9edffd123fd";
     Result.nombre_evento := PStr "Levante UD";
     Result.tipo_evento := PStr "desconocido";
     Result.impacto_esperado := PStr "desconocido";
     Result.fecha_inicio := "2026-03-07";
     Result.fecha_fin := "2026-03-07";
     Result.variable := "NO2";
     Result.media_evento := 1;
     Result.media_baseline := 3;
     Result.impacto_pct := (-66.67)%float;
     Result.n_dias_evento := 1;
     Result.n_dias_baseline := 1;
     Result.media_temp_evento := nan;
     Result.media_temp_baseline := 14;
     Result.media_precip_evento := nan;
     Result.media_precip_baseline := 2;
     Result.impacto_trafico_pct := 50 |}.

(** Hourly readings as the normalizer writes them: two valid ones and one
    without a value on 2026-03-07, and a day whose only reading is out of
    range. *)
Definition readings : list Contam.row :=
  [ {| Contam.fecha_utc := ymd 2026 3 7 + 3600000000000;
       Contam.variable := "NO2"; Contam.valor := 10;
       Contam.calidad_dato := "ok" |};
    {| Contam.fecha_utc := ymd 2026 3 7 + 2 * 3600000000000;
       Contam.variable := "NO2"; Contam.valor := nan;
       Contam.calidad_dato := "missing" |};
    {| Contam.fecha_utc := ymd 2026 3 7 + 3 * 3600000000000;
       Contam.variable := "NO2"; Contam.valor := 20;
       Contam.calidad_dato := "ok" |};
    {| Contam.fecha_utc := ymd 2026 3 8 + 3600000000000;
       Contam.variable := "NO2"; Contam.valor := 9999;
       Contam.calidad_dato := "invalid" |} ].


End Sample.

(* ====================================================================== *)
(** ** Reference functions used to state the results *)
(* ====================================================================== *)

Section Reference.

Context {sums : F64.Summation}.

(** The events of [l] whose identifier is not in [seen] and that no earlier
    event of [l] shares: what the deduplication loop keeps. *)
Fixpoint first_occurrences (seen : gset string) (l : list Event) : list Event :=
  match l with
  | [] => []
  | ev :: l' =>
      if decide (evento_id ev ∈ seen) then first_occurrences seen l'
      else ev :: first_occurrences ({[ evento_id ev ]} ∪ seen) l'
  end.

(** The first event of [l] with a given identifier. *)
Definition first_with_id (i : string) (l : list Event) : option Event :=
  List.find (fun e => String.eqb (evento_id e) i) l.



(** The baseline decision for one day of a series, as one boolean. *)
Definition is_baseline_day
    (evento : Event) (all_event_dates : gset date)
    (meteo_diaria : option (list MeteoDiaria.row)) (t : Timestamp) : bool :=
  let event_range := date_range (fecha_inicio evento) (fecha_fin evento) in
  bool_decide (month t ∈ (list_to_set (map month event_range) : gset Z))
  && bool_decide (dayofweek t ∈ (list_to_set (map dayofweek event_range) : gset Z))
  && negb (bool_decide (dt_date t ∈ all_event_dates))
  && match meteo_diaria with
     | Some ((_ :: _) as meteo) =>
         no_rain (lookup_value
                    (map (fun r => dt_date (MeteoDiaria.fecha r)) meteo)
                    (map MeteoDiaria.precip_media meteo) (dt_date t))
     | _ => true
     end.

(** The dates an event spans: from the date of its start to the date of
    its end. *)
Definition in_date_span (ev : Event) (d : date) : Prop :=
  dt_date (fecha_inicio ev) <= d <= dt_date (fecha_fin ev).

(** The dates the module takes for an event: the date of its start and the
    dates after it, one for each whole day between its start and its
    end. *)
Definition is_event_day (ev : Event) (d : date) : Prop :=
  dt_date (fecha_inicio ev) <= d
  <= dt_date (fecha_inicio ev)
     + (fecha_fin ev - fecha_inicio ev) / NS_PER_DAY.

(** An event whose end is not earlier in the day than its start; every
    event given by dates alone is one. *)
Definition ends_late_in_day (ev : Event) : Prop :=
  fecha_inicio ev mod NS_PER_DAY <= fecha_fin ev mod NS_PER_DAY.

(** The rows of a daily table that fall on the event's days, and those that
    are baseline days. *)
Definition event_window {A} (fecha : A -> Timestamp) (evento : Event)
    (df : list A) : list A :=
  List.filter (fun r => bool_decide (dt_date (fecha r) ∈ event_dates evento)) df.

Definition baseline_window {A} (fecha : A -> Timestamp) (evento : Event)
    (all_event_dates : gset date)
    (meteo_diaria : option (list MeteoDiaria.row)) (df : list A) : list A :=
  List.filter (fun r => is_baseline_day evento all_event_dates meteo_diaria
                                        (fecha r)) df.

(** The figures of an event when no lookup raises. *)
Definition meteo_figures (all_event_dates : gset date)
    (meteo_diaria : option (list MeteoDiaria.row)) (evento : Event)
  : float * float * float * float :=
  match meteo_diaria with
  | Some ((_ :: _) as meteo) =>
      let ev := event_window MeteoDiaria.fecha evento meteo in
      let bl := baseline_window MeteoDiaria.fecha evento all_event_dates
                                meteo_diaria meteo in
      (mean_or_nan (map MeteoDiaria.temp_media ev),
       mean_or_nan (map MeteoDiaria.precip_media ev),
       mean_or_nan (map MeteoDiaria.temp_media bl),
       mean_or_nan (map MeteoDiaria.precip_media bl))
  | _ => (nan, nan, nan, nan)
  end.

Definition traffic_figure (all_event_dates : gset date)
    (trafico_diario : option (list TraficoDiario.row))
    (meteo_diaria : option (list MeteoDiaria.row)) (evento : Event) : float :=
  match trafico_diario with
  | Some ((_ :: _) as trafico) =>
      impact_pct
        (mean_or_nan
           (incidencias (event_window TraficoDiario.fecha evento trafico)))
        (mean_or_nan
           (incidencias (baseline_window TraficoDiario.fecha evento
                                         all_event_dates meteo_diaria trafico)))
  | _ => nan
  end.

Definition pollutant_figures (all_event_dates : gset date)
    (meteo_diaria : option (list MeteoDiaria.row)) (evento : Event)
    (df_var : list ContamDiaria.row) : float * nat * float * nat :=
  let ev := event_window ContamDiaria.fecha evento df_var in
  let bl := baseline_window ContamDiaria.fecha evento all_event_dates
                            meteo_diaria df_var in
  (mean_or_nan (map ContamDiaria.valor_medio ev),
   nunique_or_0 (map ContamDiaria.fecha ev),
   mean_or_nan (map ContamDiaria.valor_medio bl),
   nunique_or_0 (map ContamDiaria.fecha bl)).

Definition event_rows_of (all_event_dates : gset date)
    (contam_diaria : option (list ContamDiaria.row))
    (trafico_diario : option (list TraficoDiario.row))
    (meteo_diaria : option (list MeteoDiaria.row)) (evento : Event)
  : list Result.row :=
  let mc := meteo_figures all_event_dates meteo_diaria evento in
  let ti := traffic_figure all_event_dates trafico_diario meteo_diaria evento in
  match variables_of contam_diaria with
  | [] => [sin_datos_row evento mc ti]
  | vars =>
      map (fun v =>
             contam_row evento mc ti v
               (pollutant_figures all_event_dates meteo_diaria evento
                                  (df_var_of contam_diaria v)))
          vars
  end.

(** A weather table with at most one row per day, as the aggregation
    produces it. *)
Definition unique_days (meteo : option (list MeteoDiaria.row)) : Prop :=
  NoDup (map (fun r => dt_date (MeteoDiaria.fecha r)) (default [] meteo)).

(** Records that are not JSON objects, and JSON objects whose start date
    does not parse. *)
Definition is_not_dict (r : raw_event) : bool :=
  match r with
  | RDict _ => false
  | RNotDict _ => true
  end.

Definition lacks_start_date `{DateParser} (r : raw_event) : bool :=
  match r with
  | RDict d =>
      match _parse_event_date (default (PStr "") (d !! "fecha_inicio")) with
      | Some _ => false
      | None => true
      end
  | RNotDict _ => false
  end.

(** The columns of a row other than the two temperature columns. *)
Definition impact_columns (r : Result.row)
  : string * pyval * pyval * pyval * string * string * string
    * float * float * float * nat * nat * float * float * float :=
  (Result.evento_id r, Result.nombre_evento r, Result.tipo_evento r,
   Result.impacto_esperado r, Result.fecha_inicio r, Result.fecha_fin r,
   Result.variable r, Result.media_evento r, Result.media_baseline r,
   Result.impacto_pct r, Result.n_dias_evento r, Result.n_dias_baseline r,
   Result.media_precip_evento r, Result.media_precip_baseline r,
   Result.impacto_trafico_pct r).

(** The day and precipitation columns of a weather table. *)
Definition rain_columns (meteo : list MeteoDiaria.row)
  : list (Timestamp * float) :=
  map (fun r => (MeteoDiaria.fecha r, MeteoDiaria.precip_media r)) meteo.

(** The characters of a lowercase hexadecimal number. *)
Definition lower_hex : list ascii := list_ascii_of_string "0123456789abcdef".

(** The events the parsing loop appends, in order. *)
Definition parsed_of `{DateParser} (eventos_raw : list raw_event) : list Event :=
  flat_map (fun r => match parse_event r with
                     | Ok (Some ev) => [ev]
                     | _ => []
                     end) eventos_raw.

End Reference.

(* ====================================================================== *)
(** * Results *)
(* ====================================================================== *)

(** ** The exception monad *)

Lemma rbind_Ok {A B} (m : res A) (k : A -> res B) (b : B) :
  rbind m k = Ok b -> exists a, m = Ok a /\ k a = Ok b.
Proof. destruct m as [a|e]; simpl; [eauto | discriminate]. Qed.

Lemma for_each_Ok {A B} (f : A -> res B) (l : list A) (ys : list B) :
  for_each f l = Ok ys -> Forall2 (fun x y => f x = Ok y) l ys.
Proof.
  revert ys. induction l as [|x l IH]; simpl; intros ys H.
  - injection H as <-. constructor.
  - apply rbind_Ok in H as (y & Hy & H).
    apply rbind_Ok in H as (ys' & Hys & H).
    injection H as <-. constructor; auto.
Qed.

Lemma for_each_total {A B} (f : A -> res B) (g : A -> B) (l : list A) :
  (forall x, In x l -> f x = Ok (g x)) -> for_each f l = Ok (map g l).
Proof.
  induction l as [|x l IH]; simpl; intros H; [reflexivity|].
  rewrite (H x) by auto. simpl. rewrite IH by auto. reflexivity.
Qed.

Ltac inv_bind H :=
  let a := fresh "a" in
  let Ha := fresh "H" a in
  apply rbind_Ok in H as (a & Ha & H).

(** ** Event normalizer *)

Section EventNormalizerFacts.

Context {parser : DateParser}.

Lemma py_get_dict d key dflt :
  py_get (RDict d) key dflt = Ok (default dflt (d !! key)).
Proof. reflexivity. Qed.

(** The identifier of a dict record, as a closed formula. *)
Lemma generate_event_id_dict (d : gmap string pyval) :
  _generate_event_id (RDict d) =
  Ok (substring 0 12
        (MD5.hexdigest
           (py_str (default (default (PStr "desconocido") (d !! "rival"))
                            (d !! "nombre"))
            ++ "|" ++ py_str (default (PStr "") (d !! "fecha_inicio"))
            ++ "|" ++ py_str (default (PStr "") (d !! "fuente"))))%string).
Proof. reflexivity. Qed.

Lemma generate_event_id_agree (d1 d2 : gmap string pyval) :
  d1 !! "nombre" = d2 !! "nombre" ->
  d1 !! "rival" = d2 !! "rival" ->
  d1 !! "fecha_inicio" = d2 !! "fecha_inicio" ->
  d1 !! "fuente" = d2 !! "fuente" ->
  _generate_event_id (RDict d1) = _generate_event_id (RDict d2).
Proof.
  intros Hn Hr Hf Hs. rewrite !generate_event_id_dict.
  by rewrite Hn, Hr, Hf, Hs.
Qed.

(** C6. The identifier is a function of the name field (["nombre"], else
    ["rival"]), the start-date string as provided and the source tag: two
    records that agree on them get the same identifier, whatever their
    other fields are, and the identifier is always produced. *)
Theorem event_id_deterministic (d1 d2 : gmap string pyval) :
  d1 !! "nombre" = d2 !! "nombre" ->
  d1 !! "rival" = d2 !! "rival" ->
  d1 !! "fecha_inicio" = d2 !! "fecha_inicio" ->
  d1 !! "fuente" = d2 !! "fuente" ->
  exists id,
    _generate_event_id (RDict d1) = Ok id
    /\ _generate_event_id (RDict d2) = Ok id.
Proof.
  intros Hn Hr Hf Hs.
  rewrite (generate_event_id_agree d1 d2 Hn Hr Hf Hs).
  rewrite generate_event_id_dict. eexists; split; reflexivity.
Qed.

(** *** Lists *)

Lemma elem_of_map {A B} (f : A -> B) (l : list A) (y : B) :
  y ∈ map f l <-> exists x, y = f x /\ x ∈ l.
Proof.
  rewrite list_elem_of_In, in_map_iff. split.
  - intros (x & <- & Hx). exists x. by rewrite list_elem_of_In.
  - intros (x & -> & Hx). exists x. by rewrite <- list_elem_of_In.
Qed.

Lemma elem_of_List_filter {A} (p : A -> bool) (l : list A) (x : A) :
  x ∈ List.filter p l <-> x ∈ l /\ p x = true.
Proof. by rewrite !list_elem_of_In, filter_In. Qed.

Lemma elem_of_flat_map {A B} (f : A -> list B) (l : list A) (y : B) :
  y ∈ flat_map f l <-> exists x, x ∈ l /\ y ∈ f x.
Proof.
  rewrite list_elem_of_In, in_flat_map. split.
  - intros (x & Hx & Hy). exists x. by rewrite !list_elem_of_In.
  - intros (x & Hx & Hy). exists x. by rewrite <- !list_elem_of_In.
Qed.

(** *** The parsing loop *)

Lemma parse_all_from (raw : list raw_event) (st : ParseState) :
  parsed (fold_left parse_step raw st) = parsed st ++ parsed_of raw.
Proof.
  revert st. induction raw as [|r raw IH]; intros st; simpl.
  - by rewrite app_nil_r.
  - rewrite IH. unfold parse_step.
    destruct (parse_event r) as [[ev|]|e]; simpl; [|done..].
    by rewrite <- app_assoc.
Qed.

Lemma parsed_parse_all (raw : list raw_event) :
  parsed (parse_all raw) = parsed_of raw.
Proof. unfold parse_all. by rewrite parse_all_from. Qed.

Lemma elem_of_parsed_of (raw : list raw_event) (ev : Event) :
  ev ∈ parsed_of raw <-> exists r, r ∈ raw /\ parse_event r = Ok (Some ev).
Proof.
  unfold parsed_of. rewrite elem_of_flat_map. split.
  - intros (r & Hr & Hev). exists r. split; [done|].
    destruct (parse_event r) as [[ev'|]|e];
      [|by apply elem_of_nil in Hev..].
    apply list_elem_of_singleton in Hev. by subst.
  - intros (r & Hr & Hev). exists r. split; [done|].
    rewrite Hev. by apply list_elem_of_singleton.
Qed.

(** What a successfully parsed record looks like. *)
Lemma parse_event_Some (r : raw_event) (ev : Event) :
  parse_event r = Ok (Some ev) ->
  exists d s,
    r = RDict d
    /\ _parse_event_date (default (PStr "") (d !! "fecha_inicio")) = Some s
    /\ (let e := default s (_parse_event_date
                              (default (PStr "") (d !! "fecha_fin"))) in
        fecha_inicio ev = Z.min s e /\ fecha_fin ev = Z.max s e)
    /\ _generate_event_id r = Ok (evento_id ev)
    /\ nombre ev = default (default (PStr "Evento desconocido") (d !! "rival"))
                           (d !! "nombre").
Proof.
  destruct r as [d|v]; [|discriminate].
  unfold parse_event. rewrite !py_get_dict. simpl rbind.
  destruct (_parse_event_date (default (PStr "") (d !! "fecha_inicio")))
    as [s|] eqn:Hs; [|discriminate].
  intros H. exists d, s. split; [done|]. split; [done|].
  set (e := match _parse_event_date (default (PStr "") (d !! "fecha_fin")) with
            | Some f => f | None => s end) in *.
  assert (He : e = default s (_parse_event_date
                                (default (PStr "") (d !! "fecha_fin")))).
  { unfold e. by destruct (_parse_event_date _). }
  rewrite <- He. clear He.
  destruct (e <? s) eqn:Hlt; simpl in H; injection H as <-; simpl;
    [apply Z.ltb_lt in Hlt | apply Z.ltb_ge in Hlt];
    (split; [lia|]); split; reflexivity.
Qed.

(** A dict record with a parseable start date is always parsed. *)
Lemma parse_event_parseable (d : gmap string pyval) (s : Timestamp) :
  _parse_event_date (default (PStr "") (d !! "fecha_inicio")) = Some s ->
  exists ev, parse_event (RDict d) = Ok (Some ev).
Proof.
  intros Hs. unfold parse_event. rewrite !py_get_dict. simpl rbind. rewrite Hs.
  destruct (_ <? s); simpl; eauto.
Qed.

(** *** The deduplication loop *)

Lemma dedup_from (l : list Event) (seen : gset string) (acc : list Event) :
  snd (fold_left dedup_step l (seen, acc)) = acc ++ first_occurrences seen l.
Proof.
  revert seen acc. induction l as [|ev l IH]; intros seen acc; simpl.
  - by rewrite app_nil_r.
  - destruct (decide (evento_id ev ∈ seen)); [apply IH|].
    rewrite IH. by rewrite <- app_assoc.
Qed.

Lemma deduplicate_first_occurrences (l : list Event) :
  deduplicate l = first_occurrences ∅ l.
Proof. unfold deduplicate. by rewrite dedup_from. Qed.

Lemma elem_of_first_occurrences (l : list Event) (seen : gset string) ev :
  ev ∈ first_occurrences seen l <->
  (evento_id ev ∉ seen) /\ first_with_id (evento_id ev) l = Some ev.
Proof.
  unfold first_with_id.
  revert seen. induction l as [|x l IH]; intros seen; simpl.
  - rewrite elem_of_nil. naive_solver.
  - destruct (decide (evento_id x ∈ seen)) as [Hx|Hx].
    + rewrite IH. split; intros [Hev Hf]; (split; [done|]).
      * destruct (String.eqb_spec (evento_id x) (evento_id ev)) as [E|E];
          [congruence|done].
      * destruct (String.eqb_spec (evento_id x) (evento_id ev)) as [E|E];
          [|done]. injection Hf as <-. done.
    + rewrite elem_of_cons, IH.
      destruct (String.eqb_spec (evento_id x) (evento_id ev)) as [E|E].
      * split.
        -- intros [->|[Hev _]]; [done|]. set_solver.
        -- intros [_ Hf]. left. congruence.
      * split.
        -- intros [->|[Hev Hf]]; [done|]. split; [set_solver|done].
        -- intros [Hev Hf]. right. split; [set_solver|done].
Qed.

Lemma NoDup_first_occurrences (l : list Event) (seen : gset string) :
  NoDup (map evento_id (first_occurrences seen l)).
Proof.
  revert seen. induction l as [|x l IH]; intros seen; simpl.
  - constructor.
  - destruct (decide (evento_id x ∈ seen)); [apply IH|].
    simpl. constructor; [|apply IH].
    rewrite elem_of_map. intros (ev & Hid & Hev).
    apply elem_of_first_occurrences in Hev as [Hev _]. set_solver.
Qed.

Lemma first_with_id_Some (i : string) (l : list Event) ev :
  first_with_id i l = Some ev -> ev ∈ l /\ evento_id ev = i.
Proof.
  unfold first_with_id. intros H. apply find_some in H as [Hin Heq].
  split; [by apply list_elem_of_In|]. by apply String.eqb_eq.
Qed.

Lemma first_with_id_exists (i : string) (l : list Event) ev :
  ev ∈ l -> evento_id ev = i -> exists ev', first_with_id i l = Some ev'.
Proof.
  unfold first_with_id. intros Hin Hid.
  destruct (List.find _ l) as [ev'|] eqn:Hf; [eauto|].
  apply list_elem_of_In in Hin.
  pose proof (find_none _ _ Hf _ Hin) as Hn. simpl in Hn.
  apply String.eqb_neq in Hn. done.
Qed.

End EventNormalizerFacts.

Lemma filter_unique_key {A} (f : A -> string) (l : list A) (x : A) :
  NoDup (map f l) -> x ∈ l ->
  List.filter (fun e => String.eqb (f e) (f x)) l = [x].
Proof.
  induction l as [|y l IH]; simpl; intros Hnd Hin.
  - by apply elem_of_nil in Hin.
  - apply NoDup_cons in Hnd as [Hy Hnd].
    assert (Hnone : forall z, f z = f y ->
              List.filter (fun e => String.eqb (f e) (f z)) l = []).
    { intros z Hz. clear IH Hin Hnd. induction l as [|w l IHl]; [done|]. simpl.
      destruct (String.eqb_spec (f w) (f z)) as [E|E].
      - exfalso. apply Hy. simpl. apply elem_of_cons. left. congruence.
      - apply IHl. intros Hm. apply Hy. simpl. apply elem_of_cons. by right. }
    apply elem_of_cons in Hin as [->|Hin].
    + rewrite String.eqb_refl. f_equal. by apply Hnone.
    + destruct (String.eqb_spec (f y) (f x)) as [E|E]; [|by apply IH].
      exfalso. apply Hy. rewrite E. apply elem_of_map. eauto.
Qed.

Section EventNormalizerClaims.

Context {parser : DateParser}.

(** C7. A record whose parsed end date precedes its parsed start date is
    kept with the two dates exchanged, and every event the normalizer
    produces, before and after deduplication, has
    [fecha_inicio <= fecha_fin]. *)
Theorem date_swap_invariant :
  (forall (d : gmap string pyval) (s e : Timestamp),
      _parse_event_date (default (PStr "") (d !! "fecha_inicio")) = Some s ->
      _parse_event_date (default (PStr "") (d !! "fecha_fin")) = Some e ->
      e < s ->
      exists ev, parse_event (RDict d) = Ok (Some ev)
                 /\ fecha_inicio ev = e /\ fecha_fin ev = s)
  /\ (forall (raw : list raw_event) (ev : Event),
        ev ∈ parsed (parse_all raw) -> fecha_inicio ev <= fecha_fin ev)
  /\ (forall (raw : list raw_event) (ev : Event),
        ev ∈ parse_and_deduplicate_events raw ->
        fecha_inicio ev <= fecha_fin ev).
Proof.
  assert (Hparsed : forall raw ev,
             ev ∈ parsed (parse_all raw) -> fecha_inicio ev <= fecha_fin ev).
  { intros raw ev. rewrite parsed_parse_all, elem_of_parsed_of.
    intros (r & _ & Hev).
    apply parse_event_Some in Hev as (d & s & _ & _ & [Hi Hf] & _). lia. }
  split; [|split; [exact Hparsed|]].
  - intros d s e Hs He Hlt.
    destruct (parse_event_parseable d s Hs) as [ev Hev]. exists ev.
    split; [done|].
    apply parse_event_Some in Hev as (d' & s' & Hd & Hs' & [Hi Hf] & _).
    injection Hd as <-. rewrite Hs in Hs'. injection Hs' as <-.
    rewrite He in Hi, Hf. simpl in Hi, Hf. lia.
  - intros raw ev. unfold parse_and_deduplicate_events.
    rewrite deduplicate_first_occurrences, elem_of_first_occurrences.
    intros [_ Hf]. apply first_with_id_Some in Hf as [Hin _]. eauto.
Qed.

(** C5. After the deduplication pass every identifier occurs at most
    once; the event kept for an identifier is the first parsed event
    carrying it; and when the input holds the same logical event twice
    (two records with the same name field, start-date string and source,
    the start date being parseable) the output holds exactly one event
    with their common identifier. *)
Theorem deduplication_keeps_first (raw : list raw_event) :
  NoDup (map evento_id (parse_and_deduplicate_events raw))
  /\ (forall ev : Event,
        ev ∈ parse_and_deduplicate_events raw <->
        first_with_id (evento_id ev) (parsed (parse_all raw)) = Some ev)
  /\ (forall (d1 d2 : gmap string pyval) (s : Timestamp),
        RDict d1 ∈ raw -> RDict d2 ∈ raw ->
        d1 !! "nombre" = d2 !! "nombre" ->
        d1 !! "rival" = d2 !! "rival" ->
        d1 !! "fecha_inicio" = d2 !! "fecha_inicio" ->
        d1 !! "fuente" = d2 !! "fuente" ->
        _parse_event_date (default (PStr "") (d1 !! "fecha_inicio")) = Some s ->
        exists (id : string) (ev : Event),
          _generate_event_id (RDict d1) = Ok id
          /\ _generate_event_id (RDict d2) = Ok id
          /\ List.filter (fun e => String.eqb (evento_id e) id)
                         (parse_and_deduplicate_events raw) = [ev]).
Proof.
  unfold parse_and_deduplicate_events.
  rewrite deduplicate_first_occurrences.
  assert (Hchar : forall ev : Event,
             ev ∈ first_occurrences ∅ (parsed (parse_all raw)) <->
             first_with_id (evento_id ev) (parsed (parse_all raw)) = Some ev).
  { intros ev. rewrite elem_of_first_occurrences. set_solver. }
  split; [apply NoDup_first_occurrences|]. split; [exact Hchar|].
  intros d1 d2 s H1 H2 Hn Hr Hf Hs Hdate.
  pose proof (generate_event_id_agree d1 d2 Hn Hr Hf Hs) as Hagree.
  destruct (_generate_event_id (RDict d1)) as [id|] eqn:Hid1;
    [|by rewrite generate_event_id_dict in Hid1].
  symmetry in Hagree. rename Hagree into Hid2.
  destruct (parse_event_parseable d1 s Hdate) as [ev1 Hev1].
  assert (Hin : ev1 ∈ parsed (parse_all raw)).
  { rewrite parsed_parse_all, elem_of_parsed_of. eauto. }
  assert (Hid : evento_id ev1 = id).
  { apply parse_event_Some in Hev1 as (d & _ & Hd & _ & _ & Hg & _).
    rewrite Hid1 in Hg. by injection Hg. }
  destruct (first_with_id_exists id _ ev1 Hin Hid) as [ev Hev].
  pose proof (first_with_id_Some _ _ _ Hev) as [_ Hidev].
  exists id, ev. split; [done|]. split; [done|].
  rewrite <- Hidev.
  apply (filter_unique_key evento_id); [apply NoDup_first_occurrences|].
  apply Hchar. by rewrite Hidev.
Qed.

End EventNormalizerClaims.

(** ** Sorting, grouping and the calendar *)

Lemma insert_sorted_Permutation {A} (leb : A -> A -> bool) (x : A) (l : list A) :
  insert_sorted leb x l ≡ₚ x :: l.
Proof.
  induction l as [|y l IH]; simpl; [done|].
  destruct (leb x y); [done|]. rewrite IH. apply Permutation_swap.
Qed.

Lemma sorted_Permutation {A} (leb : A -> A -> bool) (l : list A) :
  sorted leb l ≡ₚ l.
Proof.
  induction l as [|x l IH]; simpl; [done|].
  rewrite insert_sorted_Permutation. by rewrite IH.
Qed.

Lemma elem_of_sorted {A} (leb : A -> A -> bool) (l : list A) (x : A) :
  x ∈ sorted leb l <-> x ∈ l.
Proof. by rewrite sorted_Permutation. Qed.

Lemma NoDup_sorted {A} (leb : A -> A -> bool) (l : list A) :
  NoDup (sorted leb l) <-> NoDup l.
Proof. by rewrite sorted_Permutation. Qed.

Lemma length_sorted {A} (leb : A -> A -> bool) (l : list A) :
  length (sorted leb l) = length l.
Proof. by rewrite sorted_Permutation. Qed.

Lemma dt_date_midnight (d : date) : dt_date (midnight d) = d.
Proof. unfold dt_date, midnight, NS_PER_DAY. by apply Z.div_mul. Qed.

Lemma filter_map_comm {A B} (f : A -> B) (p : B -> bool) (l : list A) :
  List.filter p (map f l) = map f (List.filter (fun x => p (f x)) l).
Proof.
  induction l as [|x l IH]; simpl; [done|].
  destruct (p (f x)); simpl; by rewrite IH.
Qed.


Lemma filter_ext' {A} (p q : A -> bool) (l : list A) :
  (forall x, p x = q x) -> List.filter p l = List.filter q l.
Proof. intros H. induction l as [|x l IH]; simpl; [done|]. by rewrite H, IH. Qed.

Lemma length_pos_of_elem {A} (x : A) (l : list A) :
  x ∈ l -> (1 <= length l)%nat.
Proof. destruct l; [by intros ?%elem_of_nil|simpl; lia]. Qed.

Lemma NoDup_map_inj_on {A B} (f : A -> B) (g : B -> A) (l : list A) :
  (forall x, g (f x) = x) -> NoDup l -> NoDup (map f l).
Proof.
  intros Hg. induction 1 as [|x l Hx Hnd IH]; simpl; constructor; [|done].
  rewrite elem_of_map. intros (y & Hy & Hin).
  apply Hx. rewrite <- (Hg x), Hy, Hg. done.
Qed.

Lemma NoDup_map_eq {A B} (f : A -> B) (l : list A) (x y : A) :
  NoDup (map f l) -> x ∈ l -> y ∈ l -> f x = f y -> x = y.
Proof.
  induction l as [|z l IH]; simpl; intros Hnd Hx Hy Hf.
  - by apply elem_of_nil in Hx.
  - apply NoDup_cons in Hnd as [Hz Hnd].
    apply elem_of_cons in Hx as [->|Hx]; apply elem_of_cons in Hy as [->|Hy].
    + done.
    + exfalso. apply Hz. rewrite Hf. apply elem_of_map. eauto.
    + exfalso. apply Hz. rewrite <- Hf. apply elem_of_map. eauto.
    + by apply IH.
Qed.

(** ** Daily aggregations *)

Section DailyAggregationFacts.

Context {sums : F64.Summation}.

Import F64.
Local Open Scope float_scope.




Lemma aggregate_contam_keys (df : list Contam.row) :
  map (fun row => (dt_date (ContamDiaria.fecha row), ContamDiaria.variable row))
      (aggregate_contam df)
  = sorted key_leb (unique (map contam_key df)).
Proof.
  unfold aggregate_contam. rewrite map_map. simpl.
  rewrite <- (map_id (sorted _ _)) at 2. apply map_ext.
  intros [d v]. simpl. by rewrite dt_date_midnight.
Qed.

Lemma aggregate_trafico_dates (df : list Trafico.row) :
  map (fun row => dt_date (TraficoDiario.fecha row)) (aggregate_trafico df)
  = sorted Z.leb (unique (map (fun r => dt_date (Trafico.fecha r)) df)).
Proof.
  unfold aggregate_trafico. rewrite map_map. simpl.
  rewrite <- (map_id (sorted _ _)) at 2. apply map_ext.
  intros d. by rewrite dt_date_midnight.
Qed.

Lemma aggregate_meteo_dates (df : list Meteo.row) :
  map (fun row => dt_date (MeteoDiaria.fecha row)) (aggregate_meteo df)
  = sorted Z.leb (unique (map (fun r => dt_date (Meteo.fecha r)) df)).
Proof.
  unfold aggregate_meteo. rewrite map_map. simpl.
  rewrite <- (map_id (sorted _ _)) at 2. apply map_ext.
  intros d. by rewrite dt_date_midnight.
Qed.

Lemma elem_of_aggregate_contam (df : list Contam.row) (row : ContamDiaria.row) :
  row ∈ aggregate_contam df <->
  exists r, r ∈ df
    /\ row = {| ContamDiaria.fecha := midnight (dt_date (Contam.fecha_utc r));
                ContamDiaria.variable := Contam.variable r;
                ContamDiaria.valor_medio :=
                  groupby_mean
                    (map Contam.valor (contam_group (contam_key r) df));
                ContamDiaria.n_registros :=
                  count (map Contam.valor (contam_group (contam_key r) df)) |}.
Proof.
  unfold aggregate_contam. rewrite elem_of_map. split.
  - intros (k & -> & Hk).
    apply elem_of_sorted, elem_of_remove_dups, elem_of_map in Hk
      as (r & -> & Hr).
    exists r. split; done.
  - intros (r & Hr & ->). exists (contam_key r). split; [done|].
    apply elem_of_sorted, elem_of_remove_dups, elem_of_map. eauto.
Qed.




Lemma NoDup_aggregate_meteo_dates (df : list Meteo.row) :
  NoDup (map (fun row => dt_date (MeteoDiaria.fecha row))
             (aggregate_meteo df)).
Proof.
  rewrite aggregate_meteo_dates. apply NoDup_sorted, NoDup_remove_dups.
Qed.


End DailyAggregationFacts.

(** ** Baseline construction *)

Section BaselineFacts.

Import F64.

(** *** Comparisons of float64, from their specification *)

Lemma SFcompare_antisym (p q : spec_float) :
  SFcompare q p = option_map CompOpp (SFcompare p q).
Proof.
  destruct p as [s|s| |s m e], q as [s'|s'| |s' m' e'];
    cbn [SFcompare option_map];
    try reflexivity; try (destruct s; reflexivity);
    try (destruct s'; reflexivity); try (destruct s, s'; reflexivity).
  change (PosDef.Pos.compare_cont Eq) with Pos.compare.
  rewrite (Z.compare_antisym e e'), (Pos.compare_antisym m m').
  destruct s, s'; cbn [CompOpp]; try reflexivity;
    destruct (e ?= e')%Z; cbn [CompOpp]; try reflexivity;
    destruct (m ?= m')%positive; reflexivity.
Qed.

Lemma SFcompare_refl (p : spec_float) :
  p <> S754_nan -> SFcompare p p = Some Eq.
Proof.
  destruct p as [s|s| |s m e]; cbn [SFcompare]; intros H; try congruence.
  - destruct s; reflexivity.
  - change (PosDef.Pos.compare_cont Eq) with Pos.compare.
    rewrite Z.compare_refl, Pos.compare_refl. destruct s; reflexivity.
Qed.

Lemma SFcompare_None (p q : spec_float) :
  SFcompare p q = None -> p = S754_nan \/ q = S754_nan.
Proof.
  destruct p as [s|s| |s m e], q as [s'|s'| |s' m' e']; cbn; auto; discriminate.
Qed.

(** [x.isna() | (x <= c)] is [not (x > c)], for a bound [c] that is a
    number. *)
Lemma isnan_or_leb (p c : float) :
  isnan c = false ->
  (isnan p || (p <=? c)%float) = negb (c <? p)%float.
Proof.
  unfold isnan, PrimFloat.is_nan.
  rewrite (FloatAxioms.ltb_spec c p), (FloatAxioms.leb_spec p c),
    (FloatAxioms.eqb_spec p p), (FloatAxioms.eqb_spec c c).
  unfold SFltb, SFleb, SFeqb.
  rewrite (SFcompare_antisym (Prim2SF p) (Prim2SF c)).
  intros Hc.
  assert (Hc' : Prim2SF c <> S754_nan).
  { intros E. rewrite E in Hc. discriminate. }
  destruct (SFcompare (Prim2SF p) (Prim2SF c)) as [[ | | ]|] eqn:C.
  4:{ apply SFcompare_None in C as [C|C]; [|done]. rewrite C. reflexivity. }
  all: assert (Hp : Prim2SF p <> S754_nan)
    by (intros E; rewrite E in C; discriminate).
  all: rewrite SFcompare_refl by done; reflexivity.
Qed.

(** [x <= c] excludes [c < x]. *)
Lemma leb_not_ltb (p c : float) :
  (p <=? c)%float = true -> (c <? p)%float = false.
Proof.
  rewrite (FloatAxioms.ltb_spec c p), (FloatAxioms.leb_spec p c).
  unfold SFltb, SFleb. rewrite (SFcompare_antisym (Prim2SF p) (Prim2SF c)).
  by destruct (SFcompare _ _) as [[ | | ]|].
Qed.

Lemma no_rain_spec (p : float) : no_rain p = negb (5 <? p)%float.
Proof. unfold no_rain, PRECIPITACION_UMBRAL_MM. by apply isnan_or_leb. Qed.

(** *** The dates covered by events *)

Lemma elem_of_fold_dates (l : list Timestamp) (init : gset date) (d : date) :
  d ∈ fold_left (fun acc t => {[ dt_date t ]} ∪ acc) l init
  <-> d ∈ init \/ exists u, u ∈ l /\ dt_date u = d.
Proof.
  revert init. induction l as [|t l IH]; intros init; simpl.
  - split; [by left|]. intros [H|(u & Hu & _)]; [done|].
    by apply elem_of_nil in Hu.
  - rewrite IH. split.
    + intros [H|(u & Hu & Hd)].
      * apply elem_of_union in H as [H|H]; [|by left].
        apply elem_of_singleton in H. right. exists t. split; [left|done].
      * right. exists u. split; [by right|done].
    + intros [H|(u & Hu & Hd)].
      * left. set_solver.
      * apply elem_of_cons in Hu as [->|Hu].
        -- left. set_solver.
        -- right. eauto.
Qed.

Lemma elem_of_get_all_event_dates_from
    (events : list Event) (init : gset date) (d : date) :
  d ∈ fold_left
        (fun all_dates ev =>
           fold_left (fun acc t => {[ dt_date t ]} ∪ acc)
                     (date_range (fecha_inicio ev) (fecha_fin ev)) all_dates)
        events init
  <-> d ∈ init
      \/ exists ev u, ev ∈ events
                      /\ u ∈ date_range (fecha_inicio ev) (fecha_fin ev)
                      /\ dt_date u = d.
Proof.
  revert init. induction events as [|ev events IH]; intros init; simpl.
  - split; [by left|]. intros [H|(ev & u & Hev & _)]; [done|].
    by apply elem_of_nil in Hev.
  - rewrite IH, elem_of_fold_dates. split.
    + intros [[H|(u & Hu & Hd)]|(ev' & u & Hev & Hu & Hd)].
      * by left.
      * right. exists ev, u. split; [left|done].
      * right. exists ev', u. split; [by right|done].
    + intros [H|(ev' & u & Hev & Hu & Hd)].
      * left. by left.
      * apply elem_of_cons in Hev as [->|Hev].
        -- left. right. eauto.
        -- right. eauto.
Qed.

Lemma elem_of_get_all_event_dates (events : list Event) (d : date) :
  d ∈ _get_all_event_dates events
  <-> exists ev u, ev ∈ events
                   /\ u ∈ date_range (fecha_inicio ev) (fecha_fin ev)
                   /\ dt_date u = d.
Proof.
  unfold _get_all_event_dates. rewrite elem_of_get_all_event_dates_from.
  split; [|by right]. intros [H|H]; [|done]. set_solver.
Qed.

(** *** The mask *)

Lemma zip_with_andb_map {A} (f g : A -> bool) (l : list A) :
  zip_with andb (map f l) (map g l) = map (fun x => f x && g x) l.
Proof. induction l as [|x l IH]; simpl; [done|]. by rewrite IH. Qed.

Lemma series_map_inv (keys index : list date) (values r : list float) :
  series_map keys index values = Ok r ->
  NoDup index /\ r = map (lookup_value index values) keys.
Proof.
  unfold series_map. destruct (decide (NoDup index)); [|discriminate].
  intros H. injection H as <-. done.
Qed.

Lemma series_map_Ok (keys index : list date) (values : list float) :
  NoDup index ->
  series_map keys index values = Ok (map (lookup_value index values) keys).
Proof. intros H. unfold series_map. by destruct (decide (NoDup index)). Qed.

Lemma build_baseline_mask_inv fechas evento all_event_dates meteo_diaria mask :
  _build_baseline_mask fechas evento all_event_dates meteo_diaria = Ok mask ->
  mask = map (is_baseline_day evento all_event_dates meteo_diaria) fechas.
Proof.
  unfold _build_baseline_mask. intros H.
  apply rbind_Ok in H as (rain & Hrain & H). injection H as <-.
  rewrite !zip_with_andb_map.
  assert (Ha : rain = map (fun t =>
              match meteo_diaria with
              | Some ((_ :: _) as meteo) =>
                  no_rain (lookup_value
                             (map (fun r => dt_date (MeteoDiaria.fecha r)) meteo)
                             (map MeteoDiaria.precip_media meteo) (dt_date t))
              | _ => true
              end) fechas).
  { destruct meteo_diaria as [[|x meteo]|];
      [by injection Hrain as <-| |by injection Hrain as <-].
    apply rbind_Ok in Hrain as (precip & Hprecip & Hrain).
    injection Hrain as <-.
    apply series_map_inv in Hprecip as [_ ->]. by rewrite !map_map. }
  rewrite Ha, zip_with_andb_map. done.
Qed.

Lemma build_baseline_mask_Ok fechas evento all_event_dates meteo_diaria :
  NoDup (map (fun r => dt_date (MeteoDiaria.fecha r)) (default [] meteo_diaria)) ->
  _build_baseline_mask fechas evento all_event_dates meteo_diaria
  = Ok (map (is_baseline_day evento all_event_dates meteo_diaria) fechas).
Proof.
  intros Hnd.
  destruct (_build_baseline_mask fechas evento all_event_dates meteo_diaria)
    as [mask|e] eqn:H.
  - by rewrite (build_baseline_mask_inv _ _ _ _ _ H).
  - exfalso. unfold _build_baseline_mask in H.
    destruct meteo_diaria as [[|x meteo]|]; [done| |done].
    cbn beta iota in H. rewrite series_map_Ok in H by exact Hnd.
    simpl in H. discriminate.
Qed.

(** [df[mask]] for a mask computed row by row is a filter. *)
Lemma select_map {A} (p : A -> bool) (df : list A) :
  select (map p df) df = List.filter p df.
Proof.
  unfold select. induction df as [|x df IH]; simpl; [done|].
  destruct (p x); simpl; by rewrite IH.
Qed.

Lemma select_map_on {A B} (f : A -> B) (p : B -> bool) (df : list A) :
  select (map p (map f df)) df = List.filter (fun x => p (f x)) df.
Proof. rewrite map_map. apply select_map. Qed.

(** *** Weather lookup *)

Lemma lookup_value_rows (meteo : list MeteoDiaria.row) (k : date) :
  lookup_value (map (fun r => dt_date (MeteoDiaria.fecha r)) meteo)
               (map MeteoDiaria.precip_media meteo) k
  = match List.find (fun r => dt_date (MeteoDiaria.fecha r) =? k) meteo with
    | Some r => MeteoDiaria.precip_media r
    | None => nan
    end.
Proof.
  unfold lookup_value. induction meteo as [|r meteo IH]; simpl; [done|].
  destruct (dt_date (MeteoDiaria.fecha r) =? k); [done|apply IH].
Qed.

Lemma rain_criterion (meteo_diaria : option (list MeteoDiaria.row)) (k : date) :
  NoDup (map (fun r => dt_date (MeteoDiaria.fecha r)) (default [] meteo_diaria)) ->
  match meteo_diaria with
  | Some ((_ :: _) as meteo) =>
      no_rain (lookup_value
                 (map (fun r => dt_date (MeteoDiaria.fecha r)) meteo)
                 (map MeteoDiaria.precip_media meteo) k)
  | _ => true
  end = true
  <-> (forall r, r ∈ default [] meteo_diaria ->
                 dt_date (MeteoDiaria.fecha r) = k ->
                 (5 <? MeteoDiaria.precip_media r)%float = false).
Proof.
  intros Hnd.
  destruct meteo_diaria as [[|x meteo]|];
    [split; [intros _ r Hr; by apply elem_of_nil in Hr|done]
    | |split; [intros _ r Hr; by apply elem_of_nil in Hr|done]].
  cbn beta iota.
  change (default [] (Some (x :: meteo))) with (x :: meteo) in *.
  rewrite lookup_value_rows.
  destruct (List.find _ (x :: meteo)) as [r0|] eqn:Hf.
  - apply find_some in Hf as [Hin Hk]. apply Z.eqb_eq in Hk.
    apply list_elem_of_In in Hin.
    rewrite no_rain_spec, negb_true_iff. split.
    + intros H r Hr Hd.
      assert (r = r0) as ->; [|done].
      apply (NoDup_map_eq (fun r => dt_date (MeteoDiaria.fecha r)) (x :: meteo));
        [done..|congruence].
    + intros H. by apply H.
  - split; [|done]. intros _ r Hr Hd. exfalso.
    apply list_elem_of_In in Hr.
    pose proof (find_none _ _ Hf _ Hr) as Hn. simpl in Hn.
    apply Z.eqb_neq in Hn. done.
Qed.

(** The mask in terms of the instants of the ranges it is computed
    from. *)
Lemma build_baseline_mask_ranges
    (events : list Event) (E : Event) (fechas_serie : list Timestamp)
    (meteo_diaria : option (list MeteoDiaria.row)) :
  NoDup (map (fun r => dt_date (MeteoDiaria.fecha r)) (default [] meteo_diaria)) ->
  exists mask,
    _build_baseline_mask fechas_serie E (_get_all_event_dates events)
                         meteo_diaria = Ok mask
    /\ length mask = length fechas_serie
    /\ forall (i : nat) (t : Timestamp),
         fechas_serie !! i = Some t ->
         (mask !! i = Some true <->
          (exists u, u ∈ date_range (fecha_inicio E) (fecha_fin E)
                     /\ month u = month t)
          /\ (exists u, u ∈ date_range (fecha_inicio E) (fecha_fin E)
                        /\ dayofweek u = dayofweek t)
          /\ ~ (exists ev u, ev ∈ events
                             /\ u ∈ date_range (fecha_inicio ev) (fecha_fin ev)
                             /\ dt_date u = dt_date t)
          /\ (forall r, r ∈ default [] meteo_diaria ->
                        dt_date (MeteoDiaria.fecha r) = dt_date t ->
                        (5 <? MeteoDiaria.precip_media r)%float = false)).
Proof.
  intros Hnd. eexists. split; [by apply build_baseline_mask_Ok|].
  split; [by rewrite length_map|].
  intros i t Ht.
  change (map ?f fechas_serie) with (f <$> fechas_serie).
  rewrite list_lookup_fmap, Ht. simpl.
  unfold is_baseline_day.
  rewrite <- (rain_criterion meteo_diaria (dt_date t) Hnd).
  rewrite <- elem_of_get_all_event_dates.
  split.
  - intros H. injection H as H.
    apply andb_true_iff in H as [H H4].
    apply andb_true_iff in H as [H H3].
    apply andb_true_iff in H as [H1 H2].
    apply bool_decide_eq_true in H1, H2.
    apply negb_true_iff, bool_decide_eq_false in H3.
    apply elem_of_list_to_set, elem_of_map in H1 as (u1 & Hu1 & Hin1).
    apply elem_of_list_to_set, elem_of_map in H2 as (u2 & Hu2 & Hin2).
    repeat split; eauto.
  - intros ((u1 & Hin1 & Hu1) & (u2 & Hin2 & Hu2) & H3 & H4).
    f_equal. rewrite H4, andb_true_r.
    apply andb_true_iff; split; [apply andb_true_iff; split|].
    + apply bool_decide_eq_true, elem_of_list_to_set, elem_of_map. eauto.
    + apply bool_decide_eq_true, elem_of_list_to_set, elem_of_map. eauto.
    + by apply negb_true_iff, bool_decide_eq_false.
Qed.

End BaselineFacts.

(** ** Impact per event *)

Section ImpactFacts.

Context {sums : F64.Summation}.

Import F64.
Local Open Scope float_scope.

Lemma isnan_nan : isnan nan = true.
Proof. reflexivity. Qed.

Lemma rounded2_nan : rounded2 nan = nan.
Proof. reflexivity. Qed.

Lemma rounded2_defined (x : float) :
  isnan (rounded2 x) = false -> isnan x = false.
Proof.
  unfold rounded2. destruct (isnan x); [|done].
  simpl. rewrite ?isnan_nan. done.
Qed.

Lemma impact_pct_guard (a b : float) :
  isnan a = false -> isnan b = false -> (0 <? b) = true ->
  impact_pct a b = (a - b) / b * 100.
Proof. unfold impact_pct. by intros -> -> ->. Qed.

Lemma impact_pct_undefined (a b : float) :
  isnan a = true \/ isnan b = true \/ (0 <? b) = false ->
  impact_pct a b = nan.
Proof.
  unfold impact_pct. intros [-> | [-> | ->]]; simpl; [done| |].
  - by rewrite andb_false_r.
  - by rewrite andb_false_r.
Qed.

Lemma impact_pct_defined (a b : float) :
  isnan (impact_pct a b) = false ->
  isnan a = false /\ isnan b = false /\ (0 <? b) = true.
Proof.
  unfold impact_pct.
  destruct (isnan a), (isnan b), (0 <? b); simpl;
    rewrite ?isnan_nan; intros H; done.
Qed.

Lemma mean_or_nan_defined (l : list float) :
  isnan (mean_or_nan l) = false -> l <> [].
Proof. destruct l; [|done]. simpl. rewrite ?isnan_nan. done. Qed.

Lemma nunique_or_0_pos {A} (f : A -> Timestamp) (l : list A) :
  l <> [] -> (1 <= nunique_or_0 (map f l))%nat.
Proof.
  destruct l as [|x l]; [done|]. intros _. simpl.
  apply (length_pos_of_elem (f x)).
  apply elem_of_remove_dups. left.
Qed.

(** *** The rows of one event *)

Lemma variable_row_inv aed contam meteo ev mc ti v rows :
  variable_row aed contam meteo ev mc ti v = Ok rows ->
  (df_var_of contam v = [] /\ rows = [])
  \/ (exists figs,
        df_var_of contam v <> []
        /\ variable_figures aed meteo ev (df_var_of contam v) = Ok figs
        /\ rows = [contam_row ev mc ti v figs]).
Proof.
  unfold variable_row. destruct (df_var_of contam v) as [|r l] eqn:E.
  - intros H. injection H as <-. by left.
  - intros H. apply rbind_Ok in H as (figs & Hfigs & H).
    injection H as <-. right. exists figs. done.
Qed.

Lemma elem_of_for_each_concat {A B} (f : A -> res (list B))
    (l : list A) (ls : list (list B)) (y : B) :
  for_each f l = Ok ls ->
  y ∈ concat ls <-> exists x ys, x ∈ l /\ f x = Ok ys /\ y ∈ ys.
Proof.
  revert ls. induction l as [|x l IH]; simpl; intros ls H.
  - injection H as <-. simpl. split; [by intros ?%elem_of_nil|].
    intros (x & ys & Hx & _). by apply elem_of_nil in Hx.
  - apply rbind_Ok in H as (ys & Hys & H).
    apply rbind_Ok in H as (ls' & Hls & H). injection H as <-.
    simpl. rewrite elem_of_app, (IH ls' Hls). split.
    + intros [H|(x' & ys' & Hx' & HP & Hy)].
      * exists x, ys. split; [left|done].
      * exists x', ys'. split; [by right|done].
    + intros (x' & ys' & Hx' & HP & Hy).
      apply elem_of_cons in Hx' as [->|Hx'].
      * left. rewrite Hys in HP. by injection HP as ->.
      * right. eauto.
Qed.

Lemma for_each_exists {A B} (f : A -> res B) (l : list A) :
  (forall x, x ∈ l -> exists y, f x = Ok y) ->
  exists ys, for_each f l = Ok ys /\ length ys = length l.
Proof.
  induction l as [|x l IH]; simpl; intros H; [by exists []|].
  destruct (H x) as [y Hy]; [left|].
  destruct IH as (ys & Hys & Hlen); [intros z Hz; apply H; by right|].
  exists (y :: ys). rewrite Hy, Hys. simpl. by rewrite Hlen.
Qed.

(** Where each row of an event comes from. *)
Lemma event_rows_inv aed vars contam traf meteo ev rows :
  event_rows aed vars contam traf meteo ev = Ok rows ->
  exists s mc ti,
    nombre ev = PStr s
    /\ meteo_context aed meteo ev = Ok mc
    /\ traffic_impact aed traf meteo ev = Ok ti
    /\ ((vars = [] /\ rows = [sin_datos_row ev mc ti])
        \/ (vars <> []
            /\ forall row,
                 row ∈ rows <->
                 exists v figs,
                   v ∈ vars
                   /\ df_var_of contam v <> []
                   /\ variable_figures aed meteo ev (df_var_of contam v)
                      = Ok figs
                   /\ row = contam_row ev mc ti v figs)).
Proof.
  unfold event_rows. intros H.
  apply rbind_Ok in H as (nm & Hnm & H).
  apply rbind_Ok in H as (mc & Hmc & H).
  apply rbind_Ok in H as (ti & Hti & H).
  destruct (nombre ev) as [| | |s] eqn:Hs; try discriminate.
  exists s, mc, ti. split; [done|]. split; [done|]. split; [done|].
  destruct vars as [|v0 vars]; [left; by injection H as <-|].
  right. split; [done|].
  apply rbind_Ok in H as (filas & Hfilas & H). injection H as <-.
  intros row. rewrite (elem_of_for_each_concat _ _ _ _ Hfilas). split.
  - intros (v & ys & Hv & Hrow & Hin).
    apply variable_row_inv in Hrow as [[_ ->]|(figs & Hne & Hfigs & ->)];
      [by apply elem_of_nil in Hin|].
    apply list_elem_of_singleton in Hin as ->. eauto 10.
  - intros (v & figs & Hv & Hne & Hfigs & ->).
    exists v, [contam_row ev mc ti v figs]. split; [done|].
    split; [|apply list_elem_of_singleton; done].
    unfold variable_row. destruct (df_var_of contam v); [done|].
    by rewrite Hfigs.
Qed.

(** Where each row of the table comes from. *)
Lemma compute_event_impact_inv events contam traf meteo rows :
  compute_event_impact events contam traf meteo = Ok rows ->
  forall row,
    row ∈ rows <->
    exists ev rows_ev,
      ev ∈ events
      /\ event_rows (_get_all_event_dates events) (variables_of contam)
                    contam traf meteo ev = Ok rows_ev
      /\ row ∈ rows_ev.
Proof.
  unfold compute_event_impact. destruct events as [|ev0 events].
  - intros H. injection H as <-. intros row. split; [by intros ?%elem_of_nil|].
    intros (ev & _ & Hev & _). by apply elem_of_nil in Hev.
  - intros H. apply rbind_Ok in H as (results & Hres & H). injection H as <-.
    intros row. by apply elem_of_for_each_concat.
Qed.

Lemma row_origin events contam traf meteo rows row :
  compute_event_impact events contam traf meteo = Ok rows ->
  row ∈ rows ->
  exists ev mc ti,
    ev ∈ events
    /\ meteo_context (_get_all_event_dates events) meteo ev = Ok mc
    /\ traffic_impact (_get_all_event_dates events) traf meteo ev = Ok ti
    /\ ((variables_of contam = [] /\ row = sin_datos_row ev mc ti)
        \/ (exists v figs,
              v ∈ variables_of contam
              /\ df_var_of contam v <> []
              /\ variable_figures (_get_all_event_dates events) meteo ev
                                  (df_var_of contam v) = Ok figs
              /\ row = contam_row ev mc ti v figs)).
Proof.
  intros H Hrow.
  apply (compute_event_impact_inv _ _ _ _ _ H) in Hrow
    as (ev & rows_ev & Hev & Hrows & Hin).
  apply event_rows_inv in Hrows
    as (s & mc & ti & _ & Hmc & Hti & [[Hv ->]|[Hv Hchar]]).
  - apply list_elem_of_singleton in Hin as ->.
    exists ev, mc, ti. split; [done|]. split; [done|]. split; [done|]. by left.
  - apply Hchar in Hin as (v & figs & Hin & Hne & Hfigs & ->).
    exists ev, mc, ti. split; [done|]. split; [done|]. split; [done|].
    right. eauto 10.
Qed.

(** *** The figures, once the masks are known *)

Lemma mean_or_nan_mean (l : list float) : mean_or_nan l = mean l.
Proof. by destruct l. Qed.

Lemma meteo_context_inv aed meteo ev mc :
  meteo_context aed meteo ev = Ok mc -> mc = meteo_figures aed meteo ev.
Proof.
  unfold meteo_context, meteo_figures.
  destruct meteo as [[|x l]|]; [by intros [= <-]| |by intros [= <-]].
  cbn beta iota. set (meteo := x :: l).
  intros H.
  assert (exists mask p,
             _build_baseline_mask (map MeteoDiaria.fecha meteo) ev aed
                                  (Some meteo) = Ok mask
             /\ (let '(tb, pb) :=
                    match select mask meteo with
                    | [] => (nan, nan)
                    | _ => (mean (map MeteoDiaria.temp_media (select mask meteo)),
                            mean (map MeteoDiaria.precip_media (select mask meteo)))
                    end in
                  (fst p, snd p, tb, pb)) = mc
             /\ p = match event_window MeteoDiaria.fecha ev meteo with
                    | [] => (nan, nan)
                    | w => (mean (map MeteoDiaria.temp_media w),
                            mean (map MeteoDiaria.precip_media w))
                    end) as (mask & p & Hmask & Hmc & Hp).
  { unfold event_window.
    destruct (List.filter _ meteo) as [|r ev_rows];
      cbn beta iota zeta in H;
      apply rbind_Ok in H as (mask & Hmask & H); exists mask;
      (destruct (select mask meteo) as [|r' bl_rows] eqn:Hbl;
       cbn beta iota zeta in H; injection H as <-);
      eexists (_, _); (split; [exact Hmask|]); split; reflexivity. }
  apply build_baseline_mask_inv in Hmask as ->.
  rewrite select_map_on in Hmc. fold (baseline_window MeteoDiaria.fecha ev aed (Some meteo) meteo) in Hmc.
  subst p mc.
  destruct (event_window _ ev meteo), (baseline_window _ ev aed _ meteo);
    reflexivity.
Qed.

Lemma traffic_impact_inv aed traf meteo ev ti :
  traffic_impact aed traf meteo ev = Ok ti ->
  ti = traffic_figure aed traf meteo ev.
Proof.
  unfold traffic_impact, traffic_figure.
  destruct traf as [[|x l]|]; [by intros [= <-]| |by intros [= <-]].
  cbn beta iota. intros H. apply rbind_Ok in H as (mask & Hmask & H).
  apply build_baseline_mask_inv in Hmask as ->.
  rewrite select_map_on in H. by injection H as <-.
Qed.

Lemma variable_figures_inv aed meteo ev df_var figs :
  variable_figures aed meteo ev df_var = Ok figs ->
  figs = pollutant_figures aed meteo ev df_var.
Proof.
  unfold variable_figures, pollutant_figures. intros H.
  apply rbind_Ok in H as (mask & Hmask & H).
  apply build_baseline_mask_inv in Hmask as ->.
  rewrite select_map_on in H. by injection H as <-.
Qed.

(** *** No exception when the weather table has one row per day *)

Lemma meteo_context_Ok aed meteo ev :
  unique_days meteo ->
  meteo_context aed meteo ev = Ok (meteo_figures aed meteo ev).
Proof.
  intros Hnd.
  assert (exists mc, meteo_context aed meteo ev = Ok mc) as [mc Hmc].
  { unfold meteo_context.
    destruct meteo as [[|x l]|]; [by eexists| |by eexists].
    cbn beta iota.
    destruct (List.filter _ (x :: l)); cbn beta iota zeta;
      rewrite build_baseline_mask_Ok by exact Hnd; cbn [rbind];
      destruct (select _ (x :: l)); by eexists. }
  rewrite Hmc. f_equal. by apply meteo_context_inv.
Qed.

Lemma traffic_impact_Ok aed traf meteo ev :
  unique_days meteo ->
  traffic_impact aed traf meteo ev = Ok (traffic_figure aed traf meteo ev).
Proof.
  intros Hnd.
  assert (exists ti, traffic_impact aed traf meteo ev = Ok ti) as [ti Hti].
  { unfold traffic_impact.
    destruct traf as [[|x l]|]; [by eexists| |by eexists].
    cbn beta iota. rewrite build_baseline_mask_Ok by exact Hnd.
    cbn [rbind]. by eexists. }
  rewrite Hti. f_equal. by apply traffic_impact_inv.
Qed.

Lemma variable_figures_Ok aed meteo ev df_var :
  unique_days meteo ->
  variable_figures aed meteo ev df_var
  = Ok (pollutant_figures aed meteo ev df_var).
Proof.
  intros Hnd.
  assert (exists f, variable_figures aed meteo ev df_var = Ok f) as [f Hf].
  { unfold variable_figures. rewrite build_baseline_mask_Ok by exact Hnd.
    cbn [rbind]. by eexists. }
  rewrite Hf. f_equal. by apply variable_figures_inv.
Qed.

Lemma elem_of_variables_of contam v :
  v ∈ variables_of contam <->
  exists r, r ∈ default [] contam /\ ContamDiaria.variable r = v.
Proof.
  unfold variables_of. destruct contam as [[|x l]|]; simpl default.
  - split; [by intros ?%elem_of_nil|]. intros (r & Hr & _).
    by apply elem_of_nil in Hr.
  - rewrite elem_of_sorted. unfold unique.
    rewrite elem_of_remove_dups, elem_of_map. naive_solver.
  - split; [by intros ?%elem_of_nil|]. intros (r & Hr & _).
    by apply elem_of_nil in Hr.
Qed.

Lemma df_var_of_nonempty contam v :
  v ∈ variables_of contam -> df_var_of contam v <> [].
Proof.
  intros (r & Hr & Hv)%elem_of_variables_of. unfold df_var_of.
  assert (Hin : r ∈ List.filter
                  (fun r => String.eqb (ContamDiaria.variable r) v)
                  (default [] contam)).
  { apply elem_of_List_filter. split; [done|]. by apply String.eqb_eq. }
  intros E. rewrite E in Hin. by apply elem_of_nil in Hin.
Qed.

Lemma concat_map_singleton {A B} (g : A -> B) (l : list A) :
  concat (map (fun x => [g x]) l) = map g l.
Proof. induction l as [|x l IH]; simpl; [done|]. by rewrite IH. Qed.

Lemma event_rows_Ok events contam traf meteo ev s :
  unique_days meteo ->
  nombre ev = PStr s ->
  event_rows (_get_all_event_dates events) (variables_of contam)
             contam traf meteo ev
  = Ok (event_rows_of (_get_all_event_dates events) contam traf meteo ev).
Proof.
  intros Hnd Hs. unfold event_rows, event_rows_of.
  rewrite Hs. cbn [py_slice_50 rbind].
  rewrite meteo_context_Ok, traffic_impact_Ok by done. cbn [rbind].
  pose proof (df_var_of_nonempty contam) as Hne.
  destruct (variables_of contam) as [|v0 vars]; [done|].
  set (vs := v0 :: vars) in *.
  rewrite (for_each_total _
             (fun v => [contam_row ev
                          (meteo_figures (_get_all_event_dates events) meteo ev)
                          (traffic_figure (_get_all_event_dates events) traf meteo ev)
                          v
                          (pollutant_figures (_get_all_event_dates events) meteo
                                             ev (df_var_of contam v))])).
  - cbn [rbind]. by rewrite concat_map_singleton.
  - intros v Hv. apply list_elem_of_In in Hv. specialize (Hne v Hv).
    unfold variable_row. destruct (df_var_of contam v) eqn:E; [done|].
    rewrite <- E. by rewrite variable_figures_Ok.
Qed.

Lemma concat_flat_map {A B} (f : A -> list B) (l : list A) :
  concat (map f l) = flat_map f l.
Proof. induction l as [|x l IH]; simpl; [done|]. by rewrite IH. Qed.

Lemma compute_event_impact_Ok events contam traf meteo :
  unique_days meteo ->
  (forall ev, ev ∈ events -> exists s, nombre ev = PStr s) ->
  compute_event_impact events contam traf meteo
  = Ok (flat_map (event_rows_of (_get_all_event_dates events) contam traf meteo)
                 events).
Proof.
  intros Hnd Hs. unfold compute_event_impact.
  destruct events as [|ev0 events]; [done|].
  set (evs := ev0 :: events) in *.
  rewrite (for_each_total _
             (event_rows_of (_get_all_event_dates evs) contam traf meteo)).
  - cbn [rbind]. by rewrite concat_flat_map.
  - intros ev Hev. apply list_elem_of_In in Hev.
    destruct (Hs ev Hev) as [s Hname]. by apply (event_rows_Ok _ _ _ _ _ s).
Qed.

End ImpactFacts.

Section ImpactClaims.

Context {sums : F64.Summation}.

Import F64.
Local Open Scope float_scope.

(** C1 (as the code has it). Every row of the table belongs to an event
    and has two unrounded means behind it: for a pollutant row the mean of
    the pollutant's daily values over the event's days and over its
    baseline days, as [Series.mean] computes it whatever its summation,
    for a row without pollution data two NaN.  The row shows the two means
    rounded to two decimals.  When both means are numbers and the baseline
    mean is greater than zero the impact percentage is
    [(mean_event - mean_baseline) / mean_baseline * 100] rounded to two
    decimals; in every other case, in particular for a baseline mean that
    is zero or negative, it is NaN. *)
Theorem impact_pct_rounded_or_missing
    events contam traf meteo (rows : list Result.row) (row : Result.row) :
  compute_event_impact events contam traf meteo = Ok rows ->
  row ∈ rows ->
  exists (ev : Event) (me mb : float),
    ev ∈ events
    /\ Result.evento_id row = evento_id ev
    /\ ((variables_of contam = [] /\ me = nan /\ mb = nan)
        \/ (Result.variable row ∈ variables_of contam
            /\ me = mean_or_nan
                      (map ContamDiaria.valor_medio
                         (event_window ContamDiaria.fecha ev
                            (df_var_of contam (Result.variable row))))
            /\ mb = mean_or_nan
                      (map ContamDiaria.valor_medio
                         (baseline_window ContamDiaria.fecha ev
                            (_get_all_event_dates events) meteo
                            (df_var_of contam (Result.variable row))))))
    /\ Result.media_evento row = rounded2 me
    /\ Result.media_baseline row = rounded2 mb
    /\ (isnan me = false -> isnan mb = false -> (0 <? mb) = true ->
        Result.impacto_pct row = rounded2 ((me - mb) / mb * 100))
    /\ (isnan me = true \/ isnan mb = true \/ (0 <? mb) = false ->
        Result.impacto_pct row = nan)
    /\ ((mb <=? 0) = true -> Result.impacto_pct row = nan).
Proof.
  intros H Hrow.
  destruct (row_origin _ _ _ _ _ _ H Hrow)
    as (ev & [[[te pe] tb] pb] & ti & Hev & _ & _
        & [[Hv ->]|(v & figs & Hv & _ & Hfigs & ->)]).
  - exists ev, nan, nan. split; [done|]. split; [done|].
    split; [by left|]. split; [done|]. split; [done|].
    split; [by rewrite isnan_nan|]. split; done.
  - apply variable_figures_inv in Hfigs as ->. unfold pollutant_figures.
    eexists ev, _, _. split; [done|]. split; [done|].
    split; [right; split; [exact Hv|split; reflexivity]|].
    cbn [contam_row Result.media_evento Result.media_baseline
         Result.impacto_pct Result.variable].
    split; [done|]. split; [done|].
    split; [intros Ha Hb Hc; by rewrite impact_pct_guard|].
    split.
    + intros Hc. by rewrite impact_pct_undefined.
    + intros Hc. rewrite impact_pct_undefined; [done|].
      right. right. by apply leb_not_ltb.
Qed.

(** C10. In every row whose impact percentage is a number, both day
    counts are at least one. *)
Theorem defined_impact_has_days
    events contam traf meteo (rows : list Result.row) (row : Result.row) :
  compute_event_impact events contam traf meteo = Ok rows ->
  row ∈ rows ->
  isnan (Result.impacto_pct row) = false ->
  (1 <= Result.n_dias_evento row)%nat /\ (1 <= Result.n_dias_baseline row)%nat.
Proof.
  intros H Hrow.
  destruct (row_origin _ _ _ _ _ _ H Hrow)
    as (ev & [[[te pe] tb] pb] & ti & Hev & _ & _
        & [[Hv ->]|(v & figs & Hv & _ & Hfigs & ->)]).
  - cbn. by rewrite ?isnan_nan.
  - apply variable_figures_inv in Hfigs as ->. unfold pollutant_figures.
    cbn [contam_row Result.impacto_pct Result.n_dias_evento
         Result.n_dias_baseline].
    intros Hdef. apply rounded2_defined, impact_pct_defined in Hdef
      as (Ha & Hb & _).
    apply mean_or_nan_defined in Ha, Hb.
    split; apply nunique_or_0_pos; intros E; [apply Ha|apply Hb];
      by rewrite E.
Qed.

End ImpactClaims.

Section PipelineClaims.

Import F64.
Local Open Scope float_scope.

Context {parser : DateParser} {sums : F64.Summation}.

Lemma NoDup_event_ids (raw : list raw_event) :
  NoDup (map evento_id (parse_and_deduplicate_events raw)).
Proof.
  unfold parse_and_deduplicate_events.
  rewrite deduplicate_first_occurrences. apply NoDup_first_occurrences.
Qed.


(** *** main *)

Lemma unique_days_aggregate (df : list Meteo.row) :
  unique_days (Some (aggregate_meteo df)).
Proof. apply NoDup_aggregate_meteo_dates. Qed.

Lemma unique_days_build_daily df_c df_t df_m :
  unique_days (snd (build_daily_aggregations df_c df_t df_m)).
Proof.
  unfold build_daily_aggregations. simpl.
  destruct df_m as [[|x l]|]; [constructor|apply unique_days_aggregate|constructor].
Qed.

Lemma event_rows_of_nonempty aed contam traf meteo ev :
  event_rows_of aed contam traf meteo ev <> [].
Proof. unfold event_rows_of. by destruct (variables_of contam). Qed.



End PipelineClaims.

(** ** The results on the sample inputs *)

Section SampleRuns.

#[local] Existing Instance F64.plain_sums.

(** Known answers of the helpers: [str.strip] on Unicode white space
    (U+00A0, U+3000, U+2028), which leaves U+00A1 and U+200B; the first
    three characters of a string with a two-byte character; [strftime] on
    a year below 1000; the day-first reading of the sample date forms. *)
Lemma strip_known_answers :
  bytes_of (strip (str_of [194; 160; 32; 65; 32; 66; 227; 128; 128;
                           226; 128; 168]%nat))
  = [65; 32; 66]%nat
  /\ bytes_of (strip (str_of [194; 161; 65; 226; 128; 139]%nat))
     = [194; 161; 65; 226; 128; 139]%nat
  /\ strip (str_of [32; 9; 32]%nat) = ""%string
  /\ bytes_of (take_chars 3 (str_of [86; 195; 168; 110; 99]%nat))
     = [86; 195; 168; 110]%nat
  /\ strftime_ymd (ymd 999 1 1) = "999-01-01"%string.
Proof. repeat split; vm_compute; reflexivity. Qed.

Lemma day_first_known_answers :
  let instant (s : string) := option_map wall_clock (SimpleDates.parse s) in
  instant "2026-03-07" = Some (ymd 2026 7 3)
  /\ instant "07/03/2026" = Some (ymd 2026 3 7)
  /\ instant "2026-03-15" = Some (ymd 2026 3 15)
  /\ instant "2026-03-15T20:00:00"
     = Some (ymd 2026 3 15 + 20 * 3600000000000)
  /\ instant "31/02/2026" = None.
Proof. repeat split; vm_compute; reflexivity. Qed.

Lemma sample_events : Sample.events = [Sample.match_event].
Proof. vm_compute. reflexivity. Qed.

Lemma sample_table :
  compute_event_impact Sample.events (Some Sample.contam_diaria)
                       (Some Sample.trafico_diario) (Some Sample.meteo_diaria)
  = Ok [Sample.no2_row].
Proof. vm_compute. reflexivity. Qed.

Lemma sample_unique_days : unique_days (Some Sample.meteo_diaria).
Proof. unfold unique_days. apply (bool_decide_unpack _). vm_compute. exact I. Qed.

Lemma event_id_deterministic_witness :
  exists id,
    _generate_event_id (RDict Sample.festival) = Ok id
    /\ _generate_event_id (RDict Sample.festival_again) = Ok id.
Proof. apply event_id_deterministic; vm_compute; reflexivity. Defined.

Lemma deduplication_keeps_first_witness :
  exists (id : string) (ev : Event),
    _generate_event_id (RDict Sample.festival) = Ok id
    /\ _generate_event_id (RDict Sample.festival_again) = Ok id
    /\ List.filter (fun e => String.eqb (evento_id e) id)
         (@parse_and_deduplicate_events SimpleDates.parser
            [RDict Sample.festival; RDict Sample.inverted;
             RDict Sample.festival_again]) = [ev].
Proof.
  destruct (@deduplication_keeps_first SimpleDates.parser
              [RDict Sample.festival; RDict Sample.inverted;
               RDict Sample.festival_again]) as (_ & _ & H).
  apply (H Sample.festival Sample.festival_again (ymd 2026 3 1));
    try (vm_compute; reflexivity).
  - apply list_elem_of_In. simpl. auto.
  - apply list_elem_of_In. simpl. auto.
Defined.

Lemma date_swap_invariant_witness :
  exists ev,
    @parse_event SimpleDates.parser (RDict Sample.inverted) = Ok (Some ev)
    /\ fecha_inicio ev = ymd 2026 3 5 /\ fecha_fin ev = ymd 2026 3 7.
Proof.
  apply (proj1 (@date_swap_invariant SimpleDates.parser));
    vm_compute; reflexivity.
Defined.

Lemma impact_pct_rounded_or_missing_witness :
  exists (ev : Event) (me mb : float),
    ev ∈ Sample.events
    /\ Result.evento_id Sample.no2_row = evento_id ev
    /\ ((variables_of (Some Sample.contam_diaria) = [] /\ me = nan /\ mb = nan)
        \/ (Result.variable Sample.no2_row ∈ variables_of (Some Sample.contam_diaria)
            /\ me = mean_or_nan
                      (map ContamDiaria.valor_medio
                         (event_window ContamDiaria.fecha ev
                            (df_var_of (Some Sample.contam_diaria)
                                       (Result.variable Sample.no2_row))))
            /\ mb = mean_or_nan
                      (map ContamDiaria.valor_medio
                         (baseline_window ContamDiaria.fecha ev
                            (_get_all_event_dates Sample.events)
                            (Some Sample.meteo_diaria)
                            (df_var_of (Some Sample.contam_diaria)
                                       (Result.variable Sample.no2_row))))))
    /\ Result.media_evento Sample.no2_row = rounded2 me
    /\ Result.media_baseline Sample.no2_row = rounded2 mb
    /\ (F64.isnan me = false -> F64.isnan mb = false -> (0 <? mb)%float = true ->
        Result.impacto_pct Sample.no2_row = rounded2 ((me - mb) / mb * 100)%float)
    /\ (F64.isnan me = true \/ F64.isnan mb = true \/ (0 <? mb)%float = false ->
        Result.impacto_pct Sample.no2_row = nan)
    /\ ((mb <=? 0)%float = true -> Result.impacto_pct Sample.no2_row = nan).
Proof.
  apply (impact_pct_rounded_or_missing
           Sample.events (Some Sample.contam_diaria)
           (Some Sample.trafico_diario) (Some Sample.meteo_diaria)
           [Sample.no2_row]).
  - exact sample_table.
  - apply list_elem_of_In. simpl. auto.
Defined.

Lemma defined_impact_has_days_witness :
  (1 <= Result.n_dias_evento Sample.no2_row)%nat
  /\ (1 <= Result.n_dias_baseline Sample.no2_row)%nat.
Proof.
  apply (defined_impact_has_days
           Sample.events (Some Sample.contam_diaria)
           (Some Sample.trafico_diario) (Some Sample.meteo_diaria)
           [Sample.no2_row]).
  - exact sample_table.
  - apply list_elem_of_In. simpl. auto.
  - vm_compute. reflexivity.
Defined.


(** The daily pollution table of the sample readings: one row, for the
    day and variable that have valid readings. *)
Lemma sample_daily_table :
  aggregate_contam (df_ok Sample.readings)
  = [ {| ContamDiaria.fecha := ymd 2026 3 7;
         ContamDiaria.variable := "NO2";
         ContamDiaria.valor_medio := 15;
         ContamDiaria.n_registros := 2 |} ].
Proof. vm_compute. reflexivity. Qed.



(** The claims the code does not meet as stated, at explicit inputs. *)

(** C1. With an event mean of 1 and a baseline mean of 3, both defined and
    the baseline positive, the row does not hold
    [(1 - 3) / 3 * 100 = -66.66...] but that value rounded to two
    decimals. *)
Lemma impact_pct_is_rounded :
  compute_event_impact Sample.events (Some Sample.contam_diaria)
                       (Some Sample.trafico_diario) (Some Sample.meteo_diaria)
  = Ok [Sample.no2_row]
  /\ pollutant_figures (_get_all_event_dates Sample.events)
                       (Some Sample.meteo_diaria) Sample.match_event
                       Sample.contam_diaria
     = (1%float, 1%nat, 3%float, 1%nat)
  /\ Result.impacto_pct Sample.no2_row <> ((1 - 3) / 3 * 100)%float.
Proof.
  split; [exact sample_table|]. split; [vm_compute; reflexivity|].
  intros H.
  apply (f_equal (fun x => PrimFloat.eqb x ((1 - 3) / 3 * 100)%float)) in H.
  vm_compute in H. discriminate.
Qed.

(** C2. An event from the evening of Sunday 2026-03-15 to the morning of
    Sunday 2026-03-22, its dates in a form the docstring of
    [_parse_event_date] lists.  The 22nd is a date the event spans, yet it
    is not among the dates collected for the event, and the mask takes it
    as a baseline day of that very event: with a pollution table holding
    the 15th and the 22nd, the baseline of the event is the reading of its
    own last day. *)
Theorem event_last_day_taken_as_baseline :
  @parse_and_deduplicate_events SimpleDates.parser [RDict Sample.concert]
  = [Sample.concert_event]
  /\ in_date_span Sample.concert_event (dt_date (ymd 2026 3 22))
  /\ (dt_date (ymd 2026 3 22) ∉ _get_all_event_dates [Sample.concert_event])
  /\ _build_baseline_mask [ymd 2026 3 15; ymd 2026 3 22] Sample.concert_event
                          (_get_all_event_dates [Sample.concert_event]) None
     = Ok [false; true]
  /\ exists row,
       compute_event_impact
         [Sample.concert_event]
         (Some [ {| ContamDiaria.fecha := ymd 2026 3 15;
                    ContamDiaria.variable := "NO2";
                    ContamDiaria.valor_medio := 40;
                    ContamDiaria.n_registros := 24 |};
                 {| ContamDiaria.fecha := ymd 2026 3 22;
                    ContamDiaria.variable := "NO2";
                    ContamDiaria.valor_medio := 10;
                    ContamDiaria.n_registros := 24 |} ])
         None None
       = Ok [row]
       /\ Result.fecha_inicio row = "2026-03-15"%string
       /\ Result.fecha_fin row = "2026-03-22"%string
       /\ Result.media_baseline row = 10%float
       /\ Result.n_dias_baseline row = 1%nat.
Proof.
  split; [vm_compute; reflexivity|].
  split; [unfold in_date_span; vm_compute; split; discriminate|].
  split.
  { intros Hin. apply elem_of_get_all_event_dates in Hin
      as (ev & u & Hev & Hu & Hd).
    apply list_elem_of_singleton in Hev as ->.
    apply list_elem_of_In in Hu. vm_compute in Hu.
    repeat (destruct Hu as [<-|Hu]; [vm_compute in Hd; discriminate|]).
    done. }
  split; [vm_compute; reflexivity|].
  eexists. split; [vm_compute; reflexivity|].
  repeat split; vm_compute; reflexivity.
Qed.



End SampleRuns.

(** * Further properties of the module *)

(** ** Event normalizer *)

Section EventNormalizerMore.

Context {parser : DateParser}.

Lemma parse_event_not_dict (v : pyval) :
  parse_event (RNotDict v) = Raise AttributeError.
Proof. reflexivity. Qed.

Lemma parse_event_no_date (d : gmap string pyval) :
  _parse_event_date (default (PStr "") (d !! "fecha_inicio")) = None ->
  parse_event (RDict d) = Ok None.
Proof.
  intros Hs. unfold parse_event. rewrite !py_get_dict. simpl rbind.
  by rewrite Hs.
Qed.

Lemma parse_counts_from (raw : list raw_event) (st : ParseState) :
  let st' := fold_left parse_step raw st in
  (length (parsed st') + skipped_no_date st' + skipped_malformed st'
   = length (parsed st) + skipped_no_date st + skipped_malformed st
     + length raw)%nat
  /\ (skipped_malformed st'
      = skipped_malformed st + length (List.filter is_not_dict raw))%nat
  /\ (skipped_no_date st'
      = skipped_no_date st + length (List.filter lacks_start_date raw))%nat.
Proof.
  revert st. induction raw as [|r raw IH]; intros st; simpl.
  - lia.
  - destruct (IH (parse_step st r)) as (H1 & H2 & H3).
    rewrite H1, H2, H3. clear IH H1 H2 H3. unfold parse_step.
    destruct r as [d|v].
    + destruct (_parse_event_date (default (PStr "") (d !! "fecha_inicio")))
        as [s|] eqn:Hs.
      * destruct (parse_event_parseable d s Hs) as [ev ->].
        simpl. rewrite Hs, length_app. simpl. lia.
      * rewrite (parse_event_no_date d Hs). simpl. rewrite Hs. simpl. lia.
    + rewrite parse_event_not_dict. simpl. lia.
Qed.

(** X1. Every record of the input ends in exactly one of three places: the
    parsed events, the count of records without a start date, the count of
    malformed records.  The dateless ones are exactly the JSON objects
    whose start date is missing or does not parse.  Among the records this
    model represents, whose strings are well-formed text, the malformed
    ones are exactly the elements that are not JSON objects.  (A string
    with a lone surrogate, which cannot be encoded for the identifier, is
    not represented; the source counts a dated JSON object holding one in
    a hashed field as malformed too.) *)
Theorem parse_accounting (raw : list raw_event) :
  (length (parsed (parse_all raw)) + skipped_no_date (parse_all raw)
   + skipped_malformed (parse_all raw) = length raw)%nat
  /\ skipped_malformed (parse_all raw) = length (List.filter is_not_dict raw)
  /\ skipped_no_date (parse_all raw)
     = length (List.filter lacks_start_date raw).
Proof.
  unfold parse_all.
  destruct (parse_counts_from raw
              {| parsed := []; skipped_no_date := 0; skipped_malformed := 0 |})
    as (H1 & H2 & H3).
  simpl in *. rewrite H1, H2, H3. done.
Qed.

(** X3. A record with a parseable start date and an end date that is missing
    or does not parse becomes a one-day event; its missing descriptive
    fields take the defaults of the source: the name falls back on
    ["rival"], then on "Evento desconocido"; type and expected impact on
    "desconocido"; the source on "desconocida". *)
Theorem single_day_and_defaults (d : gmap string pyval) (s : Timestamp) :
  _parse_event_date (default (PStr "") (d !! "fecha_inicio")) = Some s ->
  _parse_event_date (default (PStr "") (d !! "fecha_fin")) = None ->
  exists ev,
    parse_event (RDict d) = Ok (Some ev)
    /\ fecha_inicio ev = s /\ fecha_fin ev = s
    /\ nombre ev = default (default (PStr "Evento desconocido") (d !! "rival"))
                           (d !! "nombre")
    /\ tipo_evento ev = default (PStr "desconocido") (d !! "tipo")
    /\ impacto_esperado ev
       = default (PStr "desconocido") (d !! "impacto_esperado")
    /\ fuente_evento ev = default (PStr "desconocida") (d !! "fuente").
Proof.
  intros Hs He. unfold parse_event. rewrite !py_get_dict. simpl rbind.
  rewrite Hs, He, Z.ltb_irrefl. simpl. eexists. split; [reflexivity|]. done.
Qed.

End EventNormalizerMore.

Section DeduplicationMore.

Context {parser : DateParser}.

Lemma first_occurrences_fresh (l : list Event) (seen : gset string) :
  NoDup (map evento_id l) ->
  (forall ev, ev ∈ l -> evento_id ev ∉ seen) ->
  first_occurrences seen l = l.
Proof.
  revert seen. induction l as [|x l IH]; intros seen Hnd Hfresh; simpl; [done|].
  apply NoDup_cons in Hnd as [Hx Hnd].
  destruct (decide (evento_id x ∈ seen)) as [Hin|_].
  - exfalso. apply (Hfresh x); [left|done].
  - f_equal. apply IH; [done|]. intros ev Hev.
    apply not_elem_of_union. split; [|apply Hfresh; by right].
    apply not_elem_of_singleton. intros E. apply Hx. rewrite <- E.
    apply elem_of_map. eauto.
Qed.

Lemma first_occurrences_sublist (l : list Event) (seen : gset string) :
  first_occurrences seen l `sublist_of` l.
Proof.
  revert seen. induction l as [|x l IH]; intros seen; simpl; [done|].
  destruct (decide (evento_id x ∈ seen)).
  - by apply sublist_cons.
  - by apply sublist_skip.
Qed.

(** X4. The deduplication keeps the events in their parsing order, changes
    nothing in a list whose identifiers are already distinct, and is
    therefore idempotent; no identifier is lost; and the number logged as
    removed duplicates is exactly the number of parsed events that are
    missing from the output. *)
Theorem deduplicate_properties (raw : list raw_event) (l : list Event) :
  deduplicate l `sublist_of` l
  /\ (NoDup (map evento_id l) -> deduplicate l = l)
  /\ deduplicate (deduplicate l) = deduplicate l
  /\ (forall i : string,
        i ∈ map evento_id (deduplicate l) <-> i ∈ map evento_id l)
  /\ (length (parse_and_deduplicate_events raw) + duplicados raw
      = length (parsed (parse_all raw)))%nat.
Proof.
  rewrite !deduplicate_first_occurrences.
  assert (Hid : NoDup (map evento_id l) -> first_occurrences ∅ l = l).
  { intros Hnd. apply first_occurrences_fresh; [done|]. set_solver. }
  split; [apply first_occurrences_sublist|]. split; [exact Hid|].
  split.
  { apply first_occurrences_fresh; [apply NoDup_first_occurrences|set_solver]. }
  split.
  { intros i. rewrite !elem_of_map. split.
    - intros (ev & -> & Hev). apply elem_of_first_occurrences in Hev as [_ Hf].
      apply first_with_id_Some in Hf as [Hin _]. eauto.
    - intros (ev & -> & Hev).
      destruct (first_with_id_exists (evento_id ev) l ev Hev eq_refl)
        as [ev' Hf].
      pose proof (first_with_id_Some _ _ _ Hf) as [_ Hid'].
      exists ev'. split; [done|]. apply elem_of_first_occurrences.
      split; [set_solver|]. by rewrite Hid'. }
  unfold duplicados, parse_and_deduplicate_events.
  rewrite deduplicate_first_occurrences.
  pose proof (sublist_length _ _
                (first_occurrences_sublist (parsed (parse_all raw)) ∅)).
  lia.
Qed.

End DeduplicationMore.

(** ** The days of an event *)

Section EventDays.

Lemma NS_PER_DAY_pos : 0 < NS_PER_DAY.
Proof. reflexivity. Qed.

Lemma elem_of_date_range (start end_ t : Timestamp) :
  t ∈ date_range start end_ <->
  exists k : Z, 0 <= k <= (end_ - start) / NS_PER_DAY
                /\ start <= end_ /\ t = start + k * NS_PER_DAY.
Proof.
  unfold date_range. destruct (Z.ltb_spec end_ start) as [Hlt|Hle].
  - split; [by intros ?%elem_of_nil|]. intros (k & _ & Hle & _). lia.
  - assert (0 <= (end_ - start) / NS_PER_DAY)
      by (apply Z.div_pos; [lia|apply NS_PER_DAY_pos]).
    rewrite elem_of_map. split.
    + intros (k & -> & Hk). apply list_elem_of_In, in_seq in Hk.
      exists (Z.of_nat k). split; [lia|]. done.
    + intros (k & Hk & _ & ->). exists (Z.to_nat k).
      split; [by rewrite Z2Nat.id by lia|].
      apply list_elem_of_In, in_seq. lia.
Qed.

Lemma dt_date_add_days (t : Timestamp) (k : Z) :
  dt_date (t + k * NS_PER_DAY) = dt_date t + k.
Proof. unfold dt_date. apply Z.div_add. pose proof NS_PER_DAY_pos. lia. Qed.

Lemma event_days_list (start end_ : Timestamp) :
  start <= end_ ->
  map dt_date (date_range start end_)
  = map (fun k => dt_date start + Z.of_nat k)
        (seq 0 (S (Z.to_nat ((end_ - start) / NS_PER_DAY)))).
Proof.
  intros Hle. unfold date_range.
  destruct (Z.ltb_spec end_ start); [lia|].
  rewrite map_map. apply map_ext. intros k. apply dt_date_add_days.
Qed.

(** X5. The days of an event, as the impact computation takes them from
    [pd.date_range]: the start day and the following days, one per whole
    24 hours between start and end.  Their number is that count plus one,
    so every event with [fecha_inicio <= fecha_fin] has at least one day.
    The calendar day of the end belongs to them exactly when the end's time
    of day is not earlier than the start's; for dates without a time of day
    the days are the whole inclusive calendar span. *)
Theorem event_days (ev : Event) :
  fecha_inicio ev <= fecha_fin ev ->
  let whole_days := (fecha_fin ev - fecha_inicio ev) / NS_PER_DAY in
  (forall d : date,
      d ∈ event_dates ev <->
      dt_date (fecha_inicio ev) <= d <= dt_date (fecha_inicio ev) + whole_days)
  /\ size (event_dates ev) = S (Z.to_nat whole_days)
  /\ (dt_date (fecha_fin ev) ∈ event_dates ev <->
      fecha_inicio ev mod NS_PER_DAY <= fecha_fin ev mod NS_PER_DAY)
  /\ (fecha_inicio ev mod NS_PER_DAY = 0 -> fecha_fin ev mod NS_PER_DAY = 0 ->
      forall d : date,
        d ∈ event_dates ev <->
        dt_date (fecha_inicio ev) <= d <= dt_date (fecha_fin ev)).
Proof.
  intros Hle whole_days.
  pose proof NS_PER_DAY_pos as HN.
  assert (Hw : 0 <= whole_days) by (apply Z.div_pos; lia).
  assert (Hchar : forall d : date,
             d ∈ event_dates ev <->
             dt_date (fecha_inicio ev) <= d
             <= dt_date (fecha_inicio ev) + whole_days).
  { intros d. unfold event_dates.
    rewrite elem_of_list_to_set, elem_of_map. split.
    - intros (t & -> & Ht). apply elem_of_date_range in Ht as (k & Hk & _ & ->).
      rewrite dt_date_add_days. fold whole_days in Hk. lia.
    - intros Hd. exists (fecha_inicio ev + (d - dt_date (fecha_inicio ev)) * NS_PER_DAY).
      split; [rewrite dt_date_add_days; lia|].
      apply elem_of_date_range. exists (d - dt_date (fecha_inicio ev)).
      fold whole_days. split; [lia|]. done. }
  assert (Hend : dt_date (fecha_fin ev)
                 = dt_date (fecha_inicio ev) + whole_days
                   + (if fecha_inicio ev mod NS_PER_DAY
                         <=? fecha_fin ev mod NS_PER_DAY then 0 else 1)).
  { unfold dt_date, whole_days.
    pose proof (Z.div_mod (fecha_inicio ev) NS_PER_DAY ltac:(lia)) as Hs.
    pose proof (Z.div_mod (fecha_fin ev) NS_PER_DAY ltac:(lia)) as He.
    pose proof (Z.mod_pos_bound (fecha_inicio ev) NS_PER_DAY HN) as Bs.
    pose proof (Z.mod_pos_bound (fecha_fin ev) NS_PER_DAY HN) as Be.
    set (qs := fecha_inicio ev / NS_PER_DAY) in *.
    set (qe := fecha_fin ev / NS_PER_DAY) in *.
    set (rs := fecha_inicio ev mod NS_PER_DAY) in *.
    set (re := fecha_fin ev mod NS_PER_DAY) in *.
    destruct (Z.leb_spec rs re) as [Hr|Hr].
    - assert ((fecha_fin ev - fecha_inicio ev) / NS_PER_DAY = qe - qs);
        [|lia].
      symmetry. apply (Z.div_unique _ _ _ (re - rs)); lia.
    - assert ((fecha_fin ev - fecha_inicio ev) / NS_PER_DAY = qe - qs - 1);
        [|lia].
      symmetry. apply (Z.div_unique _ _ _ (re - rs + NS_PER_DAY)); lia. }
  split; [exact Hchar|]. split; [|split].
  - unfold event_dates. rewrite event_days_list by done.
    rewrite size_list_to_set; [by rewrite length_map, length_seq|].
    apply (NoDup_map_inj_on _ (fun d => Z.to_nat (d - dt_date (fecha_inicio ev)))).
    + intros k. lia.
    + apply NoDup_seq.
  - rewrite Hchar, Hend.
    destruct (Z.leb_spec (fecha_inicio ev mod NS_PER_DAY)
                         (fecha_fin ev mod NS_PER_DAY)); lia.
  - intros Hs He d. rewrite Hchar, Hend, Hs, He. simpl. lia.
Qed.

End EventDays.

(** ** The baseline mask, day by day *)

Section BaselineDays.

Lemma elem_of_date_range_day (ev : Event) (d : date) :
  is_event_day ev d <->
  exists t, t ∈ date_range (fecha_inicio ev) (fecha_fin ev) /\ dt_date t = d.
Proof.
  unfold is_event_day. pose proof NS_PER_DAY_pos as HN. split.
  - intros Hd.
    exists (fecha_inicio ev + (d - dt_date (fecha_inicio ev)) * NS_PER_DAY).
    split; [|rewrite dt_date_add_days; lia].
    apply elem_of_date_range. exists (d - dt_date (fecha_inicio ev)).
    split; [lia|]. split; [|done].
    destruct (Z.le_gt_cases (fecha_inicio ev) (fecha_fin ev)) as [|Hlt]; [done|].
    assert ((fecha_fin ev - fecha_inicio ev) / NS_PER_DAY < 0); [|lia].
    apply Z.div_lt_upper_bound; lia.
  - intros (t & Ht & <-). apply elem_of_date_range in Ht as (k & Hk & _ & ->).
    rewrite dt_date_add_days. lia.
Qed.

Lemma month_midnight (t : Timestamp) : month (midnight (dt_date t)) = month t.
Proof. unfold month. by rewrite dt_date_midnight. Qed.

Lemma dayofweek_midnight (t : Timestamp) :
  dayofweek (midnight (dt_date t)) = dayofweek t.
Proof. unfold dayofweek. by rewrite dt_date_midnight. Qed.

Lemma whole_days_to_end (ev : Event) :
  ends_late_in_day ev ->
  (fecha_fin ev - fecha_inicio ev) / NS_PER_DAY
  = dt_date (fecha_fin ev) - dt_date (fecha_inicio ev).
Proof.
  unfold ends_late_in_day, dt_date. intros Hr.
  pose proof NS_PER_DAY_pos as HN.
  pose proof (Z.div_mod (fecha_inicio ev) NS_PER_DAY ltac:(lia)) as Hs.
  pose proof (Z.div_mod (fecha_fin ev) NS_PER_DAY ltac:(lia)) as He.
  pose proof (Z.mod_pos_bound (fecha_inicio ev) NS_PER_DAY HN) as Bs.
  pose proof (Z.mod_pos_bound (fecha_fin ev) NS_PER_DAY HN) as Be.
  symmetry.
  apply (Z.div_unique _ _ _
           (fecha_fin ev mod NS_PER_DAY - fecha_inicio ev mod NS_PER_DAY));
    lia.
Qed.

Lemma is_event_day_span (ev : Event) (d : date) :
  ends_late_in_day ev -> (is_event_day ev d <-> in_date_span ev d).
Proof.
  intros H. unfold is_event_day, in_date_span.
  rewrite (whole_days_to_end ev H). lia.
Qed.

(** X16. For an event [E], the event set [events] and a weather table with
    one row per day, the mask is produced, has one entry per day of the
    series, and selects a day exactly when (1) its month is the month of
    one of [E]'s days, (2) its weekday is the weekday of one of [E]'s
    days, (3) it is a day of no event of [events], and (4) every weather
    row of that day has a mean precipitation that does not exceed 5 mm,
    which holds in particular when there is no such row.  The days of an
    event are here the date of its start and the following dates, one per
    whole day between start and end.  When no event ends earlier in the
    day than it starts, as with events given by dates alone, these are the
    dates the event spans, and the four conditions read over date
    spans. *)
Theorem baseline_mask_by_days
    (events : list Event) (E : Event) (fechas_serie : list Timestamp)
    (meteo_diaria : option (list MeteoDiaria.row)) :
  unique_days meteo_diaria ->
  exists mask,
    _build_baseline_mask fechas_serie E (_get_all_event_dates events)
                         meteo_diaria = Ok mask
    /\ length mask = length fechas_serie
    /\ (forall (i : nat) (t : Timestamp),
          fechas_serie !! i = Some t ->
          (mask !! i = Some true <->
           (exists d, is_event_day E d /\ month (midnight d) = month t)
           /\ (exists d, is_event_day E d
                         /\ dayofweek (midnight d) = dayofweek t)
           /\ (forall ev, ev ∈ events -> ~ is_event_day ev (dt_date t))
           /\ (forall r, r ∈ default [] meteo_diaria ->
                         dt_date (MeteoDiaria.fecha r) = dt_date t ->
                         (5 <? MeteoDiaria.precip_media r)%float = false)))
    /\ (ends_late_in_day E ->
        (forall ev, ev ∈ events -> ends_late_in_day ev) ->
        forall (i : nat) (t : Timestamp),
          fechas_serie !! i = Some t ->
          (mask !! i = Some true <->
           (exists d, in_date_span E d /\ month (midnight d) = month t)
           /\ (exists d, in_date_span E d
                         /\ dayofweek (midnight d) = dayofweek t)
           /\ (forall ev, ev ∈ events -> ~ in_date_span ev (dt_date t))
           /\ (forall r, r ∈ default [] meteo_diaria ->
                         dt_date (MeteoDiaria.fecha r) = dt_date t ->
                         (5 <? MeteoDiaria.precip_media r)%float = false))).
Proof.
  intros Hnd.
  destruct (build_baseline_mask_ranges events E fechas_serie meteo_diaria Hnd)
    as (mask & Hmask & Hlen & Hiff).
  assert (Hdays : forall (i : nat) (t : Timestamp),
    fechas_serie !! i = Some t ->
    (mask !! i = Some true <->
     (exists d, is_event_day E d /\ month (midnight d) = month t)
     /\ (exists d, is_event_day E d /\ dayofweek (midnight d) = dayofweek t)
     /\ (forall ev, ev ∈ events -> ~ is_event_day ev (dt_date t))
     /\ (forall r, r ∈ default [] meteo_diaria ->
                   dt_date (MeteoDiaria.fecha r) = dt_date t ->
                   (5 <? MeteoDiaria.precip_media r)%float = false))).
  { intros i t Ht. rewrite (Hiff i t Ht). split.
    - intros ((u1 & Hu1 & Hm) & (u2 & Hu2 & Hw) & Hno & Hrain).
      split; [|split; [|split; [|exact Hrain]]].
      + exists (dt_date u1). split.
        * apply elem_of_date_range_day. eauto.
        * by rewrite month_midnight.
      + exists (dt_date u2). split.
        * apply elem_of_date_range_day. eauto.
        * by rewrite dayofweek_midnight.
      + intros ev Hev Hday. apply Hno.
        apply elem_of_date_range_day in Hday as (u & Hu & Hd). eauto.
    - intros ((d1 & Hd1 & Hm) & (d2 & Hd2 & Hw) & Hno & Hrain).
      split; [|split; [|split; [|exact Hrain]]].
      + apply elem_of_date_range_day in Hd1 as (u & Hu & <-).
        exists u. split; [done|]. by rewrite <- month_midnight.
      + apply elem_of_date_range_day in Hd2 as (u & Hu & <-).
        exists u. split; [done|]. by rewrite <- dayofweek_midnight.
      + intros (ev & u & Hev & Hu & Hd). apply (Hno ev Hev).
        apply elem_of_date_range_day. eauto. }
  exists mask. split; [done|]. split; [done|]. split; [exact Hdays|].
  intros HE Hevents i t Ht. rewrite (Hdays i t Ht).
  split.
  - intros ((d1 & Hd1 & Hm) & (d2 & Hd2 & Hw) & Hno & Hrain).
    split; [|split; [|split; [|exact Hrain]]].
    + exists d1. split; [by apply is_event_day_span|done].
    + exists d2. split; [by apply is_event_day_span|done].
    + intros ev Hev Hspan. apply (Hno ev Hev).
      apply is_event_day_span; [by apply Hevents|done].
  - intros ((d1 & Hd1 & Hm) & (d2 & Hd2 & Hw) & Hno & Hrain).
    split; [|split; [|split; [|exact Hrain]]].
    + exists d1. split; [by apply is_event_day_span|done].
    + exists d2. split; [by apply is_event_day_span|done].
    + intros ev Hev Hday. apply (Hno ev Hev).
      apply is_event_day_span in Hday; [done|by apply Hevents].
Qed.

End BaselineDays.

(** ** Shape of the impact table and its exceptions *)

Section TableShape.

Context {sums : F64.Summation}.

Import F64.

Lemma map_flat_map {A B C} (g : B -> C) (f : A -> list B) (l : list A) :
  map g (flat_map f l) = flat_map (fun x => map g (f x)) l.
Proof.
  induction l as [|x l IH]; simpl; [done|]. by rewrite map_app, IH.
Qed.

Lemma length_flat_map_const {A B} (f : A -> list B) (l : list A) (n : nat) :
  (forall x, length (f x) = n) -> length (flat_map f l) = (length l * n)%nat.
Proof.
  intros Hf. induction l as [|x l IH]; simpl; [done|].
  rewrite length_app, Hf, IH. lia.
Qed.

Lemma variables_of_unavailable contam :
  available contam = false -> variables_of contam = [].
Proof. by destruct contam as [[|x l]|]. Qed.

(** The labels under which an event appears in the table. *)
Lemma event_rows_of_labels aed contam traf meteo ev :
  map (fun r => (Result.evento_id r, Result.variable r))
      (event_rows_of aed contam traf meteo ev)
  = map (fun v => (evento_id ev, v))
        (match variables_of contam with
         | [] => ["sin_datos"%string]
         | vs => vs
         end).
Proof.
  unfold event_rows_of. destruct (variables_of contam) as [|v vs].
  - simpl. by destruct (meteo_figures aed meteo ev) as [[[? ?] ?] ?].
  - rewrite map_map. apply map_ext. intros w. unfold contam_row.
    destruct (meteo_figures aed meteo ev) as [[[? ?] ?] ?].
    by destruct (pollutant_figures _ _ _ _) as [[[? ?] ?] ?].
Qed.

Lemma impact_rows_labels aed contam traf meteo (events : list Event) :
  map (fun r => (Result.evento_id r, Result.variable r))
      (flat_map (event_rows_of aed contam traf meteo) events)
  = flat_map (fun ev => map (fun v => (evento_id ev, v))
                          (match variables_of contam with
                           | [] => ["sin_datos"%string]
                           | vs => vs
                           end))
             events.
Proof.
  rewrite map_flat_map.
  induction events as [|ev evs IH]; simpl; [done|].
  rewrite event_rows_of_labels. f_equal. apply IH.
Qed.

Lemma impact_rows_length aed contam traf meteo (events : list Event) :
  length (flat_map (event_rows_of aed contam traf meteo) events)
  = (length events * Nat.max 1 (length (variables_of contam)))%nat.
Proof.
  apply length_flat_map_const. intros ev.
  rewrite <- (length_map (fun r => (Result.evento_id r, Result.variable r))).
  rewrite event_rows_of_labels, length_map.
  by destruct (variables_of contam).
Qed.

(** X6. When the weather table has one row per day and the events have string
    names, the impact table is produced and holds, event after event in the
    order of the events, one row per pollution variable in increasing order
    of the variable names, or a single ["sin_datos"] row when no pollution
    data is available; its length is the number of events times the number
    of variables (times one without pollution data).  Without pollution
    data the metric fields of every row are NaN, its baseline day count is
    zero and its event day count is the nominal number of days of its
    event. *)
Theorem impact_table_shape events contam traf meteo :
  unique_days meteo ->
  (forall ev, ev ∈ events -> exists s, nombre ev = PStr s) ->
  exists rows,
    compute_event_impact events contam traf meteo = Ok rows
    /\ map (fun r => (Result.evento_id r, Result.variable r)) rows
       = flat_map (fun ev => map (fun v => (evento_id ev, v))
                               (match variables_of contam with
                                | [] => ["sin_datos"%string]
                                | vs => vs
                                end))
                  events
    /\ length rows
       = (length events * Nat.max 1 (length (variables_of contam)))%nat
    /\ (available contam = false ->
        forall row, row ∈ rows ->
          Result.variable row = "sin_datos"%string
          /\ Result.media_evento row = nan
          /\ Result.media_baseline row = nan
          /\ Result.impacto_pct row = nan
          /\ Result.n_dias_baseline row = 0%nat
          /\ exists ev, ev ∈ events
                        /\ Result.evento_id row = evento_id ev
                        /\ Result.n_dias_evento row = size (event_dates ev)).
Proof.
  intros Hud Hnames. eexists. split; [by apply compute_event_impact_Ok|].
  split; [apply impact_rows_labels|].
  split; [apply impact_rows_length|].
  intros Hna row Hrow.
  apply elem_of_flat_map in Hrow as (ev & Hev & Hrow).
  unfold event_rows_of in Hrow.
  rewrite (variables_of_unavailable contam Hna) in Hrow.
  apply list_elem_of_singleton in Hrow as ->.
  unfold sin_datos_row.
  destruct (meteo_figures _ meteo ev) as [[[? ?] ?] ?]. simpl.
  repeat (split; [done|]). eauto.
Qed.

(** X8. The baseline mask raises exactly when a weather table is available and
    holds two rows for the same day, and then with pandas' refusal of a
    repeated index label; a missing or empty weather table never makes it
    raise. *)
Theorem baseline_mask_raises_iff
    (fechas_serie : list Timestamp) (E : Event) (aed : gset date)
    (meteo : option (list MeteoDiaria.row)) :
  ((exists e, _build_baseline_mask fechas_serie E aed meteo = Raise e)
   <-> available meteo = true /\ ~ unique_days meteo)
  /\ (forall e, _build_baseline_mask fechas_serie E aed meteo = Raise e ->
                e = InvalidIndexError).
Proof.
  assert (Hinv : forall e,
             _build_baseline_mask fechas_serie E aed meteo = Raise e ->
             e = InvalidIndexError
             /\ available meteo = true /\ ~ unique_days meteo).
  { intros e H. unfold _build_baseline_mask in H.
    destruct meteo as [[|x l]|]; [done| |done].
    cbn beta iota in H. unfold series_map in H.
    destruct (decide (NoDup _)) as [Hnd|Hnd]; [done|].
    simpl in H. injection H as <-. done. }
  split; [split|].
  - intros [e He]. by apply Hinv in He as [_ ?].
  - intros [Hav Hnd].
    destruct (_build_baseline_mask fechas_serie E aed meteo) as [m|e] eqn:H;
      [|eauto].
    exfalso. apply Hnd. unfold _build_baseline_mask in H.
    destruct meteo as [[|x l]|]; [done| |done].
    cbn beta iota in H. apply rbind_Ok in H as (rain & Hrain & _).
    apply rbind_Ok in Hrain as (pv & Hpv & _).
    by apply series_map_inv in Hpv as [? _].
  - intros e He. by apply Hinv in He as [? _].
Qed.

End TableShape.

(** ** Every event is in the table *)

Section EveryEvent.

Import F64.

Context {parser : DateParser} {sums : F64.Summation}.

Lemma sin_datos_row_id ev mc ti :
  Result.evento_id (sin_datos_row ev mc ti) = evento_id ev.
Proof. unfold sin_datos_row. by destruct mc as [[[? ?] ?] ?]. Qed.

Lemma elem_of_flat_map_rows {A B} (f : A -> list B) (l : list A) (x : A) (y : B) :
  x ∈ l -> y ∈ f x -> y ∈ flat_map f l.
Proof. intros Hx Hy. apply elem_of_flat_map. eauto. Qed.

(** C4. For the events that survive parsing and deduplication, their names
    being strings as the events file holds them, and a weather table with
    one row per day as the aggregation produces it: the impact table is
    produced and every event has at least one row in it, whatever the
    tables hold on its dates.  When no pollution table is available, each
    event has exactly one row; the row is labelled ["sin_datos"], its three
    metric fields are NaN, and it carries the traffic impact of the event
    and its weather context. *)
Theorem every_event_has_a_row
    (raw : list raw_event) contam traf meteo :
  unique_days meteo ->
  (forall ev, ev ∈ parse_and_deduplicate_events raw ->
              exists s, nombre ev = PStr s) ->
  let events := parse_and_deduplicate_events raw in
  let aed := _get_all_event_dates events in
  exists rows,
    compute_event_impact events contam traf meteo = Ok rows
    /\ (forall ev, ev ∈ events ->
          exists row, row ∈ rows /\ Result.evento_id row = evento_id ev)
    /\ (available contam = false ->
        forall ev, ev ∈ events ->
          exists row,
            List.filter
              (fun r => String.eqb (Result.evento_id r) (evento_id ev)) rows
            = [row]
            /\ Result.variable row = "sin_datos"%string
            /\ Result.media_evento row = nan
            /\ Result.media_baseline row = nan
            /\ Result.impacto_pct row = nan
            /\ Result.impacto_trafico_pct row
               = rounded2 (traffic_figure aed traf meteo ev)
            /\ (let '(temp_ev, precip_ev, temp_bl, precip_bl) :=
                  meteo_figures aed meteo ev in
                Result.media_temp_evento row = rounded1 temp_ev
                /\ Result.media_precip_evento row = rounded2 precip_ev
                /\ Result.media_temp_baseline row = rounded1 temp_bl
                /\ Result.media_precip_baseline row = rounded2 precip_bl)).
Proof.
  intros Hud Hnames events aed.
  exists (flat_map (event_rows_of aed contam traf meteo) events).
  split; [by apply compute_event_impact_Ok|]. split.
  - intros ev Hev.
    pose proof (event_rows_of_labels aed contam traf meteo ev) as Hlabels.
    destruct (event_rows_of aed contam traf meteo ev) as [|row rows_ev] eqn:Hrows.
    { by destruct (event_rows_of_nonempty aed contam traf meteo ev). }
    exists row. split.
    + apply (elem_of_flat_map_rows _ _ ev); [done|]. rewrite Hrows. left.
    + destruct (variables_of contam) as [|v vs]; simpl in Hlabels;
        by injection Hlabels.
  - intros Hna ev Hev.
    assert (Hrows : flat_map (event_rows_of aed contam traf meteo) events
                    = map (fun e => sin_datos_row e (meteo_figures aed meteo e)
                                      (traffic_figure aed traf meteo e))
                          events).
    { clearbody aed events. clear Hev Hnames.
      induction events as [|e es IH]; simpl; [done|].
      rewrite IH. unfold event_rows_of at 1.
      by rewrite (variables_of_unavailable contam Hna). }
    rewrite Hrows. eexists. split.
    + rewrite filter_map_comm.
      erewrite (filter_ext' _ (fun e => String.eqb (evento_id e) (evento_id ev))).
      * rewrite (filter_unique_key evento_id events ev);
          [reflexivity|apply NoDup_event_ids|done].
      * intros e. by rewrite sin_datos_row_id.
    + unfold sin_datos_row.
      destruct (meteo_figures aed meteo ev) as [[[te pe] tb] pb]. simpl.
      repeat split; reflexivity.
Qed.

End EveryEvent.

(** ** Order of the daily tables *)

Section TableOrder.

Context {sums : F64.Summation}.

Import F64.

Lemma insert_sorted_HdRel {A} (leb : A -> A -> bool) (a x : A) (l : list A) :
  leb a x = true ->
  HdRel (fun u v => leb u v = true) a l ->
  HdRel (fun u v => leb u v = true) a (insert_sorted leb x l).
Proof.
  intros Hax Hl. destruct l as [|y l]; simpl; [by constructor|].
  destruct (leb x y); constructor; [done|]. by inversion Hl.
Qed.

Lemma insert_sorted_Sorted {A} (leb : A -> A -> bool) (x : A) (l : list A) :
  (forall u v, leb u v = false -> leb v u = true) ->
  Sorted (fun u v => leb u v = true) l ->
  Sorted (fun u v => leb u v = true) (insert_sorted leb x l).
Proof.
  intros Htot. induction 1 as [|y l Hl IH Hy]; simpl.
  - repeat constructor.
  - destruct (leb x y) eqn:Hxy.
    + constructor; [by constructor|by constructor].
    + constructor; [done|]. apply insert_sorted_HdRel; [by apply Htot|done].
Qed.

Lemma sorted_Sorted {A} (leb : A -> A -> bool) (l : list A) :
  (forall u v, leb u v = false -> leb v u = true) ->
  Sorted (fun u v => leb u v = true) (sorted leb l).
Proof.
  intros Htot. induction l as [|x l IH]; simpl; [constructor|].
  by apply insert_sorted_Sorted.
Qed.

Lemma sorted_dates_increasing (l : list date) :
  NoDup l -> StronglySorted Z.lt (sorted Z.leb l).
Proof.
  intros Hnd. apply (NoDup_sorted Z.leb) in Hnd.
  assert (Hs : StronglySorted Z.le (sorted Z.leb l)).
  { apply Sorted_StronglySorted; [intros x y z; lia|].
    eapply Sorted_ind with (P := Sorted Z.le);
      [constructor| |apply (sorted_Sorted Z.leb l); intros u v; lia].
    intros a l' _ IH Hd. constructor; [done|].
    destruct Hd as [|b l'' Hb]; constructor. lia. }
  induction Hs as [|x l' Hs IH Hall]; [constructor|].
  apply NoDup_cons in Hnd as [Hx Hnd]. constructor; [by apply IH|].
  apply Forall_forall. intros y Hy.
  rewrite Forall_forall in Hall. specialize (Hall y Hy).
  assert (x <> y) by (intros ->; by apply Hx, list_elem_of_In). lia.
Qed.

Lemma key_leb_total (k1 k2 : date * string) :
  key_leb k1 k2 = false -> key_leb k2 k1 = true.
Proof.
  unfold key_leb. destruct k1 as [d1 v1], k2 as [d2 v2]. simpl.
  destruct (Z.ltb_spec d1 d2), (Z.ltb_spec d2 d1); simpl; try lia; try done.
  destruct (Z.eqb_spec d1 d2), (Z.eqb_spec d2 d1); simpl; try lia.
  intros Hv. destruct (String.leb_total v1 v2); congruence.
Qed.

(** X9. The daily tables come out of the grouping in key order: the traffic and
    weather tables by strictly increasing day, the pollution table by
    non-decreasing day and, within a day, by variable name; the pollution
    variables an event is reported for are in non-decreasing name order
    without repetition. *)
Theorem daily_tables_are_ordered
    (df_c : list Contam.row) (df_t : list Trafico.row) (df_m : list Meteo.row)
    (contam : option (list ContamDiaria.row)) :
  StronglySorted Z.lt
    (map (fun r => dt_date (TraficoDiario.fecha r)) (aggregate_trafico df_t))
  /\ StronglySorted Z.lt
       (map (fun r => dt_date (MeteoDiaria.fecha r)) (aggregate_meteo df_m))
  /\ Sorted (fun r1 r2 =>
               dt_date (ContamDiaria.fecha r1) < dt_date (ContamDiaria.fecha r2)
               \/ (dt_date (ContamDiaria.fecha r1)
                   = dt_date (ContamDiaria.fecha r2)
                   /\ String.leb (ContamDiaria.variable r1)
                                 (ContamDiaria.variable r2) = true))
            (aggregate_contam df_c)
  /\ Sorted (fun v1 v2 => String.leb v1 v2 = true) (variables_of contam)
  /\ NoDup (variables_of contam).
Proof.
  split; [|split; [|split; [|split]]].
  - rewrite aggregate_trafico_dates.
    apply sorted_dates_increasing, NoDup_remove_dups.
  - rewrite aggregate_meteo_dates.
    apply sorted_dates_increasing, NoDup_remove_dups.
  - pose proof (sorted_Sorted key_leb (unique (map contam_key df_c))
                  key_leb_total) as Hs.
    rewrite <- aggregate_contam_keys in Hs.
    induction (aggregate_contam df_c) as [|r l IH]; [constructor|].
    simpl in Hs. inversion Hs as [|? ? Hl Hd]; subst.
    constructor; [by apply IH|].
    destruct l as [|r' l]; constructor. inversion Hd as [|? ? Hk]; subst.
    unfold key_leb in Hk. simpl in Hk.
    apply orb_true_iff in Hk as [Hk|Hk]; [left; by apply Z.ltb_lt|].
    apply andb_true_iff in Hk as [Hk1 Hk2]. right.
    split; [by apply Z.eqb_eq|done].
  - unfold variables_of. destruct contam as [[|x l]|]; try constructor.
    apply sorted_Sorted. intros u v Huv.
    destruct (String.leb_total u v); congruence.
  - unfold variables_of. destruct contam as [[|x l]|]; try constructor.
    apply NoDup_sorted, NoDup_remove_dups.
Qed.

(** X10. The weather aggregation has one row per day holding a record,
    without any quality filter, and the row's precipitation and temperature
    are the groupby means of that day's values: the sum the groupby
    accumulates over the values that are not NaN, divided by their number,
    and NaN when all are NaN. *)
Theorem weather_aggregation_correct (df : list Meteo.row) :
  unique_days (Some (aggregate_meteo df))
  /\ (forall d : date,
        (exists row, row ∈ aggregate_meteo df
                     /\ MeteoDiaria.fecha row = midnight d)
        <-> (exists r, r ∈ df /\ dt_date (Meteo.fecha r) = d))
  /\ (forall row, row ∈ aggregate_meteo df ->
        let dia := List.filter
                     (fun r => dt_date (Meteo.fecha r)
                               =? dt_date (MeteoDiaria.fecha row)) df in
        MeteoDiaria.precip_media row
        = groupby_mean (map Meteo.precipitacion_mm dia)
        /\ MeteoDiaria.temp_media row = groupby_mean (map Meteo.temp_c dia)
        /\ dia <> []
        /\ (count (map Meteo.precipitacion_mm dia) = 0%nat ->
            isnan (MeteoDiaria.precip_media row) = true)
        /\ (forall n, count (map Meteo.precipitacion_mm dia) = S n ->
            MeteoDiaria.precip_media row
            = (groupby_sum (map Meteo.precipitacion_mm dia)
               / of_nat (S n))%float)).
Proof.
  assert (Hchar : forall row,
             row ∈ aggregate_meteo df <->
             exists r, r ∈ df
               /\ row = {| MeteoDiaria.fecha := midnight (dt_date (Meteo.fecha r));
                           MeteoDiaria.precip_media :=
                             groupby_mean
                               (map Meteo.precipitacion_mm
                                    (meteo_group (dt_date (Meteo.fecha r)) df));
                           MeteoDiaria.temp_media :=
                             groupby_mean
                               (map Meteo.temp_c
                                    (meteo_group (dt_date (Meteo.fecha r)) df)) |}).
  { intros row. unfold aggregate_meteo. rewrite elem_of_map. split.
    - intros (k & -> & Hk).
      apply elem_of_sorted, elem_of_remove_dups, elem_of_map in Hk
        as (r & -> & Hr).
      exists r. split; done.
    - intros (r & Hr & ->). exists (dt_date (Meteo.fecha r)). split; [done|].
      apply elem_of_sorted, elem_of_remove_dups, elem_of_map. eauto. }
  split; [apply NoDup_aggregate_meteo_dates|]. split.
  - intros d. split.
    + intros (row & Hrow & Hd). apply Hchar in Hrow as (r & Hr & ->).
      simpl in Hd. exists r. split; [done|].
      apply (f_equal dt_date) in Hd. by rewrite !dt_date_midnight in Hd.
    + intros (r & Hr & <-). eexists. split; [apply Hchar; eauto|]. reflexivity.
  - intros row Hrow dia. apply Hchar in Hrow as (r & Hr & ->). subst dia.
    simpl. rewrite dt_date_midnight. unfold meteo_group.
    assert (Heq : List.filter
                    (fun r0 => bool_decide (dt_date (Meteo.fecha r0)
                                            = dt_date (Meteo.fecha r))) df
                  = List.filter
                      (fun r0 => dt_date (Meteo.fecha r0)
                                 =? dt_date (Meteo.fecha r)) df).
    { apply filter_ext'. intros x.
      destruct (Z.eqb_spec (dt_date (Meteo.fecha x)) (dt_date (Meteo.fecha r)));
        [by apply bool_decide_eq_true|by apply bool_decide_eq_false]. }
    rewrite Heq. split; [done|]. split; [done|].
    split; [|split].
    + intros E.
      assert (Hin : r ∈ List.filter
                      (fun r0 => dt_date (Meteo.fecha r0)
                                 =? dt_date (Meteo.fecha r)) df).
      { apply elem_of_List_filter. split; [done|]. apply Z.eqb_refl. }
      rewrite E in Hin. by apply elem_of_nil in Hin.
    + intros Hc. unfold groupby_mean. by rewrite Hc.
    + intros n Hc. unfold groupby_mean. by rewrite Hc.
Qed.

End TableOrder.

(** ** What a completed run reports *)

Section MainReport.

Context {parser : DateParser} {sums : F64.Summation}.

Lemma nunique_event_ids (events : list Event) (vs : list string)
    (rows : list Result.row) :
  vs <> [] ->
  NoDup (map evento_id events) ->
  map (fun r => (Result.evento_id r, Result.variable r)) rows
  = flat_map (fun ev => map (fun v => (evento_id ev, v)) vs) events ->
  nunique (map Result.evento_id rows) = length events.
Proof.
  intros Hvs Hnd Hlabels. unfold nunique, unique.
  rewrite <- (length_map evento_id events).
  apply Permutation_length, NoDup_Permutation;
    [apply NoDup_remove_dups|done|].
  intros i. rewrite elem_of_remove_dups.
  assert (Hids : map Result.evento_id rows
                 = map fst (map (fun r => (Result.evento_id r, Result.variable r))
                                rows))
    by (by rewrite map_map).
  rewrite Hids, Hlabels, !elem_of_map. split.
  - intros ([i' v] & -> & Hin). apply elem_of_flat_map in Hin as (ev & Hev & Hin).
    apply elem_of_map in Hin as (w & [= -> ->] & _). eauto.
  - intros (ev & -> & Hev). destruct vs as [|v vs]; [done|].
    exists (evento_id ev, v). split; [done|].
    apply elem_of_flat_map. exists ev. split; [done|]. simpl. left.
Qed.

Lemma variables_of_build_daily (df_c : option (list Contam.row)) df_t df_m
    (v : string) :
  v ∈ variables_of (fst (fst (build_daily_aggregations df_c df_t df_m)))
  <-> exists r, r ∈ default [] df_c
                /\ Contam.calidad_dato r = "ok"%string
                /\ Contam.variable r = v.
Proof.
  rewrite elem_of_variables_of.
  destruct df_c as [[|x l]|]; unfold build_daily_aggregations;
    cbn [fst default].
  - split; [intros (r & Hr & _)|intros (r & Hr & _)]; by apply elem_of_nil in Hr.
  - set (df := x :: l). split.
    + intros (row & Hrow & <-).
      apply elem_of_aggregate_contam in Hrow as (r & Hr & ->).
      apply elem_of_List_filter in Hr as [Hr Hok].
      exists r. split; [done|]. split; [by apply String.eqb_eq|done].
    + intros (r & Hr & Hok & <-). eexists. split.
      * apply elem_of_aggregate_contam. exists r. split; [|reflexivity].
        apply elem_of_List_filter. split; [done|]. by apply String.eqb_eq.
      * reflexivity.
  - split; [intros (r & Hr & _)|intros (r & Hr & _)]; by apply elem_of_nil in Hr.
Qed.

(** X11. A run that has events, at least one of the pollution and traffic
    tables, and surviving events with string names completes: the table it
    writes has one row per surviving event and reported variable, the
    message counts those rows and the surviving events, and the reported
    variables are exactly the pollution variables that have at least one
    record of quality ["ok"] (none, hence one ["sin_datos"] row per event,
    when the pollution file is missing or holds no such record). *)
Theorem main_report (loaded : Loaded) (raw : list raw_event) :
  eventos_raw loaded = Some raw ->
  df_contam loaded <> None \/ df_trafico loaded <> None ->
  parse_and_deduplicate_events raw <> [] ->
  (forall ev, ev ∈ parse_and_deduplicate_events raw ->
              exists s, nombre ev = PStr s) ->
  exists (rows : list Result.row) (vars : list string),
    main loaded
    = Ok {| printed := CorrelationComplete
                         (length rows)
                         (length (parse_and_deduplicate_events raw));
            written := Some rows |}
    /\ length rows = (length (parse_and_deduplicate_events raw)
                      * Nat.max 1 (length vars))%nat
    /\ map (fun r => (Result.evento_id r, Result.variable r)) rows
       = flat_map (fun ev => map (fun v => (evento_id ev, v))
                               (match vars with
                                | [] => ["sin_datos"%string]
                                | vs => vs
                                end))
                  (parse_and_deduplicate_events raw)
    /\ (forall v, v ∈ vars <->
                  exists r, r ∈ default [] (df_contam loaded)
                            /\ Contam.calidad_dato r = "ok"%string
                            /\ Contam.variable r = v).
Proof.
  intros Hraw Hsrc Hsome Hnames.
  set (events := parse_and_deduplicate_events raw) in *.
  pose proof (unique_days_build_daily (df_contam loaded)
                (df_trafico loaded) (df_meteo loaded)) as Hud.
  pose proof (fun v => variables_of_build_daily (df_contam loaded)
                         (df_trafico loaded) (df_meteo loaded) v) as Hvars.
  assert (Hmain : forall cd td md,
             build_daily_aggregations (df_contam loaded) (df_trafico loaded)
                                      (df_meteo loaded) = (cd, td, md) ->
             forall rows,
               compute_event_impact events cd td md = Ok rows ->
               rows <> [] ->
               main loaded
               = Ok {| printed := CorrelationComplete
                                    (length rows)
                                    (nunique (map Result.evento_id rows));
                       written := Some rows |}).
  { intros cd td md Hbuild rows Hrows Hne. unfold main. rewrite Hraw.
    destruct raw as [|r raw']; [done|]. fold events.
    destruct (df_contam loaded) as [c|] eqn:Hc,
             (df_trafico loaded) as [t|] eqn:Ht;
      try (by destruct Hsrc);
      rewrite Hbuild;
      (destruct events as [|ev0 evs] eqn:Hevs; [done|]);
      rewrite Hrows; cbn [rbind]; unfold save_results;
      (destruct rows as [|row0 rows']; [done|]); reflexivity. }
  destruct (build_daily_aggregations _ _ _) as [[cd td] md] eqn:Hbuild.
  simpl in Hud, Hvars.
  pose proof (compute_event_impact_Ok events cd td md Hud Hnames) as Hrows.
  set (rows := flat_map (event_rows_of (_get_all_event_dates events) cd td md)
                        events) in Hrows.
  pose proof (impact_rows_labels (_get_all_event_dates events) cd td md events)
    as Hlabels.
  pose proof (impact_rows_length (_get_all_event_dates events) cd td md events)
    as Hlen.
  fold rows in Hlabels, Hlen.
  exists rows, (variables_of cd).
  assert (Hne : rows <> []).
  { intros ->. simpl in Hlen. destruct events; [done|].
    destruct (variables_of cd); simpl in Hlen; lia. }
  rewrite (Hmain cd td md eq_refl rows Hrows Hne).
  split; [|split; [exact Hlen|split; [|exact Hvars]]].
  2:{ rewrite Hlabels. by destruct (variables_of cd). }
  do 3 f_equal.
  apply (nunique_event_ids events
           (match variables_of cd with [] => ["sin_datos"%string] | vs => vs end));
    [by destruct (variables_of cd)|apply NoDup_event_ids|done].
Qed.

End MainReport.

(** ** Weather context and the impact figures *)

Section WeatherIsDescriptive.

Context {sums : F64.Summation}.

Import F64.

Lemma is_baseline_day_rain_columns E aed (meteo meteo' : list MeteoDiaria.row) t :
  rain_columns meteo = rain_columns meteo' ->
  is_baseline_day E aed (Some meteo) t = is_baseline_day E aed (Some meteo') t.
Proof.
  intros Hrain. unfold is_baseline_day. f_equal.
  assert (Hd : map (fun r => dt_date (MeteoDiaria.fecha r)) meteo
               = map (fun r => dt_date (MeteoDiaria.fecha r)) meteo').
  { apply (f_equal (map (fun p => dt_date (fst p)))) in Hrain.
    unfold rain_columns in Hrain. by rewrite !map_map in Hrain. }
  assert (Hp : map MeteoDiaria.precip_media meteo
               = map MeteoDiaria.precip_media meteo').
  { apply (f_equal (map snd)) in Hrain.
    unfold rain_columns in Hrain. by rewrite !map_map in Hrain. }
  destruct meteo as [|x l], meteo' as [|x' l']; try done.
  cbn beta iota. by rewrite Hd, Hp.
Qed.

Lemma unique_days_rain_columns (meteo meteo' : list MeteoDiaria.row) :
  rain_columns meteo = rain_columns meteo' ->
  unique_days (Some meteo) -> unique_days (Some meteo').
Proof.
  intros Hrain. unfold unique_days. simpl.
  apply (f_equal (map (fun p => dt_date (fst p)))) in Hrain.
  unfold rain_columns in Hrain. rewrite !map_map in Hrain. simpl in Hrain.
  by rewrite Hrain.
Qed.

Lemma baseline_window_rain_columns {A} (fecha : A -> Timestamp) E aed
    (meteo meteo' : list MeteoDiaria.row) (df : list A) :
  rain_columns meteo = rain_columns meteo' ->
  baseline_window fecha E aed (Some meteo) df
  = baseline_window fecha E aed (Some meteo') df.
Proof.
  intros Hrain. unfold baseline_window. apply filter_ext'. intros r.
  by apply is_baseline_day_rain_columns.
Qed.

Lemma precip_of_filter (q : Timestamp -> bool) (meteo : list MeteoDiaria.row) :
  map MeteoDiaria.precip_media
      (List.filter (fun r => q (MeteoDiaria.fecha r)) meteo)
  = map snd (List.filter (fun p => q (fst p)) (rain_columns meteo)).
Proof.
  induction meteo as [|r meteo IH]; simpl; [done|].
  destruct (q (MeteoDiaria.fecha r)); simpl; by rewrite IH.
Qed.

(** The precipitation figures of an event depend on the days and the
    precipitation of the weather table only. *)
Lemma meteo_figures_rain_columns aed (meteo meteo' : list MeteoDiaria.row) ev :
  rain_columns meteo = rain_columns meteo' ->
  snd (fst (fst (meteo_figures aed (Some meteo) ev)))
  = snd (fst (fst (meteo_figures aed (Some meteo') ev)))
  /\ snd (meteo_figures aed (Some meteo) ev)
     = snd (meteo_figures aed (Some meteo') ev).
Proof.
  intros Hrain. unfold meteo_figures.
  destruct meteo as [|x l], meteo' as [|x' l']; try done.
  cbn [fst snd]. unfold event_window.
  rewrite (baseline_window_rain_columns _ _ _ (x :: l) (x' :: l') _ Hrain).
  unfold baseline_window.
  pose proof (precip_of_filter
                (fun t => bool_decide (dt_date t ∈ event_dates ev))) as Hev.
  pose proof (precip_of_filter
                (fun t => is_baseline_day ev aed (Some (x' :: l')) t)) as Hbl.
  cbv beta in Hev, Hbl.
  by rewrite !Hev, !Hbl, Hrain.
Qed.

Lemma event_rows_of_rain_columns aed contam traf
    (meteo meteo' : list MeteoDiaria.row) ev :
  rain_columns meteo = rain_columns meteo' ->
  map impact_columns (event_rows_of aed contam traf (Some meteo) ev)
  = map impact_columns (event_rows_of aed contam traf (Some meteo') ev).
Proof.
  intros Hrain. unfold event_rows_of.
  pose proof (meteo_figures_rain_columns aed meteo meteo' ev Hrain) as Hprecip.
  assert (Hti : traffic_figure aed traf (Some meteo) ev
                = traffic_figure aed traf (Some meteo') ev).
  { unfold traffic_figure. destruct traf as [[|x l]|]; try done.
    by rewrite (baseline_window_rain_columns _ _ _ meteo meteo'). }
  assert (Hfig : forall df, pollutant_figures aed (Some meteo) ev df
                            = pollutant_figures aed (Some meteo') ev df).
  { intros df. unfold pollutant_figures.
    by rewrite (baseline_window_rain_columns _ _ _ meteo meteo'). }
  rewrite Hti.
  destruct (meteo_figures aed (Some meteo) ev) as [[[a b] c] d].
  destruct (meteo_figures aed (Some meteo') ev) as [[[a' b'] c'] d'].
  cbn [fst snd] in Hprecip. destruct Hprecip as [-> ->].
  destruct (variables_of contam) as [|v vs]; [done|].
  rewrite !map_map. apply map_ext. intros w. rewrite Hfig.
  unfold contam_row, impact_columns.
  by destruct (pollutant_figures _ _ _ _) as [[[? ?] ?] ?].
Qed.

(** X12. The temperature column of the weather table is descriptive only:
    two weather tables with the same days and the same precipitation give
    the same baseline masks and impact tables that agree row by row on
    every column other than the two temperature columns. *)
Theorem temperature_is_descriptive
    events contam traf (meteo meteo' : list MeteoDiaria.row) :
  rain_columns meteo = rain_columns meteo' ->
  unique_days (Some meteo) ->
  (forall ev, ev ∈ events -> exists s, nombre ev = PStr s) ->
  (forall fechas E aed,
      _build_baseline_mask fechas E aed (Some meteo)
      = _build_baseline_mask fechas E aed (Some meteo'))
  /\ exists rows rows',
       compute_event_impact events contam traf (Some meteo) = Ok rows
       /\ compute_event_impact events contam traf (Some meteo') = Ok rows'
       /\ map impact_columns rows = map impact_columns rows'.
Proof.
  intros Hrain Hud Hnames.
  pose proof (unique_days_rain_columns _ _ Hrain Hud) as Hud'.
  split.
  - intros fechas E aed. rewrite !build_baseline_mask_Ok by done.
    f_equal. apply map_ext. intros t.
    by apply is_baseline_day_rain_columns.
  - do 2 eexists. split; [by apply compute_event_impact_Ok|].
    split; [by apply compute_event_impact_Ok|].
    rewrite !map_flat_map.
    generalize (_get_all_event_dates events). intros aed. clear Hnames.
    induction events as [|ev evs IH]; simpl; [done|].
    rewrite IH. f_equal. by apply event_rows_of_rain_columns.
Qed.

End WeatherIsDescriptive.

(** ** Format of the event identifier *)

Section EventIdFormat.

Lemma le_bytes_length (n : nat) (x : Z) : length (MD5.le_bytes n x) = n.
Proof. revert x. induction n as [|n IH]; intros x; simpl; [done|]. by rewrite IH. Qed.

Lemma le_bytes_range (n : nat) (x : Z) :
  Forall (fun b => 0 <= b < 256) (MD5.le_bytes n x).
Proof.
  revert x. induction n as [|n IH]; intros x; simpl; constructor; [|apply IH].
  change 255 with (Z.ones 8). rewrite Z.land_ones by lia.
  apply Z.mod_pos_bound. lia.
Qed.

Lemma digest_bytes (msg : list Z) :
  length (MD5.digest msg) = 16%nat
  /\ Forall (fun b => 0 <= b < 256) (MD5.digest msg).
Proof.
  unfold MD5.digest.
  destruct (fold_left MD5.process_block _ MD5.init) as [[[a b] c] d].
  split.
  - by rewrite !length_app, !le_bytes_length.
  - repeat (apply Forall_app; split); apply le_bytes_range.
Qed.

Lemma hex_digit_lower_hex (n : Z) :
  0 <= n < 16 -> In (MD5.hex_digit n) lower_hex.
Proof.
  intros Hn. rewrite <- (Z2Nat.id n) by lia.
  assert (Hm : (Z.to_nat n < 16)%nat) by lia.
  generalize dependent (Z.to_nat n). clear Hn. intros m Hm.
  do 16 (destruct m as [|m]; [vm_compute; tauto|]). lia.
Qed.

Lemma hex_of_bytes_chars (b : list Z) :
  Forall (fun x => 0 <= x < 256) b ->
  length (list_ascii_of_string (MD5.hex_of_bytes b)) = (2 * length b)%nat
  /\ Forall (fun c => In c lower_hex)
            (list_ascii_of_string (MD5.hex_of_bytes b)).
Proof.
  unfold MD5.hex_of_bytes. rewrite list_ascii_of_string_of_list_ascii.
  induction 1 as [|x l Hx Hl [IHlen IHhex]]; simpl; [by split|].
  split; [lia|]. constructor; [|constructor; [|done]].
  - apply hex_digit_lower_hex. rewrite Z.shiftr_div_pow2 by lia.
    change (2 ^ 4) with 16. split; [apply Z.div_pos; lia|].
    apply Z.div_lt_upper_bound; lia.
  - apply hex_digit_lower_hex. change 15 with (Z.ones 4).
    rewrite Z.land_ones by lia. apply Z.mod_pos_bound. lia.
Qed.

Lemma substring_prefix (n : nat) (s : string) :
  list_ascii_of_string (substring 0 n s) = firstn n (list_ascii_of_string s).
Proof.
  revert s. induction n as [|n IH]; intros s; simpl.
  - by destruct s.
  - destruct s as [|c s]; simpl; [done|]. by rewrite IH.
Qed.

Lemma In_firstn_In {A} (n : nat) (l : list A) (x : A) :
  In x (firstn n l) -> In x l.
Proof.
  revert l. induction n as [|n IH]; intros [|y l]; simpl; try done.
  intros [->|H]; [by left|right; by apply IH].
Qed.

Lemma string_length_chars (s : string) :
  String.length s = length (list_ascii_of_string s).
Proof. induction s as [|c s IH]; simpl; [done|]. by rewrite IH. Qed.

(** X13. For a JSON object whose strings are well-formed text (a string
    with a lone surrogate has no UTF-8 encoding, raises on [encode] in the
    source and is not represented here), the identifier is produced
    whatever the fields hold and is twelve lowercase hexadecimal
    characters. *)
Theorem event_id_format (d : gmap string pyval) :
  exists id,
    _generate_event_id (RDict d) = Ok id
    /\ String.length id = 12%nat
    /\ Forall (fun c => In c lower_hex) (list_ascii_of_string id).
Proof.
  rewrite generate_event_id_dict. eexists. split; [reflexivity|].
  set (raw := (_ ++ _)%string).
  unfold MD5.hexdigest.
  destruct (digest_bytes (MD5.bytes_of_string raw)) as [Hlen Hrange].
  destruct (hex_of_bytes_chars _ Hrange) as [Hlen' Hhex].
  rewrite Hlen in Hlen'.
  rewrite string_length_chars, substring_prefix. split.
  - rewrite length_firstn. lia.
  - apply Forall_forall. intros c Hc.
    rewrite Forall_forall in Hhex. apply Hhex.
    apply list_elem_of_In. eapply In_firstn_In. apply list_elem_of_In, Hc.
Qed.

End EventIdFormat.

(** ** The pipeline around the module *)

Section PipelineFacts.

(** The name of an event, as opposed to the display name of a module. *)
Local Abbreviation event_nombre := nombre (only parsing).

Import Pipeline.

Context {parser : DateParser} {sums : F64.Summation}.

Lemma save_results_written (df : list Result.row) :
  exists o : Outcome,
    match save_results df with
    | Some df' =>
        Ok {| printed := CorrelationComplete
                           (length df') (nunique (map Result.evento_id df'));
              written := Some df' |}
    | None => Ok {| printed := CompletedWithoutResults; written := None |}
    end = Ok o.
Proof. destruct (save_results df); eauto. Qed.

(** [main] returns when its surviving events have string names. *)
Lemma main_returns (loaded : Loaded) :
  (forall raw, eventos_raw loaded = Some raw ->
     forall ev, ev ∈ parse_and_deduplicate_events raw ->
                exists s, event_nombre ev = PStr s) ->
  exists o, main loaded = Ok o.
Proof.
  intros Hnames.
  pose proof (unique_days_build_daily (df_contam loaded)
                (df_trafico loaded) (df_meteo loaded)) as Hud.
  unfold main.
  destruct (eventos_raw loaded) as [[|r raw]|] eqn:Hraw; [eauto| |eauto].
  specialize (Hnames (r :: raw) eq_refl).
  set (events := parse_and_deduplicate_events (r :: raw)) in *.
  destruct (build_daily_aggregations _ _ _) as [[cd td] md]. simpl in Hud.
  assert (Hcore :
    exists o,
      match events with
      | [] => Ok {| printed := ErrorNoEventParsed; written := None |}
      | _ :: _ =>
          let* df_results := compute_event_impact events cd td md in
          match save_results df_results with
          | Some df =>
              Ok {| printed := CorrelationComplete
                                 (length df)
                                 (nunique (map Result.evento_id df));
                    written := Some df |}
          | None =>
              Ok {| printed := CompletedWithoutResults; written := None |}
          end
      end = Ok o).
  { pose proof (compute_event_impact_Ok events cd td md Hud Hnames) as Hok.
    destruct events as [|ev0 evs]; [eauto|].
    rewrite Hok. cbn [rbind]. apply save_results_written. }
  destruct (df_contam loaded), (df_trafico loaded); eauto.
Qed.

(** X14. How the pipeline records a run of the correlation module that
    stops with an error message and writes nothing (no events, neither the
    pollution nor the traffic table) or whose surviving events, if any,
    have string names: as a success, without an error text; a pipeline of
    this module alone then ends with exit status 0. *)
Theorem correlation_phase_status (info : ModuleInfo) (loaded : Loaded) :
  eventos_raw loaded = None \/ eventos_raw loaded = Some []
  \/ (df_contam loaded = None /\ df_trafico loaded = None)
  \/ (exists raw,
        eventos_raw loaded = Some raw
        /\ forall ev, ev ∈ parse_and_deduplicate_events raw ->
                      exists s, event_nombre ev = PStr s) ->
  let r := run_module info (of_main (main loaded)) in
  estado r = success /\ error r = None /\ exit_status [r] = 0.
Proof.
  intros Hrun r. subst r.
  assert (Hret : exists o, main loaded = Ok o).
  { destruct Hrun as [H|[H|[[Hc Ht]|(raw & Hraw & Hnames)]]].
    - unfold main. rewrite H. eauto.
    - unfold main. rewrite H. eauto.
    - unfold main. rewrite Hc, Ht. destruct (eventos_raw loaded) as [[|]|]; eauto.
    - apply main_returns. intros raw' Hraw'. by simplify_eq. }
  destruct Hret as [o ->]. done.
Qed.

(** X15. The pipeline runs every module once, in order, whatever the earlier
    ones did; each result is a success, a failure or an import error, so
    the three counts of the summary add up to the number of modules; and
    the exit status is 1 exactly when some module failed or could not be
    imported. *)
Theorem pipeline_exit_status (modules : list (ModuleInfo * Behaviour)) :
  let results := run_all modules in
  map modulo results = map (fun m => mod_name (fst m)) modules
  /\ (count_estado is_success results + count_estado is_failed results
      + count_estado is_import_error results = length modules)%nat
  /\ (exit_status results = 1 <->
      exists m, m ∈ modules /\ snd m <> MainReturns)
  /\ (exit_status results = 0 <->
      forall m, m ∈ modules -> snd m = MainReturns).
Proof.
  intros results. subst results.
  pose (bad := fun m : ModuleInfo * Behaviour =>
                 match snd m with MainReturns => false | _ => true end).
  assert (Hbad : forall m, bad m = true <-> snd m <> MainReturns).
  { intros [info b]. unfold bad. simpl. by destruct b. }
  assert (Hcount :
    count_estado (fun e => is_failed e || is_import_error e) (run_all modules)
    = length (List.filter bad modules)).
  { unfold count_estado, run_all.
    induction modules as [|[info b] l IH]; [done|].
    cbn [map List.filter]. unfold bad at 1. cbn [fst snd].
    destruct b; simpl; by rewrite IH. }
  assert (Hpos :
    (0 < length (List.filter bad modules))%nat
    <-> exists m, m ∈ modules /\ snd m <> MainReturns).
  { split.
    - intros Hlen.
      destruct (List.filter bad modules) as [|m l] eqn:Hf;
        [simpl in Hlen; lia|].
      assert (Hm : In m (List.filter bad modules)) by (rewrite Hf; by left).
      apply filter_In in Hm as [Hm Hb]. exists m.
      split; [by apply list_elem_of_In|]. by apply Hbad.
    - intros (m & Hm & Hb).
      assert (Hin : In m (List.filter bad modules)).
      { apply filter_In. split; [by apply list_elem_of_In|]. by apply Hbad. }
      destruct (List.filter bad modules); [done|]. simpl. lia. }
  split; [|split; [|split]].
  - unfold run_all. rewrite map_map. apply map_ext. by intros [info []].
  - clear Hcount Hpos. unfold count_estado, run_all.
    induction modules as [|[info b] l IH]; simpl; [done|].
    destruct b; simpl; lia.
  - unfold exit_status. rewrite Hcount, <- Hpos.
    destruct (Nat.ltb_spec 0 (length (List.filter bad modules)));
      split; try done; lia.
  - unfold exit_status. rewrite Hcount.
    destruct (Nat.ltb_spec 0 (length (List.filter bad modules))) as [Hlt|Hge].
    + split; [done|]. intros Hall. apply Hpos in Hlt as (m & Hm & Hb).
      destruct Hb. by apply Hall.
    + split; [|done]. intros _ m Hm.
      destruct (bad m) eqn:Hb.
      * assert (0 < length (List.filter bad modules))%nat; [|lia].
        apply Hpos. exists m. split; [done|]. by apply Hbad.
      * destruct m as [info b]. unfold bad in Hb. simpl in *. by destruct b.
Qed.

End PipelineFacts.

(** ** The properties at the sample inputs *)

Section MoreSampleRuns.

#[local] Existing Instance F64.plain_sums.

Lemma single_day_and_defaults_witness :
  exists ev,
    @parse_event SimpleDates.parser (RDict Sample.match_day) = Ok (Some ev)
    /\ fecha_inicio ev = ymd 2026 3 7
    /\ fecha_fin ev = ymd 2026 3 7
    /\ nombre ev = PStr "Levante UD"
    /\ tipo_evento ev = PStr "desconocido".
Proof.
  destruct (@single_day_and_defaults SimpleDates.parser
              Sample.match_day (ymd 2026 3 7))
    as (ev & Hev & Hs & He & Hn & Ht & _).
  - vm_compute. reflexivity.
  - vm_compute. reflexivity.
  - exists ev. repeat split; assumption.
Defined.

Lemma event_days_witness :
  size (event_dates Sample.match_event) = 1%nat
  /\ dt_date (fecha_fin Sample.match_event) ∈ event_dates Sample.match_event.
Proof.
  destruct (event_days Sample.match_event) as (_ & Hsize & Hend & _).
  - vm_compute. discriminate.
  - split; [exact Hsize|]. apply Hend. vm_compute. discriminate.
Defined.

Lemma impact_table_shape_witness :
  exists rows,
    compute_event_impact Sample.events (Some Sample.contam_diaria)
                         (Some Sample.trafico_diario)
                         (Some Sample.meteo_diaria)
    = Ok rows
    /\ map (fun r => (Result.evento_id r, Result.variable r)) rows
       = [("b9edffd123fd"%string, "NO2"%string)]
    /\ length rows = 1%nat.
Proof.
  destruct (impact_table_shape Sample.events (Some Sample.contam_diaria)
              (Some Sample.trafico_diario) (Some Sample.meteo_diaria))
    as (rows & Hrows & Hlabels & Hlen & _).
  - exact sample_unique_days.
  - intros ev Hev. rewrite sample_events in Hev.
    apply list_elem_of_In in Hev. destruct Hev as [<-|[]]. by eexists.
  - exists rows. split; [exact Hrows|]. split.
    + rewrite Hlabels. vm_compute. reflexivity.
    + rewrite Hlen. vm_compute. reflexivity.
Defined.

Lemma main_report_witness :
  exists rows,
    main (parser := SimpleDates.parser)
      {| df_contam := None;
         df_trafico := Some [ {| Trafico.fecha := ymd 2026 3 7;
                                 Trafico.calidad_dato := "ok" |} ];
         df_meteo := None;
         eventos_raw := Some [RDict Sample.match_day; RNotDict PNone] |}
    = Ok {| printed := CorrelationComplete (length rows) 1;
            written := Some rows |}
    /\ map (fun r => (Result.evento_id r, Result.variable r)) rows
       = [("b9edffd123fd"%string, "sin_datos"%string)].
Proof.
  assert (Hevents :
            @parse_and_deduplicate_events SimpleDates.parser
              [RDict Sample.match_day; RNotDict PNone]
            = [Sample.match_event]) by (vm_compute; reflexivity).
  destruct (main_report (parser := SimpleDates.parser)
              {| df_contam := None;
                 df_trafico := Some [ {| Trafico.fecha := ymd 2026 3 7;
                                         Trafico.calidad_dato := "ok" |} ];
                 df_meteo := None;
                 eventos_raw := Some [RDict Sample.match_day; RNotDict PNone] |}
              [RDict Sample.match_day; RNotDict PNone])
    as (rows & vars & Hmain & _ & Hlabels & Hvars).
  - reflexivity.
  - right. discriminate.
  - rewrite Hevents. discriminate.
  - intros ev Hev. rewrite Hevents in Hev.
    apply list_elem_of_In in Hev. destruct Hev as [<-|[]]. by eexists.
  - rewrite Hevents in Hmain, Hlabels. exists rows. split; [exact Hmain|].
    rewrite Hlabels. destruct vars as [|v vars]; [reflexivity|].
    destruct (proj1 (Hvars v)) as (r & Hr & _);
      [apply elem_of_cons; left; reflexivity|].
    exact (False_ind _ (proj1 (elem_of_nil r) Hr)).
Defined.

Lemma temperature_is_descriptive_witness :
  exists rows rows',
    compute_event_impact Sample.events (Some Sample.contam_diaria)
                         (Some Sample.trafico_diario)
                         (Some Sample.meteo_diaria)
    = Ok rows
    /\ compute_event_impact Sample.events (Some Sample.contam_diaria)
                            (Some Sample.trafico_diario)
                            (Some Sample.meteo_diaria_warmer)
       = Ok rows'
    /\ map impact_columns rows = map impact_columns rows'.
Proof.
  destruct (temperature_is_descriptive
              Sample.events (Some Sample.contam_diaria)
              (Some Sample.trafico_diario)
              Sample.meteo_diaria Sample.meteo_diaria_warmer)
    as [_ H].
  - vm_compute. reflexivity.
  - exact sample_unique_days.
  - intros ev Hev. rewrite sample_events in Hev.
    apply list_elem_of_In in Hev. destruct Hev as [<-|[]]. by eexists.
  - exact H.
Defined.

Lemma every_event_has_a_row_witness :
  exists rows,
    compute_event_impact Sample.events None (Some Sample.trafico_diario)
                         (Some Sample.meteo_diaria)
    = Ok rows
    /\ (forall ev, ev ∈ Sample.events ->
          exists row, row ∈ rows /\ Result.evento_id row = evento_id ev)
    /\ exists row,
         List.filter
           (fun r => String.eqb (Result.evento_id r)
                                (evento_id Sample.match_event)) rows
         = [row]
         /\ Result.variable row = "sin_datos"%string.
Proof.
  destruct (every_event_has_a_row (parser := SimpleDates.parser)
              [RDict Sample.match_day] None (Some Sample.trafico_diario)
              (Some Sample.meteo_diaria))
    as (rows & Hrows & Hall & Hsin).
  - exact sample_unique_days.
  - intros ev Hev. fold Sample.events in Hev. rewrite sample_events in Hev.
    apply list_elem_of_In in Hev. destruct Hev as [<-|[]]. by eexists.
  - exists rows. split; [exact Hrows|]. split; [exact Hall|].
    destruct (Hsin eq_refl Sample.match_event) as (row & Hrow & Hvar & _).
    + fold Sample.events. rewrite sample_events. left.
    + exists row. split; [exact Hrow|exact Hvar].
Defined.

Lemma sample_events_end_late :
  forall ev, ev ∈ Sample.events -> ends_late_in_day ev.
Proof.
  intros ev Hev. rewrite sample_events in Hev.
  apply list_elem_of_In in Hev. destruct Hev as [<-|[]].
  unfold ends_late_in_day. vm_compute. discriminate.
Qed.

Lemma baseline_mask_by_days_witness :
  exists mask,
    _build_baseline_mask (map ContamDiaria.fecha Sample.contam_diaria)
                         Sample.match_event
                         (_get_all_event_dates Sample.events)
                         (Some Sample.meteo_diaria) = Ok mask
    /\ forall (i : nat) (t : Timestamp),
         map ContamDiaria.fecha Sample.contam_diaria !! i = Some t ->
         (mask !! i = Some true <->
          (exists d, in_date_span Sample.match_event d
                     /\ month (midnight d) = month t)
          /\ (exists d, in_date_span Sample.match_event d
                        /\ dayofweek (midnight d) = dayofweek t)
          /\ (forall ev, ev ∈ Sample.events -> ~ in_date_span ev (dt_date t))
          /\ (forall r, r ∈ default [] (Some Sample.meteo_diaria) ->
                        dt_date (MeteoDiaria.fecha r) = dt_date t ->
                        (5 <? MeteoDiaria.precip_media r)%float = false)).
Proof.
  destruct (baseline_mask_by_days
              Sample.events Sample.match_event
              (map ContamDiaria.fecha Sample.contam_diaria)
              (Some Sample.meteo_diaria) sample_unique_days)
    as (mask & Hmask & _ & _ & Hspan).
  exists mask. split; [exact Hmask|].
  apply Hspan.
  - unfold ends_late_in_day. vm_compute. discriminate.
  - exact sample_events_end_late.
Defined.

Lemma correlation_phase_status_witness :
  Pipeline.estado
    (Pipeline.run_module
       {| Pipeline.mod_name := "correlacion_eventos";
          Pipeline.mod_display := "Correlacion Eventos";
          Pipeline.mod_fase := "5.5" |}
       (Pipeline.of_main
          (main (parser := SimpleDates.parser)
             {| df_contam := None;
                df_trafico := None;
                df_meteo := None;
                eventos_raw := Some [RDict Sample.match_day] |})))
  = Pipeline.success.
Proof.
  apply (correlation_phase_status (parser := SimpleDates.parser)).
  right. right. left. split; reflexivity.
Defined.

End MoreSampleRuns.
